(** * AcademicJournalClassifier: resolver chain, content validator, identity merger

    A shallow embedding of the decision logic of

    - [download_pdfs_from_csv.py]  (resolver chain, validator, CSV orchestrator),
    - [scraper.py]                 (topic downloader with its own resolver),
    - [vision2030_multi_source_harvest.py] (deduplicating harvester),

    together with the properties stated about them.

    Python [str] values are modelled by [string]; a character is read as
    the code point U+0000..U+00FF it denotes, and the character classes
    below agree with CPython on that range.  Python [bytes] values are
    [list byte].  Dictionaries with string keys are [gmap string _],
    Python sets are [gset]. *)

From Stdlib Require Import Ascii String.
From Stdlib.Strings Require Import Byte.
From stdpp Require Import gmap strings list fin_maps pretty sorting.

(* ===================================================================== *)
(** ** Python string primitives *)
(* ===================================================================== *)

Module Py.

Definition code (c : ascii) : nat := nat_of_ascii c.

Definition between (lo hi n : nat) : bool := (lo <=? n)%nat && (n <=? hi)%nat.

(** [str.isspace] on one character; also the class [\s] of [re]. *)
Definition isspace (c : ascii) : bool :=
  let n := code c in
  between 9 13 n || between 28 32 n || (n =? 133)%nat || (n =? 160)%nat.

(** The class [\w] of [re] for [str] patterns. *)
Definition isword (c : ascii) : bool :=
  let n := code c in
  between 48 57 n || between 65 90 n || (n =? 95)%nat || between 97 122 n
  || (n =? 170)%nat || between 178 179 n || (n =? 181)%nat
  || between 185 186 n || between 188 190 n
  || between 192 214 n || between 216 246 n || between 248 255 n.

(** [str.lower] on one character. *)
Definition lower_char (c : ascii) : ascii :=
  let n := code c in
  if between 65 90 n || between 192 214 n || between 216 222 n
  then ascii_of_nat (n + 32) else c.

Fixpoint map_chars (f : ascii -> ascii) (s : string) : string :=
  match s with
  | EmptyString => EmptyString
  | String c s' => String (f c) (map_chars f s')
  end.

Definition lower : string -> string := map_chars lower_char.

(** The string made of one double-quote character. *)
Definition dq : string := String "034"%char EmptyString.

(** Every character of [s] is in the class [p]. *)
Fixpoint all_chars (p : ascii -> bool) (s : string) : bool :=
  match s with
  | EmptyString => true
  | String c s' => p c && all_chars p s'
  end.

(** Truthiness of a [str]. *)
Definition truthy (s : string) : bool :=
  match s with EmptyString => false | _ => true end.

(** [a or b] on strings. *)
Definition or_else (a b : string) : string := if truthy a then a else b.

(** [d.get(k) or ""] : a missing key and a [None] value both read as "". *)
Definition opt_str (o : option string) : string := default "" o.

Definition startswith (s p : string) : bool := String.prefix p s.

Fixpoint drop (n : nat) (s : string) : string :=
  match n, s with
  | O, _ => s
  | S k, EmptyString => EmptyString
  | S k, String _ s' => drop k s'
  end.

Fixpoint take (n : nat) (s : string) : string :=
  match n, s with
  | O, _ => EmptyString
  | S k, EmptyString => EmptyString
  | S k, String c s' => String c (take k s')
  end.

Definition endswith (s suf : string) : bool :=
  (String.length suf <=? String.length s)%nat
  && String.eqb (drop (String.length s - String.length suf) s) suf.

(** [sub in s]. *)
Fixpoint contains (sub s : string) : bool :=
  String.prefix sub s
  || match s with
     | EmptyString => false
     | String _ s' => contains sub s'
     end.

(** [s.lstrip(chars)] and [s.rstrip(chars)], the set of characters
    given as a predicate. *)
Fixpoint lstrip_by (cls : ascii -> bool) (s : string) : string :=
  match s with
  | EmptyString => EmptyString
  | String c s' => if cls c then lstrip_by cls s' else s
  end.

Fixpoint rstrip_by (cls : ascii -> bool) (s : string) : string :=
  match s with
  | EmptyString => EmptyString
  | String c s' =>
      let r := rstrip_by cls s' in
      if cls c && negb (truthy r) then EmptyString else String c r
  end.

Definition strip_by (cls : ascii -> bool) (s : string) : string :=
  rstrip_by cls (lstrip_by cls s).

(** [s.strip()] *)
Definition strip : string -> string := strip_by isspace.

(** [s.replace(old, new)] for a non-empty [old]: the occurrences are
    replaced from the left and do not overlap.  [skip] counts the
    characters of a matched occurrence that are still to be dropped. *)
Fixpoint replace_go (old new : string) (skip : nat) (s : string) : string :=
  match s with
  | EmptyString => EmptyString
  | String c s' =>
      match skip with
      | S k => replace_go old new k s'
      | O =>
          if String.prefix old s
          then new +:+ replace_go old new (String.length old - 1) s'
          else String c (replace_go old new 0 s')
      end
  end.

Definition replace (old new s : string) : string := replace_go old new 0 s.

(** [s.split(sep, 1)[1]] for a one-character separator that occurs in
    [s]: the text after its first occurrence. *)
Fixpoint after_first (sep : ascii) (s : string) : string :=
  match s with
  | EmptyString => EmptyString
  | String c s' => if Ascii.eqb c sep then s' else after_first sep s'
  end.

(** [s.split(sep)[0]] for a one-character separator. *)
Fixpoint before_first (sep : ascii) (s : string) : string :=
  match s with
  | EmptyString => EmptyString
  | String c s' =>
      if Ascii.eqb c sep then EmptyString else String c (before_first sep s')
  end.

(** [re.sub(r"[...]+", rep, s)] for a character class [cls]: each
    maximal run of characters of the class becomes one copy of [rep].
    [in_run] tells that the previous character belonged to a run that
    has been replaced already. *)
Fixpoint sub_runs (cls : ascii -> bool) (rep : string) (in_run : bool)
    (s : string) : string :=
  match s with
  | EmptyString => EmptyString
  | String c s' =>
      if cls c
      then (if in_run then sub_runs cls rep true s'
            else rep +:+ sub_runs cls rep true s')
      else String c (sub_runs cls rep false s')
  end.

(** Truthiness of a value that is [None] or a [str]. *)
Definition truthy_opt (o : option string) : bool :=
  match o with Some s => truthy s | None => false end.

(** [a / 2**s] for an [int] [a >= 0] and [s >= 1], rounded to the
    nearest integer, a tie going to the even one. *)
Definition round_half_even (a s : Z) : Z :=
  let m0 := Z.shiftr a s in
  let rem := Z.land a (Z.ones s) in
  let half := Z.shiftl 1 (s - 1) in
  if (half <? rem)%Z || ((rem =? half)%Z && Z.odd m0) then (m0 + 1)%Z else m0.

(** [int(n / 2**k)] for an [int] [n] and [k >= 0].  The quotient of
    two [int]s is the [float] nearest to the exact quotient, with a
    mantissa of 53 bits and a tie going to the even mantissa; the
    division raises [OverflowError] ([None]) when that is beyond the
    range of [float]; [int] then cuts off the fraction. *)
Definition int_truediv_pow2 (n k : Z) : option Z :=
  let a := Z.abs n in
  if (a =? 0)%Z then Some 0%Z
  else
    let s := (Z.log2 a + 1 - 53)%Z in
    if (s <=? 0)%Z then Some (Z.sgn n * Z.shiftr a k)%Z
    else
      let m := round_half_even a s in
      (* the quotient as a float is m * 2**(s - k) *)
      if (2 ^ (1024 + k) <=? m * 2 ^ s)%Z then None
      else Some (Z.sgn n * (if (k <=? s)%Z then Z.shiftl m (s - k)
                            else Z.shiftr m (k - s)))%Z.

(** [os.path.join(a, b)] on a POSIX system. *)
Definition path_join (a b : string) : string :=
  if startswith b "/" then b
  else if negb (truthy a) || endswith a "/" then a +:+ b
  else a +:+ "/" +:+ b.

End Py.

(* ===================================================================== *)
(** ** Identity merger ([vision2030_multi_source_harvest.py]) *)
(* ===================================================================== *)

Module Harvest.

(** [normalize_title] *)
Definition normalize_title (title : string) : string :=
  if negb (Py.truthy title) then ""
  else
    let t := Py.lower title in
    (* re.sub(r"[^\w\s]", " ", t) *)
    let t := Py.map_chars
               (fun c => if Py.isword c || Py.isspace c then c else " "%char) t in
    (* re.sub(r"\s+", " ", t).strip() *)
    Py.strip (Py.sub_runs Py.isspace " " false t).

(** The shape of a normalized title: words made of lower-case word
    characters (letters, digits, the underscore), separated by single
    spaces, with no space at either end.  [after_space] tells that the
    text read so far is empty or ends in a space. *)
Definition lower_word (c : ascii) : bool :=
  Py.isword c && Ascii.eqb (Py.lower_char c) c.

Fixpoint words_from (after_space : bool) (s : string) : bool :=
  match s with
  | EmptyString => negb after_space
  | String c s' =>
      if Ascii.eqb c " " then negb after_space && words_from true s'
      else lower_word c && words_from false s'
  end.

Definition is_normalized (s : string) : bool :=
  match s with
  | EmptyString => true
  | _ => words_from true s
  end.

(** The same without the conditions on the two ends. *)
Fixpoint spaced_words (after_space : bool) (s : string) : bool :=
  match s with
  | EmptyString => true
  | String c s' =>
      if Ascii.eqb c " " then negb after_space && spaced_words true s'
      else lower_word c && spaced_words false s'
  end.

(** The words of a text: its maximal runs of word characters, in the
    order of the text. *)
Definition starts_with_word (s : string) : bool :=
  match s with
  | String c _ => Py.isword c
  | EmptyString => false
  end.

Definition starts_with_space (s : string) : bool :=
  match s with
  | String c _ => Py.isspace c
  | EmptyString => false
  end.

Fixpoint title_words (s : string) : list string :=
  match s with
  | EmptyString => []
  | String c s' =>
      if Py.isword c then
        match title_words s' with
        | w :: ws => if starts_with_word s' then String c w :: ws
                     else String c "" :: w :: ws
        | [] => [String c ""]
        end
      else title_words s'
  end.

(** A harvested item: the dictionary built by [query_openalex],
    [query_arxiv] or [query_core].  A key bound to [None] is modelled
    as an absent key; the code reads both through [.get(k) or ...]. *)
Abbreviation Item := (gmap string string).

(** The deduplication key computed at the head of each ingestion loop:
<<
    key = (item.get("doi") or "").lower().strip()
    if not key:
        key = normalize_title(item.get("title") or "")
>> *)
Definition canonical_key (item : Item) : string :=
  let key := Py.strip (Py.lower (Py.opt_str (item !! "doi"))) in
  if Py.truthy key then key
  else normalize_title (Py.opt_str (item !! "title")).

(** A row of [rows]: the item's fields (with [query_sector]) and the
    two Python sets. *)
Record Rec := {
  fields : gmap string string;
  assigned_sectors : gset string;
  sources : gset string;
}.

(** The state of [harvest_all].  [rows] and the values of [seen] are
    references to the same dictionaries: a record is identified by its
    position in [rows], and [seen] maps a key to that position, so an
    update through [seen] is visible in [rows]. *)
Record State := {
  seen : gmap string nat;
  rows : list Rec;
}.

Definition empty_state : State := {| seen := ∅; rows := [] |}.

Definition add_provenance (sector tag : string) (r : Rec) : Rec :=
  {| fields := fields r;
     assigned_sectors := assigned_sectors r ∪ {[ sector ]};
     sources := sources r ∪ {[ tag ]} |}.

Definition new_rec (sector tag : string) (item : Item) : Rec :=
  {| fields := <["query_sector" := sector]> item;
     assigned_sectors := {[ sector ]};
     sources := {[ tag ]} |}.

(** The body of the three ingestion loops; [tag] is the source literal
    of the loop ("openalex", "arxiv" or "core"). *)
Definition ingest (tag sector : string) (item : Item) (st : State) : State :=
  let key := canonical_key item in
  if negb (Py.truthy key) then st
  else
    match seen st !! key with
    | Some i =>
        {| seen := seen st;
           rows := alter (add_provenance sector tag) i (rows st) |}
    | None =>
        {| seen := <[key := length (rows st)]> (seen st);
           rows := rows st ++ [new_rec sector tag item] |}
    end.

Definition ingest_all (tag sector : string) (items : list Item) (st : State)
  : State :=
  fold_left (fun s item => ingest tag sector item s) items st.

(** One iteration of the loop over sectors, given what the three
    fetchers returned ([core_items] is [None] without a CORE key). *)
Definition harvest_sector (sector : string)
    (open_items arxiv_items : list Item) (core_items : option (list Item))
    (st : State) : State :=
  let st := ingest_all "openalex" sector open_items st in
  let st := ingest_all "arxiv" sector arxiv_items st in
  match core_items with
  | Some items => ingest_all "core" sector items st
  | None => st
  end.

(** The record a key denotes. *)
Definition merged (st : State) (key : string) : option Rec :=
  i ← seen st !! key; rows st !! i.

(** Every key of [seen] points into [rows]. *)
Definition wf (st : State) : Prop :=
  ∀ k i, seen st !! k = Some i → i < length (rows st).

End Harvest.

(* ===================================================================== *)
(** ** The outside world: HTTP exchanges and the file system *)
(* ===================================================================== *)

Module Web.

(** Exceptions, as far as the handlers tell them apart:
    [requests.HTTPError] (raised by [raise_for_status]) carries the
    status code of its response, any other exception its [str(e)]. *)
Inductive exn :=
| HTTPError (status_code : nat)
| Error (msg : string).

Inductive res (A : Type) :=
| Ok (a : A)
| Raise (e : exn).
Arguments Ok {A} a.
Arguments Raise {A} e.

Inductive Verb := GET | HEAD.

(** What the code passes to [requests.get] / [requests.head]; the
    [User-Agent] header and the timeouts are the same throughout a run
    and are left out. *)
Record Request := {
  verb : Verb;
  target : string;
  params : list (string * string);
  accept : option string;          (* the Accept header, when set *)
  streamed : bool;                 (* stream=True *)
}.

(** One location object of the open-access lookup answer. *)
Record OALocation := {
  url_for_pdf : option string;
  oa_url : option string;
}.

(** The JSON object of the open-access lookup answer. *)
Record OAJson := {
  best_oa_location : option OALocation;
  oa_locations : list OALocation;
}.

(** What the iterator of [iter_content] does at each [next]. *)
Inductive StreamEv :=
| Chunk (data : list byte)
| ReadError (e : exn).

Record Response := {
  status_code : nat;
  url : string;                    (* r.url, after redirects *)
  content_type : option string;    (* r.headers.get("Content-Type") *)
  text : string;                   (* r.text *)
  json : option OAJson;            (* r.json(); None when it raises *)
  raw4 : option (list byte);       (* r.raw.read(4); None when it raises *)
  stream : list StreamEv;          (* r.iter_content(chunk_size=4096) *)
}.

(** The strategies of the resolver chain, in the order of the chain,
    and the phases that follow resolution.  Every request is logged
    with the strategy or phase that issued it. *)
Inductive Stage :=
| csv_direct
| source_construct
| api_lookup
| content_negotiation
| candidate_probe
| landing_scrape
| validation
| repair
| revalidation.

Definition rank (s : Stage) : nat :=
  match s with
  | csv_direct => 1
  | source_construct => 2
  | api_lookup => 3
  | content_negotiation => 4
  | candidate_probe => 5
  | landing_scrape => 6
  | validation => 7
  | repair => 8
  | revalidation => 9
  end.

Record World := {
  trace : list (Stage * Request);        (* requests issued so far *)
  files : gmap string (list byte);       (* files on disk *)
}.

(** Code with effects on the world. *)
Definition M (A : Type) : Type := World -> A * World.

Definition ret {A} (a : A) : M A := fun w => (a, w).
Definition bind {A B} (m : M A) (k : A -> M B) : M B :=
  fun w => let (a, w') := m w in k a w'.

#[global] Instance M_ret : MRet M := @ret.
#[global] Instance M_bind : MBind M := fun A B k m => bind m k.

(** [r.raise_for_status()] *)
Definition raise_for_status (r : Response) : option exn :=
  if (400 <=? status_code r)%nat && (status_code r <? 600)%nat
  then Some (HTTPError (status_code r)) else None.

(** [(r.headers.get("Content-Type") or "").lower()] *)
Definition ctype_of (r : Response) : string :=
  Py.lower (Py.opt_str (content_type r)).

Definition PDF_MAGIC : list byte :=
  Eval cbv in list_byte_of_string "%PDF".

(** [needle in data] on [bytes]. *)
Fixpoint bytes_prefix (p d : list byte) : bool :=
  match p, d with
  | [], _ => true
  | _ :: _, [] => false
  | a :: p', b :: d' => Byte.eqb a b && bytes_prefix p' d'
  end.

Fixpoint bytes_contains (needle data : list byte) : bool :=
  bytes_prefix needle data
  || match data with
     | [] => false
     | _ :: data' => bytes_contains needle data'
     end.

Fixpoint bytes_eqb (a b : list byte) : bool :=
  match a, b with
  | [], [] => true
  | x :: a', y :: b' => Byte.eqb x y && bytes_eqb a' b'
  | _, _ => false
  end.

End Web.

(* ===================================================================== *)
(** ** Landing-page scraping ([extract_pdf_from_html], same in both files) *)
(* ===================================================================== *)

Module Html.
Import Web.

(** An element of the parsed document: its name and its attributes.
    The parsed document is the list of its elements in document order,
    which is the order [find] and [find_all] visit them in. *)
Record Tag := {
  tag_name : string;
  attrs : list (string * string);
}.

(** [tag.get(name)]: the value of an attribute; the parser keeps the
    last value of a repeated attribute. *)
Fixpoint get (name : string) (l : list (string * string)) : option string :=
  match l with
  | [] => None
  | (k, v) :: l' =>
      match get name l' with
      | Some v' => Some v'
      | None => if String.eqb k name then Some v else None
      end
  end.

Definition attr (t : Tag) (name : string) : option string := get name (attrs t).

(** [soup.find(name, attrs={key: value})] *)
Definition find (soup : list Tag) (name key value : string) : option Tag :=
  List.find
    (fun t => String.eqb (tag_name t) name
              && match attr t key with
                 | Some v => String.eqb v value
                 | None => false
                 end)
    soup.

(** [soup.find_all(name, href=True)] *)
Definition find_all_href (soup : list Tag) (name : string) : list Tag :=
  List.filter
    (fun t => String.eqb (tag_name t) name
              && match attr t "href" with Some _ => true | None => false end)
    soup.

(** *** The regular expression of the fallback scan

    The pattern is [https?://C+\.pdf] under IGNORECASE, where [C] is
    the class of the characters that are neither whitespace nor one of
    the two quote characters nor an angle bracket. *)

(** The class [C]. *)
Definition url_char (c : ascii) : bool :=
  negb (Py.isspace c
        || (Py.code c =? 39)%nat || (Py.code c =? 34)%nat
        || (Py.code c =? 60)%nat || (Py.code c =? 62)%nat).

(** A lower-case literal [p] of the pattern matches at the head of [s]. *)
Definition lit_ci (p s : string) : bool :=
  String.eqb (Py.lower (Py.take (String.length p) s)) p.

(** [C*\.pdf] at the head of [s], the star greedy: the longest match. *)
Fixpoint rx_tail (s : string) : option string :=
  match s with
  | EmptyString => None
  | String c s' =>
      match (if url_char c then rx_tail s' else None) with
      | Some m => Some (String c m)
      | None => if lit_ci ".pdf" s then Some (Py.take 4 s) else None
      end
  end.

(** [C+\.pdf] at the head of [s]. *)
Definition rx_body (s : string) : option string :=
  match s with
  | EmptyString => None
  | String c s' =>
      if url_char c then String c <$> rx_tail s' else None
  end.

(** What a match of the pattern looks like, the scheme apart. *)
Definition pdf_url_shape (m : string) : Prop :=
  Py.all_chars url_char m = true
  ∧ Py.endswith (Py.lower m) ".pdf" = true.

(** The whole pattern at the head of [s]. *)
Definition rx_at (s : string) : option string :=
  if lit_ci "https://" s then (fun m => Py.take 8 s +:+ m) <$> rx_body (Py.drop 8 s)
  else if lit_ci "http://" s then (fun m => Py.take 7 s +:+ m) <$> rx_body (Py.drop 7 s)
  else None.

(** [re.search(pattern, html, flags=re.IGNORECASE)], then [m.group(1)]:
    the leftmost match. *)
Fixpoint rx_search (s : string) : option string :=
  match rx_at s with
  | Some m => Some m
  | None =>
      match s with
      | EmptyString => None
      | String _ s' => rx_search s'
      end
  end.

Section Extract.
(** The two library functions the scrape relies on:
    [BeautifulSoup(html, "html.parser")] ([None] when it raises) and
    [urllib.parse.urljoin] (which raises [ValueError] on some
    malformed URLs). *)
Variable BeautifulSoup : string -> option (list Tag).
Variable urljoin : string -> string -> res string.

(** Step 1: for each of the two names, the first [meta] element with
    that [name], or else the first with that [property]; it counts
    when its [content] is non-empty. *)
Definition meta_tag (soup : list Tag) (name : string) : option Tag :=
  match find soup "meta" "name" name with
  | Some t => Some t
  | None => find soup "meta" "property" name
  end.

Fixpoint meta_step (soup : list Tag) (names : list string) : option string :=
  match names with
  | [] => None
  | name :: names' =>
      match meta_tag soup name with
      | Some tag =>
          if Py.truthy_opt (attr tag "content") then attr tag "content"
          else meta_step soup names'
      | None => meta_step soup names'
      end
  end.

(** Step 2: the first [link] with an [href] whose [type] contains "pdf". *)
Definition link_step (soup : list Tag) : option string :=
  match List.find
          (fun link => Py.contains "pdf" (Py.lower (Py.opt_str (attr link "type"))))
          (find_all_href soup "link") with
  | Some link => attr link "href"
  | None => None
  end.

(** Step 3: the first anchor whose stripped [href] qualifies. *)
Definition anchor_ok (href : string) : bool :=
  Py.endswith (Py.lower href) ".pdf"
  || (Py.contains "download" (Py.lower href)
      && (Py.contains "pdf" (Py.lower href)
          || Py.contains "fulltext" (Py.lower href))).

Definition anchor_step (soup : list Tag) : option string :=
  List.find anchor_ok
    (List.map (fun a => Py.strip (Py.opt_str (attr a "href")))
              (find_all_href soup "a")).

(** [extract_pdf_from_html(url, html)]: [Ok None] is Python's [None]. *)
Definition extract_pdf_from_html (url html : string) : res (option string) :=
  match BeautifulSoup html with
  | None => Ok None
  | Some soup =>
      match meta_step soup ["citation_pdf_url"; "pdf_url"] with
      | Some content =>
          match urljoin url content with Ok u => Ok (Some u) | Raise e => Raise e end
      | None =>
      match link_step soup with
      | Some href =>
          match urljoin url href with Ok u => Ok (Some u) | Raise e => Raise e end
      | None =>
      match anchor_step soup with
      | Some href =>
          match urljoin url href with Ok u => Ok (Some u) | Raise e => Raise e end
      | None =>
      match rx_search html with
      | Some m => Ok (Some m)
      | None => Ok None
      end end end end
  end.

End Extract.

(** The first element of a document with the property [P]. *)
Definition first_of (P : Tag -> Prop) (soup : list Tag) (t : Tag) : Prop :=
  exists pre post, soup = pre ++ t :: post /\ P t /\ forall t', In t' pre -> ~ P t'.

(** A [meta] element whose attribute [key] is [name]. *)
Definition is_meta (key name : string) (t : Tag) : Prop :=
  tag_name t = "meta" /\ attr t key = Some name.

(** The one [meta] element the scrape looks at for [name]: the first
    with that [name], or else the first with that [property]. *)
Definition meta_for (soup : list Tag) (name : string) (t : Tag) : Prop :=
  first_of (is_meta "name" name) soup t
  \/ ((forall t', In t' soup -> ~ is_meta "name" name t')
      /\ first_of (is_meta "property" name) soup t).

(** A [link] element with an [href] whose [type] mentions pdf. *)
Definition is_pdf_link (t : Tag) : Prop :=
  tag_name t = "link" /\ is_Some (attr t "href")
  /\ Py.contains "pdf" (Py.lower (Py.opt_str (attr t "type"))) = true.

(** An anchor whose [href], stripped, qualifies. *)
Definition is_pdf_anchor (t : Tag) : Prop :=
  tag_name t = "a"
  /\ exists raw, attr t "href" = Some raw /\ anchor_ok (Py.strip raw) = true.

End Html.

(* ===================================================================== *)
(** ** What both downloaders share *)
(* ===================================================================== *)

Module Lib.
Import Web Html.

(** The environment a run depends on: the network, the disk, and the
    library functions whose code is not part of the repository.  The
    answer of the network may depend on the requests made before. *)
Record Env := {
  net : list Request -> Request -> res Response;
  open_error : string -> option exn;          (* open(path, "wb") raises *)
  write_error : string -> list byte -> list byte -> option exn;
                                              (* f.write(data) raises *)
  makedirs_fails : string -> bool;  (* os.makedirs(path, exist_ok=True) raises
                                       for a reason of its own: permissions,
                                       a read-only disk, ... *)
  quote_plus : string -> string;              (* urllib.parse.quote_plus *)
  BeautifulSoup : string -> option (list Tag);
  urljoin : string -> string -> res string;
}.

(** [a or b] where both are [None] or a [str]. *)
Definition py_or (a b : option string) : option string :=
  if Py.truthy_opt a then a else b.

(** The choice of a URL in the answer of the open-access lookup, the
    same in both [unpaywall_pdf_for_doi]. *)
Fixpoint oa_first (locs : list OALocation) : option string :=
  match locs with
  | [] => None
  | loc :: locs' =>
      if Py.truthy_opt (url_for_pdf loc) then url_for_pdf loc
      else if Py.truthy_opt (oa_url loc)
              && Py.endswith (Py.lower (Py.opt_str (oa_url loc))) ".pdf"
      then oa_url loc
      else oa_first locs'
  end.

Definition oa_pick (j : OAJson) : option string :=
  let pdf := match best_oa_location j with
             | Some bol => py_or (url_for_pdf bol) (oa_url bol)
             | None => None
             end in
  if Py.truthy_opt pdf then pdf else oa_first (oa_locations j).

Definition get_req (u : string) : Request :=
  {| verb := GET; target := u; params := []; accept := None; streamed := false |}.
Definition head_req (u : string) : Request :=
  {| verb := HEAD; target := u; params := []; accept := None; streamed := false |}.
Definition stream_req (u : string) : Request :=
  {| verb := GET; target := u; params := []; accept := None; streamed := true |}.
Definition negotiate_req (u : string) : Request :=
  {| verb := GET; target := u; params := [];
     accept := Some "application/pdf"; streamed := true |}.
Definition lookup_req (api email : string) : Request :=
  {| verb := GET; target := api; params := [("email", email)];
     accept := None; streamed := false |}.

(** The acceptance test of the validator:
<<
    final.lower().endswith(".pdf") or first[:4] == b'%PDF' or b'%PDF' in first
>> *)
Definition looks_like_pdf (final : string) (first : list byte) : bool :=
  Py.endswith (Py.lower final) ".pdf"
  || bytes_eqb (List.firstn 4 first) PDF_MAGIC
  || bytes_contains PDF_MAGIC first.

(** The two handlers of the validator. *)
Definition handler (e : exn) : bool * option string :=
  match e with
  | HTTPError c => (false, Some ("http_error_" +:+ pretty c))
  | Error m => (false, Some m)
  end.

Definition is_empty {A} (l : list A) : bool :=
  match l with [] => true | _ => false end.

Section WithEnv.
Variable E : Env.

(** One exchange with the network, logged under the phase issuing it. *)
Definition http (st : Stage) (rq : Request) : M (res Response) :=
  fun w => (net E (snd <$> trace w) rq,
            {| trace := trace w ++ [(st, rq)]; files := files w |}).

(** [open(path, "wb")]: the file is created or truncated. *)
Definition open_wb (path : string) : M (option exn) :=
  fun w => match open_error E path with
           | Some e => (Some e, w)
           | None => (None, {| trace := trace w;
                               files := <[path := []]> (files w) |})
           end.

(** [os.makedirs(path, exist_ok=True)]: [true] when it raises.  It
    raises [FileNotFoundError] for the empty path, [FileExistsError]
    when the path is that of a regular file, and whenever the
    environment makes it fail.  No handler of the code catches its
    exception, so which one it is makes no difference.  The
    directories themselves are not part of [World], which records the
    regular files. *)
Definition makedirs (path : string) : M bool :=
  fun w => (negb (Py.truthy path)
            || bool_decide (is_Some (files w !! path))
            || makedirs_fails E path, w).

(** [f.write(data)] *)
Definition write (path : string) (data : list byte) : M (option exn) :=
  fun w =>
    let old := default [] (files w !! path) in
    match write_error E path old data with
    | Some e => (Some e, w)
    | None => (None, {| trace := trace w;
                        files := <[path := old ++ data]> (files w) |})
    end.

(** [for chunk in it: if chunk: f.write(chunk)] *)
Fixpoint write_rest (path : string) (evs : list StreamEv) : M (option exn) :=
  match evs with
  | [] => mret None
  | ReadError e :: _ => mret (Some e)
  | Chunk data :: evs' =>
      if is_empty data then write_rest path evs'
      else
        err ← write path data;
        match err with
        | Some e => mret (Some e)
        | None => write_rest path evs'
        end
  end.

(** [download_stream_and_validate(url, out_path, headers)] of
    [download_pdfs_from_csv.py]; [download_file_with_validation] of
    [scraper.py] has the same body. *)
Definition download_stream_and_validate (st : Stage) (url_ out_path : string)
  : M (bool * option string) :=
  r ← http st (stream_req url_);
  match r with
  | Raise e => mret (handler e)
  | Ok r =>
      match raise_for_status r with
      | Some e => mret (handler e)
      | None =>
          match stream r with
          | [] => mret (false, Some "empty_response")
          | ReadError e :: _ => mret (handler e)
          | Chunk first :: rest =>
              let final := Py.or_else (url r) url_ in
              if negb (looks_like_pdf final first)
              then mret (false, Some "not_pdf")
              else
                o ← open_wb out_path;
                match o with
                | Some e => mret (handler e)
                | None =>
                    w1 ← write out_path first;
                    match w1 with
                    | Some e => mret (handler e)
                    | None =>
                        w2 ← write_rest out_path rest;
                        match w2 with
                        | Some e => mret (handler e)
                        | None => mret (true, None)
                        end
                    end
                end
          end
      end
  end.

(** [head_is_pdf(url, headers)] *)
Definition head_is_pdf (st : Stage) (u : string) : M (option string) :=
  h ← http st (head_req u);
  match h with
  | Raise _ => mret None
  | Ok h => if Py.contains "pdf" (ctype_of h) then mret (Some (url h))
            else mret None
  end.

End WithEnv.
End Lib.

(* ===================================================================== *)
(** ** [download_pdfs_from_csv.py] *)
(* ===================================================================== *)

Module Csv.
Import Web Html Lib.

(** A row handed to the resolver: a dictionary of strings.  A key
    bound to [None] is modelled as an absent key. *)
Abbreviation Row := (gmap string string).

(** The characters of the class of [safe_filename]: backslash, slash,
    colon, double quote, star, question mark, angle brackets, bar. *)
Definition hostile (c : ascii) : bool :=
  let n := Py.code c in
  (n =? 92)%nat || (n =? 47)%nat || (n =? 58)%nat || (n =? 34)%nat
  || (n =? 42)%nat || (n =? 63)%nat || (n =? 60)%nat || (n =? 62)%nat
  || (n =? 124)%nat.

(** [safe_filename(s, maxlen=200)] *)
Definition safe_filename (s : string) (maxlen : nat) : string :=
  let s := Py.take maxlen s in
  let s := Py.sub_runs hostile "_" false s in
  let s := Py.strip_by (fun c => (Py.code c =? 95)%nat)
             (Py.sub_runs Py.isspace "_" false s) in
  Py.or_else s "file".

(** [is_doi_like(s)] *)
Definition is_doi_like (s : string) : bool :=
  if negb (Py.truthy s) then false
  else
    let s := Py.strip s in
    Py.startswith s "10." || Py.contains "doi.org" (Py.lower s).

(** The block "2) arXiv quick construct" of [resolve_pdf_url]: what it
    returns, [None] when control falls through to the next block. *)
Definition arxiv_construct (row : Row) : option string :=
  let source := Py.lower (Py.opt_str (row !! "source")) in
  if String.eqb source "arxiv" then
    let ident := Py.opt_str (py_or (row !! "id") (row !! "article_id")) in
    if Py.truthy ident then
      if Py.contains "arxiv.org/abs/" ident then
        let pdf_link := Py.replace "/abs/" "/pdf/" ident in
        Some (if negb (Py.endswith pdf_link ".pdf") then pdf_link +:+ ".pdf"
              else pdf_link)
      else if Py.startswith ident "arXiv:" then
        let aid := Py.after_first ":" ident in
        Some ("https://arxiv.org/pdf/" +:+ aid +:+ ".pdf")
      else None
    else None
  else None.

(** The candidate URLs of blocks 5 and 6. *)
Definition candidates (row : Row) : list string :=
  omap (fun k => match row !! k with
                 | Some v => if Py.truthy v then Some v else None
                 | None => None
                 end)
       ["openalex_pdf"; "best_pdf"; "landing_page"; "landing_url"; "url"].

Section WithEnv.
Variable E : Env.

(** [unpaywall_pdf_for_doi(doi, email, headers)] *)
Definition unpaywall_pdf_for_doi (doi : string) (email : option string)
  : M (option string) :=
  if negb (Py.truthy doi) || negb (Py.truthy_opt email) then mret None
  else
    let api := "https://api.unpaywall.org/v2/" +:+ quote_plus E doi in
    r ← http E api_lookup (lookup_req api (Py.opt_str email));
    match r with
    | Raise _ => mret None
    | Ok r =>
        if (status_code r =? 200)%nat then
          match json r with
          | Some j => mret (oa_pick j)
          | None => mret None
          end
        else mret None
    end.

(** [try_doi_content_negotiation(doi, headers)] *)
Definition try_doi_content_negotiation (doi : string) : M (option string) :=
  if negb (Py.truthy doi) then mret None
  else
    let doi_url := if Py.startswith doi "http" then doi
                   else "https://doi.org/" +:+ doi in
    r ← http E content_negotiation (negotiate_req doi_url);
    match r with
    | Raise _ => mret None
    | Ok r =>
        let final := Py.or_else (url r) doi_url in
        if Py.contains "pdf" (ctype_of r) || Py.endswith (Py.lower final) ".pdf"
        then mret (Some final)
        else
          match raw4 r with
          | Some first =>
              if bytes_eqb first PDF_MAGIC then mret (Some final) else mret None
          | None => mret None
          end
    end.

(** Block 5: the HEAD check of each candidate. *)
Fixpoint probe_candidates (cs : list string) : M (option string) :=
  match cs with
  | [] => mret None
  | c :: cs' =>
      hpdf ← head_is_pdf E candidate_probe c;
      if Py.truthy_opt hpdf then mret hpdf else probe_candidates cs'
  end.

(** The body of the loop of block 6 for one candidate: [Some] is a
    [return], [None] is the end of the body or a [continue]. *)
Definition scrape_candidate (c : string) : M (option (option string * string)) :=
  r ← http E landing_scrape (get_req c);
  match r with
  | Raise _ => mret None
  | Ok r =>
      let final_url := url r in
      if Py.contains "pdf" (ctype_of r) || Py.endswith (Py.lower final_url) ".pdf"
      then mret (Some (Some final_url, "landing_direct_pdf"))
      else
        match extract_pdf_from_html (BeautifulSoup E) (urljoin E) final_url (text r) with
        | Raise _ => mret None
        | Ok pdf_from_html =>
            if Py.truthy_opt pdf_from_html then
              verified ← head_is_pdf E landing_scrape (Py.opt_str pdf_from_html);
              mret (Some (py_or verified pdf_from_html, "landing_parsed"))
            else mret None
        end
  end.

Fixpoint scrape_candidates (cs : list string)
  : M (option (option string * string)) :=
  match cs with
  | [] => mret None
  | c :: cs' =>
      o ← scrape_candidate c;
      match o with
      | Some result => mret (Some result)
      | None => scrape_candidates cs'
      end
  end.

(** [resolve_pdf_url(row, email, headers)] *)
Definition resolve_pdf_url (row : Row) (email : option string)
  : M (option string * string) :=
  (* 1) CSV pdf_url *)
  let pdf := py_or (py_or (row !! "pdf_url") (row !! "pdf")) None in
  if Py.truthy_opt pdf then mret (pdf, "csv_pdf_url")
  else
  (* 2) arXiv quick construct *)
  match arxiv_construct row with
  | Some pdf_link => mret (Some pdf_link, "arxiv_construct")
  | None =>
  (* 3) Unpaywall by DOI *)
  let doi := Py.opt_str (row !! "doi") in
  up ← (if Py.truthy doi && Py.truthy_opt email
        then unpaywall_pdf_for_doi doi email else mret None);
  if Py.truthy_opt up then mret (up, "unpaywall")
  else
  (* 4) DOI content-negotiation *)
  dn ← (if Py.truthy doi && is_doi_like doi
        then try_doi_content_negotiation doi else mret None);
  if Py.truthy_opt dn then mret (dn, "doi_negotiation")
  else
  (* 5) HEAD check of the candidates *)
  hpdf ← probe_candidates (candidates row);
  if Py.truthy_opt hpdf then mret (hpdf, "head_pdf_candidate")
  else
  (* 6) landing page GET and parse HTML *)
  o ← scrape_candidates (candidates row);
  match o with
  | Some result => mret result
  | None =>
  (* 7) nothing found *)
  mret (None, "no_pdf_found")
  end
  end.

(** The methods after which a failed validation is followed by the
    repair attempt:
<<
    "doi_negotiation" in method or "unpaywall" in method
      or "landing" in method or "csv_pdf_url" in method
>> *)
Definition repair_eligible (method : string) : bool :=
  Py.contains "doi_negotiation" method || Py.contains "unpaywall" method
  || Py.contains "landing" method || Py.contains "csv_pdf_url" method.

(** The dictionary [norm] that [process_csv] builds from a row of the
    input, whose values are strings. *)
Definition normalize_row (row : Row) : Row :=
  let field k := Py.opt_str (row !! k) in
  list_to_map
    [("pdf_url", Py.or_else (field "pdf_url") (field "pdf"));
     ("doi", field "doi");
     ("source", field "source");
     ("id", field "id");
     ("title", Py.or_else (field "title") (field "display_name"));
     ("openalex_pdf", Py.or_else (field "openalex_pdf") (field "best_pdf"));
     ("best_pdf", field "best_pdf");
     ("landing_url", field "landing_url")].

(** The directory [save_dir] that [process_csv] makes for a row. *)
Definition save_dir_for (out_dir : string) (row : Row) : string :=
  let field k := Py.opt_str (row !! k) in
  let assigned_sector :=
    Py.or_else (field "assigned_sectors") (field "query_sector") in
  let folder :=
    if Py.truthy assigned_sector then Py.before_first ";" assigned_sector
    else Py.before_first ";" (Py.or_else (field "source") "other") in
  Py.path_join out_dir (safe_filename folder 200).

(** The path [out_file] that [process_csv] saves a row under. *)
Definition out_file_for (out_dir : string) (row : Row) : string :=
  let norm := normalize_row row in
  let save_dir := save_dir_for out_dir row in
  let doi := Py.opt_str (norm !! "doi") in
  let fname_base :=
    if Py.truthy doi then safe_filename doi 200
    else safe_filename (Py.take 120 (Py.opt_str (norm !! "title"))) 200 in
  Py.path_join save_dir (fname_base +:+ ".pdf").

(** What follows the creation of the directory for a row with a
    resolved URL: the download, and the repair attempt after a failed
    validation.  It returns the values of [pdf_url_used], [saved_path]
    and [error] appended to the output columns. *)
Definition save_resolved (pdf_url_used method out_file : string)
  : M (string * string * string) :=
  '(ok, err) ← download_stream_and_validate E validation pdf_url_used out_file;
  if (ok : bool) then mret (pdf_url_used, out_file, "")
  else
    let error := method +:+ "|" +:+ default "None" err in
    if repair_eligible method then
      r ← http E repair (get_req pdf_url_used);
      match r with
      | Raise _ => mret (pdf_url_used, "", error)
      | Ok r =>
          match extract_pdf_from_html (BeautifulSoup E) (urljoin E) (url r) (text r) with
          | Raise _ => mret (pdf_url_used, "", error)
          | Ok cand =>
              if Py.truthy_opt cand then
                let pdf_url_used := Py.opt_str cand in
                '(ok2, err2) ← download_stream_and_validate E revalidation
                                  pdf_url_used out_file;
                if (ok2 : bool) then mret (pdf_url_used, out_file, "")
                else mret (pdf_url_used, "", error)
              else mret (pdf_url_used, "", error)
          end
      end
    else mret (pdf_url_used, "", error).

(** The body of the loop of [process_csv] for one row of the input:
    the values of [pdf_url_used], [saved_path] and [error] appended
    to the output columns, or [None] when [os.makedirs] raises: no
    handler catches that exception, which ends the run before anything
    is appended for the row.  [resolve_pdf_url] raises nothing, so the
    retry loop around it runs once. *)
Definition process_row (out_dir : string) (email : option string) (row : Row)
  : M (option (string * string * string)) :=
  '(resolved, method) ← resolve_pdf_url (normalize_row row) email;
  if Py.truthy_opt resolved then
    failed ← makedirs E (save_dir_for out_dir row);
    if (failed : bool) then mret None
    else
      report ← save_resolved (Py.opt_str resolved) method
                  (out_file_for out_dir row);
      mret (Some report)
  else mret (Some ("", "", Py.or_else method "no_pdf_found")).

End WithEnv.
End Csv.

(* ===================================================================== *)
(** ** [scraper.py] *)
(* ===================================================================== *)

Module Scraper.
Import Web Html Lib.

(** [safe_filename(s)] *)
Definition safe_filename (s : string) : string :=
  let s := Py.sub_runs Csv.hostile "_" false s in
  let s := Py.sub_runs Py.isspace "_" false (Py.strip s) in
  Py.take 180 s.

Definition isdigit (c : ascii) : bool := Py.between 48 57 (Py.code c).

(** [re.match(r"^10\.\d+\/", u) is not None] *)
Definition doi_prefix_match (u : string) : bool :=
  Py.startswith u "10."
  && let rest := Py.drop 3 u in
     let after := Py.lstrip_by isdigit rest in
     negb (String.eqb after rest) && Py.startswith after "/".

(** [is_doi_url(u)] *)
Definition is_doi_url (u : option string) : bool :=
  if negb (Py.truthy_opt u) then false
  else
    let u := Py.lower (Py.opt_str u) in
    Py.contains "doi.org/" u || doi_prefix_match u.

(** A location object of a work. *)
Record Location := {
  loc_url : option string;
  loc_pdf_url : option string;
  landing_page_url : option string;
}.

(** The fields of a work that the loop of [download_for_topic] reads.
    The code tells a work without the key [display_name] ([None]) from
    one whose [display_name] is null ([Some None]); for the other keys
    it reads both in the same way. *)
Record Work := {
  doi : option string;
  display_name : option (option string);
  best_oa_location : option Location;
  primary_location : option Location;
  locations : list Location;
}.

(** [loc.get("url") or loc.get("pdf_url") or loc.get("landing_page_url")]
    on [loc or {}]. *)
Definition loc_candidate (loc : option Location) : option string :=
  match loc with
  | Some l => py_or (py_or (loc_url l) (loc_pdf_url l)) (landing_page_url l)
  | None => None
  end.

Definition candidate_of (w : Work) : option string :=
  let candidate := loc_candidate (best_oa_location w) in
  let candidate :=
    if negb (Py.truthy_opt candidate) then loc_candidate (primary_location w)
    else candidate in
  if negb (Py.truthy_opt candidate) then
    match locations w with
    | l :: _ => loc_candidate (Some l)
    | [] => candidate
    end
  else candidate.

Section WithEnv.
Variable E : Env.

(** [unpaywall_pdf_for_doi(doi, email, headers)] *)
Definition unpaywall_pdf_for_doi (doi email : option string)
  : M (option string) :=
  if negb (Py.truthy_opt doi) || negb (Py.truthy_opt email) then mret None
  else
    let api := "https://api.unpaywall.org/v2/" +:+ Py.opt_str doi in
    r ← http E api_lookup (lookup_req api (Py.opt_str email));
    match r with
    | Raise _ => mret None
    | Ok r =>
        if (status_code r =? 200)%nat then
          match json r with
          | Some j => mret (oa_pick j)
          | None => mret None
          end
        else mret None
    end.

(** Step 2 of [try_resolve_pdf_url]: [Some] is a [return]. *)
Definition negotiate (candidate_url : string) : M (option string) :=
  let doi_url :=
    if Py.startswith candidate_url "10." then "https://doi.org/" +:+ candidate_url
    else if Py.startswith candidate_url "http" then candidate_url
    else "https://" +:+ candidate_url in
  r ← http E content_negotiation (negotiate_req doi_url);
  match r with
  | Raise _ => mret None
  | Ok r =>
      let final := Py.or_else (url r) doi_url in
      if Py.contains "pdf" (ctype_of r) || Py.endswith (Py.lower final) ".pdf"
      then mret (Some final)
      else
        match raw4 r with
        | Some first =>
            if bytes_eqb first PDF_MAGIC then mret (Some final) else mret None
        | None => mret None
        end
  end.

(** Step 3: [Some] is a [return]. *)
Definition head_check (candidate_url : string) : M (option string) :=
  h ← http E candidate_probe (head_req candidate_url);
  match h with
  | Raise _ => mret None
  | Ok h => if Py.contains "pdf" (ctype_of h) then mret (Some (url h))
            else mret None
  end.

(** Step 4: [Some] is a [return]; [None] leads to the final
    [return None]. *)
Definition landing (candidate_url : string) : M (option string) :=
  r ← http E landing_scrape (get_req candidate_url);
  match r with
  | Raise _ => mret None
  | Ok r =>
      match raise_for_status r with
      | Some _ => mret None
      | None =>
          let final_url := url r in
          if Py.contains "pdf" (ctype_of r)
             || Py.endswith (Py.lower final_url) ".pdf"
          then mret (Some final_url)
          else
            match extract_pdf_from_html (BeautifulSoup E) (urljoin E)
                    final_url (text r) with
            | Raise _ => mret None
            | Ok pdf_candidate =>
                if Py.truthy_opt pdf_candidate then
                  h2 ← http E landing_scrape (head_req (Py.opt_str pdf_candidate));
                  match h2 with
                  | Raise _ => mret pdf_candidate
                  | Ok h2 =>
                      if Py.contains "pdf" (ctype_of h2)
                         || Py.endswith (Py.lower (url h2)) ".pdf"
                      then mret (Some (url h2))
                      else mret None
                  end
                else mret None
            end
      end
  end.

(** [try_resolve_pdf_url(candidate_url, doi, email, headers)] *)
Definition try_resolve_pdf_url (candidate_url doi email : option string)
  : M (option string) :=
  (* 1) Unpaywall by DOI *)
  pdf ← (if Py.truthy_opt doi && Py.truthy_opt email
         then unpaywall_pdf_for_doi doi email else mret None);
  if Py.truthy_opt pdf then mret pdf
  else
  (* 2) content negotiation at doi.org *)
  dn ← (if is_doi_url candidate_url
        then negotiate (Py.opt_str candidate_url) else mret None);
  match dn with
  | Some final => mret (Some final)
  | None =>
  if negb (Py.truthy_opt candidate_url) then mret None
  else
  (* 3) HEAD quick-check *)
  h ← head_check (Py.opt_str candidate_url);
  match h with
  | Some u => mret (Some u)
  | None =>
  (* 4) GET landing page and parse *)
  landing (Py.opt_str candidate_url)
  end
  end.

(** [download_file_with_validation(url, out_path, headers)] *)
Definition download_file_with_validation (url_ out_path : string)
  : M (bool * option string) :=
  download_stream_and_validate E validation url_ out_path.

(** The work has a [display_name] that is a string. *)
Definition named (w : Work) : bool :=
  match display_name w with
  | Some (Some _) => true
  | _ => false
  end.

(** [w.get("display_name", "no-title")] *)
Definition title_of (w : Work) : option string :=
  match display_name w with
  | Some v => v
  | None => Some "no-title"
  end.

(** The path [filepath] a work is saved under:
<<
    basename = safe_filename(doi_safe or title) + ".pdf"
    filepath = os.path.join(out_dir, basename)
>>
    where [safe_filename] reads [None] as the empty string. *)
Definition filepath_for (out_dir : string) (w : Work) : string :=
  let doi_safe := Py.opt_str (doi w) in
  let basename :=
    safe_filename (Py.or_else doi_safe (Py.opt_str (title_of w))) +:+ ".pdf" in
  Py.path_join out_dir basename.

(** [w.get('display_name')[:80]] raises [TypeError] when the work has
    no [display_name] or a null one. *)
Definition not_subscriptable : exn :=
  Error "'NoneType' object is not subscriptable".

(** The body of the loop over the works of a page in
    [download_for_topic], up to the row written for the work: its
    columns [pdf_url], [saved_file] and [error].  When no URL is found
    the message printed takes a slice of the [display_name]; the
    [TypeError] this raises for a work without one is caught nowhere
    in [download_for_topic], so that no row is written. *)
Definition process_work (out_dir : string) (email : option string) (w : Work)
  : M (res (string * string * string)) :=
  let candidate := candidate_of w in
  pdf_url ← (if Py.truthy_opt candidate || Py.truthy_opt (doi w)
             then try_resolve_pdf_url candidate (doi w) email
             else mret None);
  if Py.truthy_opt pdf_url then
    let filepath := filepath_for out_dir w in
    '(ok, err) ← download_file_with_validation (Py.opt_str pdf_url) filepath;
    if (ok : bool) then mret (Ok (Py.opt_str pdf_url, filepath, ""))
    else mret (Ok (Py.opt_str pdf_url, "",
                   if Py.truthy_opt err then Py.opt_str err
                   else "download_failed"))
  else if named w then mret (Ok ("", "", "no_pdf_url_found"))
  else mret (Raise not_subscriptable).

End WithEnv.
End Scraper.

(* ===================================================================== *)
(** ** Models of the library functions, for running the code on examples *)
(* ===================================================================== *)

Module PyLib.
Import Web Html.

Definition chr1 (c : ascii) : string := String c EmptyString.
Definition is_code (n : nat) (c : ascii) : bool := (Py.code c =? n)%nat.

(** *** [urllib.parse.urljoin]

    Modelled on CPython 3.11 ([urlsplit], [urlparse], [urlunparse],
    [urljoin]).  Left out: the validation of a bracketed host and the
    NFKC check of a non-ASCII host, both of which can only raise. *)

Definition uses_relative : list string :=
  [""; "ftp"; "http"; "gopher"; "nntp"; "imap"; "wais"; "file"; "https";
   "shttp"; "mms"; "prospero"; "rtsp"; "rtspu"; "sftp"; "svn"; "svn+ssh";
   "ws"; "wss"].
Definition uses_netloc : list string :=
  [""; "ftp"; "http"; "gopher"; "nntp"; "telnet"; "imap"; "wais"; "file";
   "mms"; "https"; "shttp"; "snews"; "prospero"; "rtsp"; "rtspu"; "rsync";
   "svn"; "svn+ssh"; "sftp"; "nfs"; "git"; "git+ssh"; "ws"; "wss"].
Definition uses_params : list string :=
  [""; "ftp"; "hdl"; "prospero"; "http"; "imap"; "https"; "shttp"; "rtsp";
   "rtspu"; "sip"; "sips"; "mms"; "sftp"; "tel"].

Definition mem (s : string) (l : list string) : bool := existsb (String.eqb s) l.

Definition has (n : nat) (s : string) : bool :=
  Py.truthy (Py.lstrip_by (fun c => negb (is_code n c)) s).

Definition ascii_alpha (c : ascii) : bool :=
  Py.between 65 90 (Py.code c) || Py.between 97 122 (Py.code c).
Definition scheme_char (c : ascii) : bool :=
  ascii_alpha c || Py.between 48 57 (Py.code c)
  || is_code 43 c || is_code 45 c || is_code 46 c.

Fixpoint filter_chars (f : ascii -> bool) (s : string) : string :=
  match s with
  | EmptyString => EmptyString
  | String c s' => if f c then String c (filter_chars f s') else filter_chars f s'
  end.

(** The text before the first character of a class, and the text from
    that character on. *)
Fixpoint span (stop : ascii -> bool) (s : string) : string * string :=
  match s with
  | EmptyString => (EmptyString, EmptyString)
  | String c s' =>
      if stop c then (EmptyString, s)
      else let '(a, b) := span stop s' in (String c a, b)
  end.

Record Split := {
  scheme : string; netloc : string; path : string;
  query : string; fragment : string;
}.

(** [urlsplit(url, scheme)] *)
Definition urlsplit (url_ default_scheme : string) : res Split :=
  let url_ := Py.lstrip_by (fun c => (Py.code c <=? 32)%nat) url_ in
  let url_ := filter_chars (fun c => negb (is_code 9 c || is_code 13 c || is_code 10 c)) url_ in
  let '(pre, rest) := span (is_code 58) url_ in
  let '(sch, url_) :=
    match pre, rest with
    | String c0 _, String _ after =>
        if ascii_alpha c0 && negb (Py.truthy (filter_chars (fun c => negb (scheme_char c)) pre))
        then (Py.lower pre, after) else (default_scheme, url_)
    | _, _ => (default_scheme, url_)
    end in
  let '(nl, url_) :=
    if Py.startswith url_ "//"
    then span (fun c => is_code 47 c || is_code 63 c || is_code 35 c) (Py.drop 2 url_)
    else (EmptyString, url_) in
  if (has 91 nl && negb (has 93 nl)) || (has 93 nl && negb (has 91 nl))
  then Raise (Error "Invalid IPv6 URL")
  else
    let '(url_, frag) := span (is_code 35) url_ in
    let '(url_, qry) := span (is_code 63) url_ in
    Ok {| scheme := sch; netloc := nl; path := url_;
          query := Py.drop 1 qry; fragment := Py.drop 1 frag |}.

(** The text up to and including the last slash, and the text after it. *)
Fixpoint rsplit_slash (s : string) : string * string :=
  match s with
  | EmptyString => (EmptyString, EmptyString)
  | String c s' =>
      let '(p, r) := rsplit_slash s' in
      if Py.truthy p then (String c p, r)
      else if is_code 47 c then (chr1 c, r)
      else (EmptyString, String c r)
  end.

(** [_splitparams(url)], applied when the scheme uses parameters and
    the path has a semicolon. *)
Definition splitparams (sch p : string) : string * string :=
  if mem sch uses_params && has 59 p then
    let '(dir, last) := rsplit_slash p in
    if has 59 last
    then let '(a, b) := span (is_code 59) last in (dir +:+ a, Py.drop 1 b)
    else (p, EmptyString)
  else (p, EmptyString).

(** [urlunparse((scheme, netloc, path, params, query, fragment))] *)
Definition urlunparse (sch nl p prm qry frag : string) : string :=
  let u := if Py.truthy prm then p +:+ ";" +:+ prm else p in
  let u :=
    if Py.truthy nl
       || (Py.truthy sch && mem sch uses_netloc && negb (Py.startswith u "//"))
    then "//" +:+ nl +:+ (if Py.truthy u && negb (Py.startswith u "/")
                          then "/" +:+ u else u)
    else u in
  let u := if Py.truthy sch then sch +:+ ":" +:+ u else u in
  let u := if Py.truthy qry then u +:+ "?" +:+ qry else u in
  if Py.truthy frag then u +:+ "#" +:+ frag else u.

(** [s.split("/")] *)
Fixpoint split_slash (s : string) : list string :=
  match s with
  | EmptyString => [EmptyString]
  | String c s' =>
      let l := split_slash s' in
      if is_code 47 c then EmptyString :: l
      else match l with
           | h :: t => String c h :: t
           | [] => [chr1 c]
           end
  end.

Fixpoint join_slash (l : list string) : string :=
  match l with
  | [] => EmptyString
  | [s] => s
  | s :: l' => s +:+ "/" +:+ join_slash l'
  end.

(** [segments[1:-1] = filter(None, segments[1:-1])] *)
Definition squeeze (segments : list string) : list string :=
  match segments with
  | first :: rest =>
      match List.rev rest with
      | last :: middle_rev =>
          first :: List.filter Py.truthy (List.rev middle_rev) ++ [last]
      | [] => segments
      end
  | [] => segments
  end.

(** The loop over the segments; [acc] is [resolved_path], reversed. *)
Fixpoint resolve_dots (segments acc : list string) : list string :=
  match segments with
  | [] => List.rev acc
  | seg :: segments' =>
      if String.eqb seg ".." then resolve_dots segments' (List.tl acc)
      else if String.eqb seg "." then resolve_dots segments' acc
      else resolve_dots segments' (seg :: acc)
  end.

Definition urljoin (base url_ : string) : res string :=
  if negb (Py.truthy base) then Ok url_
  else if negb (Py.truthy url_) then Ok base
  else
    match urlsplit base EmptyString with
    | Raise e => Raise e
    | Ok b =>
        let '(bpath, bparams) := splitparams (scheme b) (path b) in
        match urlsplit url_ (scheme b) with
        | Raise e => Raise e
        | Ok u =>
            let '(upath, uparams) := splitparams (scheme u) (path u) in
            if negb (String.eqb (scheme u) (scheme b))
               || negb (mem (scheme u) uses_relative)
            then Ok url_
            else if mem (scheme u) uses_netloc && Py.truthy (netloc u)
            then Ok (urlunparse (scheme u) (netloc u) upath uparams
                       (query u) (fragment u))
            else
              let nl := if mem (scheme u) uses_netloc then netloc b else netloc u in
              if negb (Py.truthy upath) && negb (Py.truthy uparams)
              then Ok (urlunparse (scheme u) nl bpath bparams
                         (if negb (Py.truthy (query u)) then query b else query u)
                         (fragment u))
              else
                let base_parts := split_slash bpath in
                let base_parts :=
                  if Py.truthy (List.last base_parts EmptyString)
                  then List.removelast base_parts else base_parts in
                let segments :=
                  if Py.startswith upath "/" then split_slash upath
                  else squeeze (base_parts ++ split_slash upath) in
                let resolved := resolve_dots segments [] in
                let lastseg := List.last segments EmptyString in
                let resolved :=
                  if String.eqb lastseg "." || String.eqb lastseg ".."
                  then resolved ++ [EmptyString] else resolved in
                Ok (urlunparse (scheme u) nl
                      (Py.or_else (join_slash resolved) "/")
                      uparams (query u) (fragment u))
        end
    end.

(** *** [BeautifulSoup(html, "html.parser")]

    A model of the tokenizer for the start tags of a document: names
    and attribute names are lower-cased, an attribute value is quoted
    with either quote character, unquoted, or absent (then it is the
    empty string).  End tags, declarations and processing instructions
    are skipped up to the next closing angle bracket.  Left out:
    comments, the raw text of script and style elements, and
    character references inside attribute values. *)

Inductive Mode :=
| Text
| Lt
| Skip
| Name (n : string)
| Between (t : Tag)
| AName (t : Tag) (a : string)
| AfterName (t : Tag) (a : string)
| BeforeValue (t : Tag) (a : string)
| Quoted (t : Tag) (a : string) (q : ascii) (v : string)
| Unquoted (t : Tag) (a : string) (v : string).

Definition snoc (s : string) (c : ascii) : string := s +:+ chr1 c.

Definition with_attr (t : Tag) (a v : string) : Tag :=
  {| tag_name := tag_name t; attrs := attrs t ++ [(a, v)] |}.

Definition bare (n : string) : Tag := {| tag_name := n; attrs := [] |}.

Definition html_space (c : ascii) : bool :=
  is_code 32 c || Py.between 9 13 (Py.code c).

(** One character: the next mode, and the start tag it completes. *)
Definition step (m : Mode) (c : ascii) : Mode * option Tag :=
  let gt := is_code 62 c in
  let slash := is_code 47 c in
  let eq := is_code 61 c in
  match m with
  | Text => (if is_code 60 c then Lt else Text, None)
  | Lt =>
      if ascii_alpha c then (Name (chr1 (Py.lower_char c)), None)
      else if slash || is_code 33 c || is_code 63 c then (Skip, None)
      else if is_code 60 c then (Lt, None)
      else (Text, None)
  | Skip => (if gt then Text else Skip, None)
  | Name n =>
      if gt then (Text, Some (bare n))
      else if html_space c || slash then (Between (bare n), None)
      else (Name (snoc n (Py.lower_char c)), None)
  | Between t =>
      if gt then (Text, Some t)
      else if html_space c || slash then (Between t, None)
      else (AName t (chr1 (Py.lower_char c)), None)
  | AName t a =>
      if gt then (Text, Some (with_attr t a ""))
      else if html_space c then (AfterName t a, None)
      else if slash then (Between (with_attr t a ""), None)
      else if eq then (BeforeValue t a, None)
      else (AName t (snoc a (Py.lower_char c)), None)
  | AfterName t a =>
      if gt then (Text, Some (with_attr t a ""))
      else if html_space c then (AfterName t a, None)
      else if eq then (BeforeValue t a, None)
      else if slash then (Between (with_attr t a ""), None)
      else (AName (with_attr t a "") (chr1 (Py.lower_char c)), None)
  | BeforeValue t a =>
      if gt then (Text, Some (with_attr t a ""))
      else if html_space c || eq then (BeforeValue t a, None)
      else if is_code 34 c || is_code 39 c then (Quoted t a c "", None)
      else (Unquoted t a (chr1 c), None)
  | Quoted t a q v =>
      if Ascii.eqb c q then (Between (with_attr t a v), None)
      else (Quoted t a q (snoc v c), None)
  | Unquoted t a v =>
      if gt then (Text, Some (with_attr t a v))
      else if html_space c then (Between (with_attr t a v), None)
      else (Unquoted t a (snoc v c), None)
  end.

Fixpoint tokenize (m : Mode) (s : string) : list Tag :=
  match s with
  | EmptyString => []
  | String c s' =>
      let '(m', out) := step m c in
      match out with
      | Some t => t :: tokenize m' s'
      | None => tokenize m' s'
      end
  end.

Definition html_parser (html : string) : option (list Tag) :=
  Some (tokenize Text html).

(** *** [urllib.parse.quote_plus]

    Letters, digits and the characters [_.-~] are kept, a space becomes
    a plus sign, every other character is percent-encoded through its
    UTF-8 bytes. *)

Definition hex_digit (n : nat) : ascii :=
  ascii_of_nat (if (n <? 10)%nat then 48 + n else 55 + n).

Definition percent (n : nat) : string :=
  String "%"%char (String (hex_digit (n / 16)) (chr1 (hex_digit (n mod 16)))).

Definition quote_char (c : ascii) : string :=
  let n := Py.code c in
  if ascii_alpha c || Py.between 48 57 n
     || is_code 95 c || is_code 46 c || is_code 45 c || is_code 126 c
  then chr1 c
  else if is_code 32 c then "+"
  else if (n <? 128)%nat then percent n
  else percent (192 + n / 64) +:+ percent (128 + n mod 64).

Fixpoint quote_plus (s : string) : string :=
  match s with
  | EmptyString => EmptyString
  | String c s' => quote_char c +:+ quote_plus s'
  end.

(** *** An environment for examples

    The network answers from a table keyed by verb and URL (whatever
    was requested before) and refuses any other connection; the disk
    never fails, and a directory can be made wherever the path is not
    empty and no regular file is in the way. *)

Definition same_verb (a b : Verb) : bool :=
  match a, b with GET, GET | HEAD, HEAD => true | _, _ => false end.

Fixpoint lookup_table (table : list (Verb * string * res Response))
    (rq : Request) : res Response :=
  match table with
  | [] => Raise (Error "connection refused")
  | (v, u, r) :: table' =>
      if same_verb v (verb rq) && String.eqb u (target rq) then r
      else lookup_table table' rq
  end.

Definition mock_env (table : list (Verb * string * res Response)) : Lib.Env :=
  {| Lib.net := fun _ rq => lookup_table table rq;
     Lib.open_error := fun _ => None;
     Lib.write_error := fun _ _ _ => None;
     Lib.makedirs_fails := fun _ => false;
     Lib.quote_plus := quote_plus;
     Lib.BeautifulSoup := html_parser;
     Lib.urljoin := urljoin |}.

(** A response with the given final URL, content type and body. *)
Definition page (u ctype body : string) : Response :=
  {| status_code := 200; url := u; content_type := Some ctype;
     text := body; json := None;
     raw4 := Some (List.firstn 4 (list_byte_of_string body));
     stream := match body with
               | EmptyString => []
               | _ => [Chunk (list_byte_of_string body)]
               end |}.

Definition empty_world : World := {| trace := []; files := ∅ |}.

End PyLib.


(* ===================================================================== *)
(** ** The resolver chain as a list of strategies *)
(* ===================================================================== *)

Module Chain.
Import Web Html Lib Csv.

(** A strategy looks at the row and either yields a URL with the
    method string reported for it, or yields nothing. *)
Definition Strategy : Type :=
  Row -> option string -> M (option (option string * string)).

Definition yield_if (u : option string) (method : string)
  : option (option string * string) :=
  if Py.truthy_opt u then Some (u, method) else None.

Section WithEnv.
Variable E : Env.

Definition s_csv_direct : Strategy := fun row _ =>
  mret (yield_if (py_or (row !! "pdf_url") (row !! "pdf")) "csv_pdf_url").

Definition s_source_construct : Strategy := fun row _ =>
  mret (yield_if (arxiv_construct row) "arxiv_construct").

Definition s_api_lookup : Strategy := fun row email =>
  let doi := Py.opt_str (row !! "doi") in
  if Py.truthy doi && Py.truthy_opt email then
    up ← unpaywall_pdf_for_doi E doi email; mret (yield_if up "unpaywall")
  else mret None.

Definition s_content_negotiation : Strategy := fun row _ =>
  let doi := Py.opt_str (row !! "doi") in
  if Py.truthy doi && is_doi_like doi then
    dn ← try_doi_content_negotiation E doi; mret (yield_if dn "doi_negotiation")
  else mret None.

Definition s_candidate_probe : Strategy := fun row _ =>
  hpdf ← probe_candidates E (candidates row);
  mret (yield_if hpdf "head_pdf_candidate").

Definition s_landing_scrape : Strategy := fun row _ =>
  scrape_candidates E (candidates row).

(** The chain, in its fixed order. *)
Definition strategies : list (Stage * Strategy) :=
  [ (csv_direct, s_csv_direct);
    (source_construct, s_source_construct);
    (api_lookup, s_api_lookup);
    (content_negotiation, s_content_negotiation);
    (candidate_probe, s_candidate_probe);
    (landing_scrape, s_landing_scrape) ].

(** Try the strategies from left to right, stop at the first yield. *)
Fixpoint first_yield (l : list (Stage * Strategy))
    (row : Row) (email : option string) : M (option string * string) :=
  match l with
  | [] => mret (None, "no_pdf_found")
  | (_, s) :: l' =>
      o ← s row email;
      match o with
      | Some result => mret result
      | None => first_yield l' row email
      end
  end.

End WithEnv.

(** The strategy a method string of [resolve_pdf_url] stands for. *)
Definition stage_of_method (method : string) : option Stage :=
  if String.eqb method "csv_pdf_url" then Some csv_direct
  else if String.eqb method "arxiv_construct" then Some source_construct
  else if String.eqb method "unpaywall" then Some api_lookup
  else if String.eqb method "doi_negotiation" then Some content_negotiation
  else if String.eqb method "head_pdf_candidate" then Some candidate_probe
  else if String.eqb method "landing_direct_pdf" then Some landing_scrape
  else if String.eqb method "landing_parsed" then Some landing_scrape
  else None.

(** The requests a computation adds to the log of a world. *)
Definition issued {A} (m : M A) (w : World) : list (Stage * Request) :=
  List.skipn (length (trace w)) (trace (m w).2).

(** The stages of a log are in the order of the chain. *)
Definition in_chain_order (evs : list (Stage * Request)) : Prop :=
  StronglySorted le (rank ∘ fst <$> evs).

Definition attempted (st : Stage) (evs : list (Stage * Request)) : Prop :=
  st ∈ (fst <$> evs).

(** The strategy has something to go on: the lookup needs a DOI and
    a contact email, the negotiation a DOI that looks like one, the
    probe and the scrape a candidate URL.  The first two strategies of
    the chain issue no request. *)
Definition applies (st : Stage) (row : Row) (email : option string) : bool :=
  let doi := Py.opt_str (row !! "doi") in
  match st with
  | api_lookup => Py.truthy doi && Py.truthy_opt email
  | content_negotiation => Py.truthy doi && is_doi_like doi
  | candidate_probe | landing_scrape => negb (is_empty (candidates row))
  | _ => false
  end.

(** A resolution that ends with [method] got as far as the strategy
    [st]: no strategy before [st] has yielded. *)
Definition reached (st : Stage) (method : string) : bool :=
  match stage_of_method method with
  | Some st' => (rank st <=? rank st')%nat
  | None => true
  end.

(** The requests of a stage in a log. *)
Definition requests_of (st : Stage) (evs : list (Stage * Request))
  : list Request :=
  snd <$> List.filter (fun e => (rank e.1 =? rank st)%nat) evs.

Definition is_get (rq : Request) : bool :=
  match verb rq with GET => true | HEAD => false end.

(** Every request of stage [a] comes before every request of stage [b]. *)
Definition all_before (a b : Stage) (evs : list (Stage * Request)) : Prop :=
  ∀ i j ra rb, evs !! i = Some (a, ra) → evs !! j = Some (b, rb) → i < j.

End Chain.

(* ===================================================================== *)
(** ** Vocabulary of the statements about the validator *)
(* ===================================================================== *)

Module Validator.
Import Web Lib.

Definition is_chunk (ev : StreamEv) : Prop :=
  match ev with Chunk _ => True | ReadError _ => False end.

(** The bytes a stream delivers before its first failure. *)
Fixpoint stream_data (evs : list StreamEv) : list byte :=
  match evs with
  | [] => []
  | ReadError _ :: _ => []
  | Chunk data :: evs' => data ++ stream_data evs'
  end.

(** The acceptance test with the suffix of the URL compared as it is,
    without lower-casing. *)
Definition accepts_case_sensitive (final : string) (first : list byte) : bool :=
  Py.endswith final ".pdf"
  || bytes_eqb (List.firstn 4 first) PDF_MAGIC
  || bytes_contains PDF_MAGIC first.

(** The GET of the validator for [u] in world [w] is answered by [r],
    without an error status. *)
Definition answered (E : Env) (w : World) (u : string) (r : Response) : Prop :=
  net E (snd <$> trace w) (stream_req u) = Ok r ∧ raise_for_status r = None.

(** Nothing fails once the stream has been accepted. *)
Definition undisturbed (E : Env) (out_path : string) (rest : list StreamEv) : Prop :=
  open_error E out_path = None
  ∧ (∀ old data, write_error E out_path old data = None)
  ∧ Forall is_chunk rest.

(** An HTML page served under a name in upper case. *)
Definition upper_case_env : Env :=
  PyLib.mock_env
    [(GET, "https://host.example/PAPER.PDF",
      Ok (PyLib.page "https://host.example/PAPER.PDF" "text/html"
            "<html>not a pdf</html>"))].

(** A PDF served under a URL without suffix. *)
Definition pdf_env : Env :=
  PyLib.mock_env
    [(GET, "https://host.example/download?id=7",
      Ok (PyLib.page "https://host.example/download?id=7" "application/octet-stream"
            "%PDF-1.7 body"))].

(** An HTML error page, and a response without body. *)
Definition html_env : Env :=
  PyLib.mock_env
    [(GET, "https://host.example/article",
      Ok (PyLib.page "https://host.example/article" "text/html"
            "<html>Access denied</html>"));
     (GET, "https://host.example/empty",
      Ok (PyLib.page "https://host.example/empty" "text/html" ""))].

(** A PDF whose connection breaks after the second chunk. *)
Definition broken_response : Response :=
  {| status_code := 200; url := "https://host.example/big.pdf";
     content_type := Some "application/pdf"; text := ""; json := None;
     raw4 := Some PDF_MAGIC;
     stream := [Chunk (list_byte_of_string "%PDF-1.7 ");
                Chunk (list_byte_of_string "second");
                ReadError (Error "Connection broken: IncompleteRead");
                Chunk (list_byte_of_string "never read")] |}.

Definition broken_env : Env :=
  PyLib.mock_env [(GET, "https://host.example/big.pdf", Ok broken_response)].

(** A disk that is full once the file holds the first chunk. *)
Definition full_disk_env : Env :=
  {| net := net broken_env;
     open_error := fun _ => None;
     write_error := fun _ old _ =>
       if (length old <? 9)%nat then None else Some (Error "No space left on device");
     makedirs_fails := fun _ => false;
     quote_plus := PyLib.quote_plus;
     BeautifulSoup := PyLib.html_parser;
     urljoin := PyLib.urljoin |}.

End Validator.

(* ===================================================================== *)
(** ** Scenarios *)
(* ===================================================================== *)

Module Scenarios.
Import Web Html Lib.

(** A network without any reachable host. *)
Definition offline_env : Env := PyLib.mock_env [].

(** Scenario A: an arXiv record without a direct URL. *)
Definition arxiv_row : Csv.Row :=
  {[ "source" := "arxiv"; "id" := "http://arxiv.org/abs/1234.5678" ]}.

(** Scenario C: a landing page with a citation_pdf_url meta tag. *)
Definition meta_html : string :=
  "<meta name=" +:+ Py.dq +:+ "citation_pdf_url" +:+ Py.dq
  +:+ " content=" +:+ Py.dq +:+ "/f/paper.pdf" +:+ Py.dq +:+ ">".

(** The same page, reached through a redirect from another host; the
    PDF it points to cannot be probed. *)
Definition redirect_env : Env :=
  PyLib.mock_env
    [(GET, "https://doi.example/landing/1",
      Ok (PyLib.page "https://pub.example/article/1" "text/html" meta_html))].

Definition redirect_row : Csv.Row :=
  {[ "landing_url" := "https://doi.example/landing/1" ]}.

(** A landing page whose download link leads to a login page: the
    probe of the candidate is answered, and not with a PDF. *)
Definition login_html : string :=
  "<a href=" +:+ Py.dq +:+ "/download?format=pdf" +:+ Py.dq +:+ ">PDF</a>".

Definition login_env : Env :=
  PyLib.mock_env
    [(GET, "https://pub.example/article/2",
      Ok (PyLib.page "https://pub.example/article/2" "text/html" login_html));
     (HEAD, "https://pub.example/download?format=pdf",
      Ok (PyLib.page "https://pub.example/login" "text/html" ""))].

(** The same landing page when the probe of the candidate cannot
    connect. *)
Definition unreachable_probe_env : Env :=
  PyLib.mock_env
    [(GET, "https://pub.example/article/2",
      Ok (PyLib.page "https://pub.example/article/2" "text/html" login_html))].

Definition login_row : Csv.Row :=
  {[ "landing_url" := "https://pub.example/article/2" ]}.

(** Scenario B, continued: the open-access lookup answers with a URL
    that serves an HTML page pointing to the PDF. *)
Definition oa_answer : Response :=
  {| status_code := 200; url := "https://api.unpaywall.org/v2/"; content_type := Some "application/json";
     text := ""; raw4 := None; stream := [];
     json := Some {| best_oa_location :=
                       Some {| url_for_pdf := Some "https://x.example/y";
                               oa_url := None |};
                     oa_locations := [] |} |}.

Definition repair_env : Env :=
  PyLib.mock_env
    [(GET, "https://api.unpaywall.org/v2/10.1000%2Fxyz", Ok oa_answer);
     (GET, "https://api.unpaywall.org/v2/10.1000/xyz", Ok oa_answer);
     (GET, "https://x.example/y",
      Ok (PyLib.page "https://x.example/y" "text/html" meta_html));
     (GET, "https://x.example/f/paper.pdf",
      Ok (PyLib.page "https://x.example/f/paper.pdf" "application/pdf"
            "%PDF-1.4 paper"))].

Definition doi_row : Csv.Row :=
  {[ "doi" := "10.1000/xyz"; "title" := "A paper"; "source" := "openalex" ]}.

(** A record with a DOI and a landing page, on a network without any
    reachable host: every strategy that applies is attempted. *)
Definition chain_row : Csv.Row :=
  {[ "doi" := "10.1000/xyz"; "landing_url" := "https://pub.example/article/1" ]}.

(** A record whose DOI carries a prefix, so that it is no hit for
    [is_doi_like], and a work whose candidate URL is a landing page. *)
Definition prefixed_doi_row : Csv.Row :=
  {[ "doi" := "doi:10.1000/xyz";
     "landing_url" := "https://pub.example/article/1" ]}.

Definition doi_work : Scraper.Work :=
  {| Scraper.doi := Some "10.1000/xyz";
     Scraper.display_name := Some (Some "A paper");
     Scraper.best_oa_location := None;
     Scraper.primary_location := None;
     Scraper.locations := [] |}.

End Scenarios.

(* ===================================================================== *)
(** ** Python sequence primitives *)
(* ===================================================================== *)

Module PySeq.

(** [sep.join(l)] *)
Fixpoint join (sep : string) (l : list string) : string :=
  match l with
  | [] => ""
  | x :: l' =>
      match l' with
      | [] => x
      | _ :: _ => x +:+ sep +:+ join sep l'
      end
  end.

(** [l[:n]] for an [int] n: a negative [n] counts from the end. *)
Definition slice_to {A} (n : Z) (l : list A) : list A :=
  if (0 <=? n)%Z then take (Z.to_nat n) l
  else take (length l - Z.to_nat (- n)) l.

(** [sorted(l)] on a list of [str]: the order of the code points. *)
Definition sorted (l : list string) : list string := merge_sort String.le l.

(** [sorted(l, key=key, reverse=True)] for integer keys.  The sort is
    stable also when reversed: elements with equal keys keep the order
    they had in [l]. *)
Fixpoint insert_desc {A} (key : A -> Z) (x : A) (l : list A) : list A :=
  match l with
  | [] => [x]
  | y :: l' =>
      if (key y <=? key x)%Z then x :: l else y :: insert_desc key x l'
  end.

Definition sorted_desc {A} (key : A -> Z) (l : list A) : list A :=
  foldr (insert_desc key) [] l.

(** [s.split("/")[-1]] *)
Fixpoint last_segment (s : string) : string :=
  match s with
  | EmptyString => EmptyString
  | String c s' =>
      if Py.contains "/" s' then last_segment s'
      else if Ascii.eqb c "/" then s' else s
  end.

End PySeq.

(* ===================================================================== *)
(** ** The fetchers and the output of [vision2030_multi_source_harvest.py] *)
(* ===================================================================== *)

Module Fetch.
Import Harvest.

Definition VISION2030_MAP : list (string * list string) :=
  [ ("Agriculture", ["agriculture"; "farm"; "crop"; "irrigation"; "livestock";
                     "horticulture"]);
    ("Health", ["health"; "medicine"; "public health"; "clinic"; "hospital";
                "malaria"; "immunization"; "epidemic"]);
    ("Education", ["education"; "school"; "curriculum"; "teacher"; "university";
                   "learning"; "literacy"]);
    ("Infrastructure", ["infrastructure"; "road"; "bridge"; "rail"; "telecom";
                        "water supply"; "sewerage"; "construction"]);
    ("Tourism", ["tourism"; "tourist"; "hotel"; "hospitality"; "heritage";
                 "ecotourism"]);
    ("Energy", ["energy"; "power"; "renewable"; "solar"; "wind"; "hydro";
                "electricity"]);
    ("Mining", ["mining"; "minerals"; "ore"; "copper"; "extraction"; "quarry"]);
    ("Manufacturing", ["manufacturing"; "factory"; "industrial"; "production";
                       "assembly"; "process engineering"]);
    ("Environment", ["environment"; "biodiversity"; "climate"; "conservation";
                     "pollution"; "ecosystem"]);
    ("ICT/Technology", ["technology"; "information technology"; "ict";
                        "computer"; "software"; "hardware"; "ai"; "sensor"]);
    ("Governance", ["governance"; "policy"; "administration"; "regulation";
                    "legislation"]);
    ("Finance/Trade", ["finance"; "bank"; "trade"; "export"; "import"; "economy";
                       "microfinance"]);
    ("Transport", ["transport"; "logistics"; "airport"; "port"; "shipping";
                   "freight"]);
    ("Water_and_Sanitation", ["water"; "sanitation"; "wastewater"; "hygiene";
                              "drinking water"]) ].

(** [safe_text(x)] *)
Definition safe_text (x : option string) : string := Py.strip (Py.opt_str x).

(** *** [query_openalex]: the abstract of a work

    The inverted index is a JSON object, read in the order of its
    members: each word with the list of the positions it occurs at. *)

(** The dictionary [positions] after the two nested loops. *)
Definition positions_of (ai : list (string * list Z)) : gmap Z string :=
  fold_left
    (fun positions '(token, poslist) =>
       fold_left (fun positions p => <[p := token]> positions) poslist positions)
    ai ∅.

(** [max(l)], which raises on an empty [l]. *)
Definition max_of (l : list Z) : option Z :=
  foldr (fun p acc => Some (match acc with Some q => Z.max p q | None => p end))
        None l.

(** The value of [abstract]; the handler of the [try] block turns
    every exception into the empty string. *)
Definition abstract_of (ai : option (list (string * list Z))) : string :=
  match ai with
  | None | Some [] => ""
  | Some ai =>
      let positions := positions_of ai in
      match max_of (map_to_list positions).*1 with
      | None => ""
      | Some m =>
          match mapM (fun i => positions !! i) (seqZ 0 (m + 1)) with
          | Some tokens => PySeq.join " " tokens
          | None => ""
          end
      end
  end.

(** *** [query_arxiv] *)

(** An entry of the parsed feed, and one of its links. *)
Record Link := {
  link_type : option string;
  href : option string;
}.

Record Entry := {
  e_id : option string;
  e_title : option string;
  e_summary : option string;
  e_published : option string;
  e_links : list Link;
  e_authors : list (option string);     (* the names, where given *)
}.

(** The value of [pdf_link] for an entry. *)
Definition pdf_link_of (e : Entry) : option string :=
  let entry_id := Py.opt_str (e_id e) in
  let pdf_link :=
    match List.find (fun l => bool_decide (link_type l = Some "application/pdf"))
                    (e_links e) with
    | Some l => href l
    | None => None
    end in
  if negb (Py.truthy_opt pdf_link) && Py.truthy entry_id then
    let pdf_link := Py.replace "/abs/" "/pdf/" entry_id in
    Some (if negb (Py.endswith pdf_link ".pdf") then pdf_link +:+ ".pdf"
          else pdf_link)
  else pdf_link.

(** The dictionary appended to [out] for an entry. *)
Definition arxiv_item (e : Entry) : Item :=
  let item : Item :=
    list_to_map
      [("source", "arxiv");
       ("id", Py.opt_str (e_id e));
       ("doi", "");
       ("title", safe_text (e_title e));
       ("abstract", safe_text (e_summary e));
       ("authors", PySeq.join ";" (Py.opt_str <$> e_authors e));
       ("published", Py.opt_str (e_published e));
       ("topics", "");
       ("journal", "arXiv")] in
  match pdf_link_of e with
  | Some link => <["pdf_url" := link]> item
  | None => item
  end.

Definition ARXIV_API : string := "http://export.arxiv.org/api/query".

Section Arxiv.
(** [urllib.parse.quote_plus], and the entries [feedparser.parse]
    finds at a URL. *)
Variable quote_plus : string -> string.
Variable parse : string -> list Entry.

Definition arxiv_url (query : string) (start n : Z) : string :=
  ARXIV_API +:+ "?" +:+ "search_query=all:" +:+ quote_plus query
  +:+ "&start=" +:+ pretty start +:+ "&max_results=" +:+ pretty n.

(** The [while] loop of [query_arxiv], run for at most [fuel] rounds;
    [asked] logs the windows [(start, n)] requested so far. *)
Fixpoint arxiv_loop (fuel : nat) (query : string) (batch max_results start : Z)
    (out : list Item) (asked : list (Z * Z))
  : option (list Item * list (Z * Z)) :=
  match fuel with
  | O => None
  | S fuel' =>
      if (start <? max_results)%Z then
        let n := Z.min batch (max_results - start) in
        let entries := parse (arxiv_url query start n) in
        if Lib.is_empty entries then Some (out, asked ++ [(start, n)])
        else arxiv_loop fuel' query batch max_results (start + n)%Z
               (out ++ (arxiv_item <$> entries)) (asked ++ [(start, n)])
      else Some (out, asked)
  end.

Definition arxiv_run (fuel : nat) (query : string) (max_results : Z)
  : option (list Item * list (Z * Z)) :=
  let batch := if (100 <? max_results)%Z then 100%Z else max_results in
  arxiv_loop fuel query batch max_results 0 [] [].

(** [query_arxiv(query, max_results)]: every round moves [start]
    forward, so [max_results] rounds and one more test are enough. *)
Definition query_arxiv (query : string) (max_results : Z) : list Item :=
  match arxiv_run (S (Z.to_nat max_results)) query max_results with
  | Some (out, _) => out
  | None => []
  end.

End Arxiv.

(** *** [harvest_all] *)

(** [";".join(sorted(list(s)))] *)
Definition flatten (s : gset string) : string :=
  PySeq.join ";" (PySeq.sorted (elements s)).

(** A row of [final_rows]. *)
Definition final_row (rec : Rec) : gmap string string :=
  let field k := Py.opt_str (fields rec !! k) in
  list_to_map
    [("source", field "source");
     ("id", field "id");
     ("doi", field "doi");
     ("title", field "title");
     ("abstract", field "abstract");
     ("authors", field "authors");
     ("published", field "published");
     ("pdf_url", field "pdf_url");
     ("topics", field "topics");
     ("journal", field "journal");
     ("assigned_sectors", flatten (assigned_sectors rec));
     ("provenance_sources", flatten (sources rec));
     ("query_sector", field "query_sector")].

(** What the three fetchers returned for a sector. *)
Definition Fetched : Type :=
  string * list Item * list Item * option (list Item).

(** The loop over the sectors. *)
Definition harvest_rows (fetched : list Fetched) : State :=
  fold_left (fun st '(sector, open_items, arxiv_items, core_items) =>
               harvest_sector sector open_items arxiv_items core_items st)
            fetched empty_state.

(** The [OverflowError] of a division of [int]s. *)
Definition too_large : Web.exn :=
  Web.Error "integer division result too large for a float".

(** The query phrase of a sector: its first two keywords. *)
Definition query_phrase (keywords : list string) : string :=
  PySeq.join " " (if (2 <=? length keywords)%nat then take 2 keywords
                  else keywords).

Section Orchestration.
Variable quote_plus : string -> string.
Variable parse : string -> list Entry.
(** [query_openalex(query, 100, max_items, email)] and
    [query_core(query, api_key, max_results)] as the network answers
    them; the phrases of the sectors differ from each other, so each
    is asked once. *)
Variable query_openalex : string -> Z -> list Item.
Variable query_core : string -> string -> Z -> list Item.

(** What one iteration of the loop over the sectors fetches.  The
    limits of the second and the third fetcher are [int(per_sector/4)]
    and [int(per_sector/2)], computed through a [float]. *)
Definition fetch_sector (per_sector : Z) (core_key : option string)
    (entry : string * list string) : Web.res Fetched :=
  let q := query_phrase entry.2 in
  let open_items := query_openalex q per_sector in
  match Py.int_truediv_pow2 per_sector 2 with
  | None => Web.Raise too_large
  | Some n4 =>
      let arxiv_items := query_arxiv quote_plus parse q n4 in
      if Py.truthy_opt core_key then
        match Py.int_truediv_pow2 per_sector 1 with
        | None => Web.Raise too_large
        | Some n2 =>
            Web.Ok (entry.1, open_items, arxiv_items,
                    Some (query_core q (Py.opt_str core_key) n2))
        end
      else Web.Ok (entry.1, open_items, arxiv_items, None)
  end.

(** The fetches of the loop over the sectors, up to the first that
    raises. *)
Fixpoint fetch_all (per_sector : Z) (core_key : option string)
    (entries : list (string * list string)) : Web.res (list Fetched) :=
  match entries with
  | [] => Web.Ok []
  | entry :: entries' =>
      match fetch_sector per_sector core_key entry with
      | Web.Raise e => Web.Raise e
      | Web.Ok f =>
          match fetch_all per_sector core_key entries' with
          | Web.Raise e => Web.Raise e
          | Web.Ok fs => Web.Ok (f :: fs)
          end
      end
  end.

(** [harvest_all(out_csv, per_sector, core_key, email)]: the rows of
    the data frame it writes and returns, or the exception that ends
    it. *)
Definition harvest_all (per_sector : Z) (core_key : option string)
  : Web.res (list (gmap string string)) :=
  match fetch_all per_sector core_key VISION2030_MAP with
  | Web.Raise e => Web.Raise e
  | Web.Ok fetched => Web.Ok (final_row <$> rows (harvest_rows fetched))
  end.

End Orchestration.

(** The items of a run in the order they are ingested, each with the
    source tag and the sector of its loop. *)
Definition events_of (f : Fetched) : list (string * string * Item) :=
  let '(sector, open_items, arxiv_items, core_items) := f in
  ((fun item => ("openalex", sector, item)) <$> open_items)
  ++ ((fun item => ("arxiv", sector, item)) <$> arxiv_items)
  ++ ((fun item => ("core", sector, item)) <$> default [] core_items).

Definition events (fetched : list Fetched) : list (string * string * Item) :=
  fetched ≫= events_of.

Definition ingest_event (st : State) (e : string * string * Item) : State :=
  ingest e.1.1 e.1.2 e.2 st.

Definition key_of (e : string * string * Item) : string := canonical_key e.2.

(** [seen] and [rows] describe each other: a key is bound to a
    position exactly when the record there has that key, and no key
    is empty. *)
Definition consistent (st : State) : Prop :=
  (∀ k i, seen st !! k = Some i
          ↔ ∃ r, rows st !! i = Some r ∧ canonical_key (fields r) = k)
  ∧ (∀ k i, seen st !! k = Some i → Py.truthy k = true).

(** The state [st] is what the events [evs] add up to: the keys seen
    are the non-empty keys of the events; the provenance sets of a
    record hold the sectors and the tags of the events with its key,
    and nothing else; its fields are those of the first such event. *)
Definition accounts_for (evs : list (string * string * Item)) (st : State)
  : Prop :=
  consistent st
  ∧ (∀ k, is_Some (seen st !! k)
          ↔ Py.truthy k = true ∧ ∃ e, e ∈ evs ∧ key_of e = k)
  ∧ (∀ i r, rows st !! i = Some r →
       let k := canonical_key (fields r) in
       (∀ s, s ∈ assigned_sectors r ↔ ∃ e, e ∈ evs ∧ key_of e = k ∧ e.1.2 = s)
       ∧ (∀ t, t ∈ sources r ↔ ∃ e, e ∈ evs ∧ key_of e = k ∧ e.1.1 = t)
       ∧ ∃ pre e post,
           evs = pre ++ e :: post ∧ key_of e = k
           ∧ (∀ e', e' ∈ pre → key_of e' ≠ k)
           ∧ fields r = <["query_sector" := e.1.2]> e.2).

(** The inverted index [ai] is the index of the text [tokens]. *)
Definition index_of (tokens : list string) (ai : list (string * list Z))
  : Prop :=
  (∀ token poslist p,
     (token, poslist) ∈ ai → p ∈ poslist →
     (0 <= p)%Z ∧ tokens !! Z.to_nat p = Some token)
  ∧ (∀ i token, tokens !! i = Some token →
       ∃ poslist, (token, poslist) ∈ ai ∧ Z.of_nat i ∈ poslist).

(** The windows of a log follow each other from [start] on. *)
Fixpoint contiguous (start : Z) (asked : list (Z * Z)) : Prop :=
  match asked with
  | [] => True
  | (s, n) :: asked' => s = start ∧ contiguous (start + n)%Z asked'
  end.

(** A small harvest: one work found twice, under two sectors and by
    two sources, its DOI written in two ways. *)
Definition sample_item : Item :=
  {[ "doi" := "10.1/ABC"; "title" := "Solar pumps" ]}.

Definition sample_fetched : list Fetched :=
  [ ("Health", [sample_item], [ {[ "title" := "Clinic power" ]} ], None);
    ("Energy", [], [], Some [ {[ "doi" := "10.1/abc" ]} ]) ].

Definition sample_record : Rec :=
  {| fields := <["query_sector" := "Health"]> sample_item;
     assigned_sectors := {[ "Health" ]} ∪ {[ "Energy" ]};
     sources := {[ "openalex" ]} ∪ {[ "core" ]} |}.

(** The same work, returned by one fetcher for the phrases of two
    sectors. *)
Definition sample_openalex (query : string) (max_items : Z) : list Item :=
  if String.eqb query "health medicine" then [sample_item]
  else if String.eqb query "energy power" then [ {[ "doi" := "10.1/abc" ]} ]
  else [].

Definition sample_openalex_record : Rec :=
  {| fields := <["query_sector" := "Health"]> sample_item;
     assigned_sectors := {[ "Health" ]} ∪ {[ "Energy" ]};
     sources := {[ "openalex" ]} |}.

(** A feed of three entries, served in windows. *)
Definition sample_entry (n : string) : Entry :=
  {| e_id := Some ("http://arxiv.org/abs/" +:+ n);
     e_title := Some ("Paper " +:+ n);
     e_summary := None; e_published := None; e_links := [];
     e_authors := [] |}.

Definition sample_feed (u : string) : list Entry :=
  if Py.endswith u "&start=0&max_results=100"
  then [sample_entry "2401.00001"; sample_entry "2401.00002"]
  else if Py.endswith u "&start=100&max_results=50"
  then [sample_entry "2401.00003"]
  else [].

End Fetch.

(* ===================================================================== *)
(** ** The choice of topics in [scraper.py] *)
(* ===================================================================== *)

Module Topics.
Import Web.

(** The fields of a topic that the code reads. *)
Record Topic := {
  topic_id : option string;
  topic_name : option string;           (* display_name *)
  works_count : option Z;               (* absent: read as 0 *)
}.

Definition count (t : Topic) : Z := default 0%Z (works_count t).

(** [fetch_candidate_topics(search_term, per_page, max_topics, email)],
    given the outcome of its [try] block: the [results] of the answer,
    or the exception raised on the way. *)
Definition fetch_candidate_topics (answer : res (list Topic)) (max_topics : Z)
  : list Topic :=
  match answer with
  | Raise _ => []
  | Ok topics => PySeq.slice_to max_topics (PySeq.sorted_desc count topics)
  end.

(** Topics with more works come first. *)
Definition by_count (a b : Topic) : Prop := (count b <= count a)%Z.

(** Four topics, two of them with the same number of works. *)
Definition sample_topics : list Topic :=
  [ {| topic_id := Some "https://openalex.org/T1"; topic_name := Some "Sensors";
       works_count := Some 40%Z |};
    {| topic_id := Some "https://openalex.org/T2"; topic_name := Some "Software";
       works_count := Some 90%Z |};
    {| topic_id := Some "https://openalex.org/T3"; topic_name := Some "Telecom";
       works_count := None |};
    {| topic_id := Some "https://openalex.org/T4"; topic_name := Some "Hardware";
       works_count := Some 40%Z |} ].

(** The id [main] passes to [download_for_topic]. *)
Definition tid_of (t : Topic) : string :=
  let tid := Py.opt_str (topic_id t) in
  if Py.startswith tid "https://openalex.org/" then PySeq.last_segment tid
  else tid.

End Topics.

(* ===================================================================== *)
(** ** The loop of [process_csv] *)
(* ===================================================================== *)

Module Run.
Import Web Lib Csv.

Section WithEnv.
Variable E : Env.

(** The loop over the rows of the data frame: the three output
    columns, one entry per row; [None] when [os.makedirs] raises for
    a row, which ends the loop there. *)
Fixpoint process_rows (out_dir : string) (email : option string)
    (rows : list Row) : M (option (list (string * string * string))) :=
  match rows with
  | [] => mret (Some [])
  | row :: rows' =>
      r ← process_row E out_dir email row;
      match r with
      | None => mret None
      | Some r =>
          rs ← process_rows out_dir email rows';
          mret (cons r <$> rs)
      end
  end.

(** The rows [process_csv] works on: [max_rows] limits them unless it
    is [None] or zero. *)
Definition selected (rows : list Row) (max_rows : option Z) : list Row :=
  match max_rows with
  | Some n => if (n =? 0)%Z then rows else PySeq.slice_to n rows
  | None => rows
  end.

(** [process_csv(input_csv, out_dir, email, cols_map, max_rows)] on the
    rows read from the input: the three columns it adds to the data
    frame, or [None] when [os.makedirs] raises, for the output
    directory or for the directory of a row; the exception then leaves
    [process_csv] and no output is written. *)
Definition process_csv (rows : list Row) (out_dir : string)
    (email : option string) (max_rows : option Z)
  : M (option (list (string * string * string))) :=
  failed ← makedirs E out_dir;
  if (failed : bool) then mret None
  else process_rows out_dir email (selected rows max_rows).

End WithEnv.
End Run.

(* ===================================================================== *)
(** ** Notions used in the statements about names and requests *)
(* ===================================================================== *)

Module Names.

(** A character that [safe_filename] lets through. *)
Definition harmless (c : ascii) : bool :=
  negb (Csv.hostile c) && negb (Py.isspace c).

Definition underscore (c : ascii) : bool := (Py.code c =? 95)%nat.

(** A name of one path component: not empty, made of harmless
    characters. *)
Definition component (s : string) : Prop :=
  Py.truthy s = true ∧ Py.all_chars harmless s = true.

End Names.

(* ===================================================================== *)
(** ** Notions used in the statements about effects *)
(* ===================================================================== *)

Module Effects.
Import Web.

(** From [w] to [w'] at most [n] requests have been issued. *)
Definition at_most (n : nat) (w w' : World) : Prop :=
  ∃ evs, trace w' = trace w ++ evs ∧ length evs ≤ n.

(** A computation that leaves the files alone and issues at most [n]
    requests. *)
Definition reads_only {A} (n : nat) (m : M A) : Prop :=
  ∀ w, files (m w).2 = files w ∧ at_most n w (m w).2.

(** From [w] to [w'] no file but the one at [path] has changed, and
    no file has disappeared. *)
Definition only_touches (path : string) (w w' : World) : Prop :=
  (∀ p, p ≠ path → files w' !! p = files w !! p)
  ∧ (∀ p, is_Some (files w !! p) → is_Some (files w' !! p)).

End Effects.

(* ===================================================================== *)
(** ** More scenarios *)
(* ===================================================================== *)

Module Samples.
Import Web Lib.

(** A work without DOI whose best location is the PDF itself. *)
Definition pdf_work : Scraper.Work :=
  {| Scraper.doi := None;
     Scraper.display_name := Some (Some "A paper");
     Scraper.best_oa_location :=
       Some {| Scraper.loc_url := Some "https://x.example/f/paper.pdf";
               Scraper.loc_pdf_url := None;
               Scraper.landing_page_url := None |};
     Scraper.primary_location := None;
     Scraper.locations := [] |}.

(** A work whose only address is that of its second location. *)
Definition second_location_work : Scraper.Work :=
  {| Scraper.doi := None;
     Scraper.display_name := Some (Some "A paper");
     Scraper.best_oa_location := None;
     Scraper.primary_location := None;
     Scraper.locations :=
       [ {| Scraper.loc_url := None; Scraper.loc_pdf_url := None;
            Scraper.landing_page_url := None |};
         {| Scraper.loc_url := Some "https://x.example/f/paper.pdf";
            Scraper.loc_pdf_url := None;
            Scraper.landing_page_url := None |} ] |}.

(** The same work when its [display_name] is null. *)
Definition nameless_work : Scraper.Work :=
  {| Scraper.doi := None;
     Scraper.display_name := Some None;
     Scraper.best_oa_location := None;
     Scraper.primary_location := None;
     Scraper.locations := Scraper.locations second_location_work |}.

(** A host that answers with the status 404. *)
Definition gone_response : Response :=
  {| status_code := 404; url := "https://host.example/gone.pdf";
     content_type := Some "text/html"; text := "Not Found"; json := None;
     raw4 := None;
     stream := [Chunk (list_byte_of_string "Not Found")] |}.

Definition gone_env : Env :=
  PyLib.mock_env [(GET, "https://host.example/gone.pdf", Ok gone_response)].

End Samples.

(* ===================================================================== *)
(** * Properties *)
(* ===================================================================== *)

(** ** Strings *)

Lemma lower_char_idem (c : ascii) : Py.lower_char (Py.lower_char c) = Py.lower_char c.
Proof. destruct c as [[] [] [] [] [] [] [] []]; reflexivity. Qed.

Lemma lower_idem (s : string) : Py.lower (Py.lower s) = Py.lower s.
Proof.
  induction s as [|c s IH]; [reflexivity|].
  cbn. fold Py.lower. by rewrite lower_char_idem, IH.
Qed.

Lemma append_cons (c : ascii) (a b : string) :
  String c a +:+ b = String c (a +:+ b).
Proof. reflexivity. Qed.

Lemma truthy_lower (s : string) : Py.truthy (Py.lower s) = Py.truthy s.
Proof. by destruct s. Qed.

Lemma truthy_opt_Some (o : option string) :
  Py.truthy_opt o = true → ∃ s, o = Some s ∧ Py.truthy s = true.
Proof. destruct o as [s|]; [eauto|discriminate]. Qed.

(** ** Identity merger *)

Section TitleFacts.
Import Harvest.

Lemma word_not_space (c : ascii) : Py.isword c = true → Py.isspace c = false.
Proof. destruct c as [[] [] [] [] [] [] [] []]; by cbv. Qed.

Lemma not_space_not_blank (c : ascii) :
  Py.isspace c = false → Ascii.eqb c " " = false.
Proof. destruct (Ascii.eqb_spec c " ") as [->|]; [by cbv|done]. Qed.

Lemma all_chars_map (p : ascii → bool) (f : ascii → ascii) (s : string) :
  (∀ c, p (f c) = true) → Py.all_chars p (Py.map_chars f s) = true.
Proof. intros Hf. induction s as [|c s IH]; cbn; [done|]. by rewrite Hf, IH. Qed.

Lemma all_chars_map_weak (p q : ascii → bool) (f : ascii → ascii) (s : string) :
  (∀ c, p c = true → q (f c) = true) →
  Py.all_chars p s = true → Py.all_chars q (Py.map_chars f s) = true.
Proof.
  intros Hf. induction s as [|c s IH]; cbn; [done|].
  intros [Hc Hs]%andb_true_iff. by rewrite (Hf c Hc), IH.
Qed.

(** After the collapse of the runs of whitespace, the text is made of
    lower-case words and single spaces. *)
Lemma sub_runs_spaced (s : string) :
  Py.all_chars (λ c, lower_word c || Py.isspace c) s = true →
  ∀ in_run, spaced_words in_run (Py.sub_runs Py.isspace " " in_run s) = true.
Proof.
  induction s as [|c s IH]; cbn [Py.all_chars Py.sub_runs]; [done|].
  intros [Hc Hs]%andb_true_iff in_run.
  destruct (Py.isspace c) eqn:Hsp.
  - destruct in_run; [by apply IH|].
    change (" " +:+ ?x) with (String " " x). cbn. by apply IH.
  - rewrite orb_false_r in Hc. cbn.
    by rewrite (not_space_not_blank c Hsp), Hc, IH.
Qed.

Lemma lstrip_spaced (s : string) (b : bool) :
  spaced_words b s = true → spaced_words true (Py.lstrip_by Py.isspace s) = true.
Proof.
  revert b. induction s as [|c s IH]; intros b; cbn; [done|].
  destruct (Ascii.eqb_spec c " ") as [->|Hne].
  - intros [_ Hs]%andb_true_iff. change (Py.isspace " ") with true. cbn. by eapply IH.
  - intros [Hc Hs]%andb_true_iff.
    assert (Hsp : Py.isspace c = false).
    { apply word_not_space. by apply andb_true_iff in Hc as [? _]. }
    rewrite Hsp. cbn. destruct (Ascii.eqb_spec c " "); [done|]. by rewrite Hc, Hs.
Qed.

Lemma rstrip_words (s : string) (b : bool) :
  spaced_words b s = true →
  Py.rstrip_by Py.isspace s = "" ∨ words_from b (Py.rstrip_by Py.isspace s) = true.
Proof.
  revert b. induction s as [|c s IH]; intros b; cbn [spaced_words Py.rstrip_by];
    [by left|].
  destruct (Ascii.eqb_spec c " ") as [->|Hne].
  - intros [Hb Hs]%andb_true_iff. change (Py.isspace " ") with true.
    destruct (IH true Hs) as [Hr|Hr].
    + left. by rewrite Hr.
    + right.
      assert (Ht : Py.truthy (Py.rstrip_by Py.isspace s) = true)
        by (by destruct (Py.rstrip_by Py.isspace s)).
      rewrite Ht. cbn [negb andb words_from].
      change (Ascii.eqb " " " ") with true. by rewrite Hb, Hr.
  - intros [Hc Hs]%andb_true_iff. right.
    assert (Hsp : Py.isspace c = false).
    { apply word_not_space. by apply andb_true_iff in Hc as [? _]. }
    rewrite Hsp. cbn [andb words_from].
    destruct (Ascii.eqb_spec c " "); [done|]. rewrite Hc.
    destruct (IH false Hs) as [Hr|Hr]; by rewrite Hr.
Qed.

Lemma normalize_title_shape (t : string) : is_normalized (normalize_title t) = true.
Proof.
  unfold normalize_title. destruct (Py.truthy t); [|done]. cbn [negb].
  set (t2 := Py.map_chars _ (Py.lower t)).
  assert (H2 : Py.all_chars (λ c, lower_word c || Py.isspace c) t2 = true).
  { unfold t2, Py.lower.
    apply (all_chars_map_weak (λ c, Ascii.eqb (Py.lower_char c) c)).
    - intros c Hc. unfold lower_word.
      destruct (Py.isword c) eqn:Hw; cbn; [by rewrite Hw, Hc|].
      destruct (Py.isspace c) eqn:Hs; cbn; [by rewrite Hs, orb_true_r|done].
    - apply all_chars_map. intros c. rewrite lower_char_idem.
      by apply Ascii.eqb_eq. }
  pose proof (sub_runs_spaced t2 H2 false) as H3.
  apply lstrip_spaced in H3. apply rstrip_words in H3.
  unfold Py.strip, Py.strip_by, is_normalized.
  destruct H3 as [->|H3]; [done|]. by destruct (Py.rstrip_by _ _).
Qed.

End TitleFacts.

Section WordFacts.
Import Harvest.

Lemma join_cons_char (c : ascii) (w : string) (ws : list string) :
  PySeq.join " " (String c w :: ws) = String c (PySeq.join " " (w :: ws)).
Proof. by destruct ws. Qed.

Lemma title_words_start (s : string) :
  starts_with_word s = true → title_words s ≠ [].
Proof.
  destruct s as [|c s]; [done|]. cbn. intros ->.
  by destruct (title_words s), (starts_with_word s).
Qed.

Lemma title_words_truthy (s : string) :
  Forall (λ w, Py.truthy w = true) (title_words s).
Proof.
  induction s as [|c s IH]; cbn; [constructor|].
  destruct (Py.isword c); [|done].
  destruct (title_words s) as [|w ws]; [by repeat constructor|].
  apply Forall_cons in IH as [Hw Hws].
  destruct (starts_with_word s); by repeat constructor.
Qed.

Lemma join_truthy_iff (l : list string) :
  Forall (λ w, Py.truthy w = true) l →
  Py.truthy (PySeq.join " " l) = negb (Lib.is_empty l).
Proof.
  destruct l as [|w l]; [done|]. intros [Hw _]%Forall_cons.
  cbn. destruct l; [done|]. by destruct w.
Qed.

(** The text of a title after the first substitution: word characters
    and whitespace. *)
Lemma title_words_map (f : ascii → ascii) (s : string) :
  (∀ c, Py.isword c = true → f c = c) →
  (∀ c, Py.isword c = false → Py.isword (f c) = false) →
  title_words (Py.map_chars f s) = title_words s.
Proof.
  intros Hw Hn.
  assert (Hf : ∀ c, Py.isword (f c) = Py.isword c).
  { intros c. destruct (Py.isword c) eqn:Hc; [by rewrite Hw|by apply Hn]. }
  induction s as [|c s IH]; [done|]. cbn [Py.map_chars title_words].
  rewrite Hf, IH.
  destruct (Py.isword c) eqn:Hc; [|done]. rewrite (Hw c Hc).
  assert (starts_with_word (Py.map_chars f s) = starts_with_word s) as ->; [|done].
  destruct s; [done|]. cbn. apply Hf.
Qed.

Lemma lstrip_sub_runs_true (u : string) :
  Py.lstrip_by Py.isspace (Py.sub_runs Py.isspace " " true u)
  = Py.sub_runs Py.isspace " " true u.
Proof.
  induction u as [|c u IH]; [done|]. cbn [Py.sub_runs].
  destruct (Py.isspace c) eqn:Hc; [done|]. cbn. by rewrite Hc.
Qed.

Lemma lstrip_sub_runs (u : string) :
  Py.lstrip_by Py.isspace (Py.sub_runs Py.isspace " " false u)
  = Py.sub_runs Py.isspace " " true u.
Proof.
  destruct u as [|c u]; [done|]. cbn [Py.sub_runs].
  destruct (Py.isspace c) eqn:Hc.
  - change (" " +:+ ?x) with (String " " x). cbn [Py.lstrip_by].
    change (Py.isspace " ") with true. cbn iota. apply lstrip_sub_runs_true.
  - cbn. by rewrite Hc.
Qed.

(** The text after the collapse of the whitespace and the removal of
    the whitespace at its end: the words, a space between two of them,
    and a space in front when the text starts with whitespace. *)
Lemma rstrip_sub_runs (u : string) :
  Py.all_chars (λ c, Py.isword c || Py.isspace c) u = true →
  let J := PySeq.join " " (title_words u) in
  Py.rstrip_by Py.isspace (Py.sub_runs Py.isspace " " true u) = J
  ∧ Py.rstrip_by Py.isspace (Py.sub_runs Py.isspace " " false u)
    = (if starts_with_space u then (if Py.truthy J then " " +:+ J else "")
       else J).
Proof.
  induction u as [|c u IH]; [done|].
  cbn [Py.all_chars]. intros [Hc Hu]%andb_prop.
  destruct (IH Hu) as [IHt IHf]. clear IH. cbv zeta in *.
  pose proof (title_words_truthy u) as Hwords.
  pose proof (join_truthy_iff _ Hwords) as Htruthy.
  cbn [Py.sub_runs title_words starts_with_space].
  destruct (Py.isword c) eqn:Hw.
  - (* a word character *)
    rewrite (word_not_space c Hw).
    cbn [Py.rstrip_by]. rewrite (word_not_space c Hw). cbn [andb].
    rewrite IHf.
    assert (Hgoal :
      String c (if starts_with_space u
                then if Py.truthy (PySeq.join " " (title_words u))
                     then " " +:+ PySeq.join " " (title_words u) else ""
                else PySeq.join " " (title_words u))
      = PySeq.join " "
          match title_words u with
          | [] => [String c ""]
          | w :: ws => if starts_with_word u then String c w :: ws
                       else String c "" :: w :: ws
          end); [|done].
    destruct u as [|d u]; [done|].
    cbn [starts_with_space starts_with_word].
    cbn [Py.all_chars] in Hu. apply andb_prop in Hu as [Hd _].
    destruct (Py.isword d) eqn:Hdw.
    + rewrite (word_not_space d Hdw).
      pose proof (title_words_start (String d u)) as Hne. cbn in Hne.
      specialize (Hne Hdw).
      destruct (title_words (String d u)) as [|w ws]; [done|].
      by rewrite join_cons_char.
    + cbn in Hd. rewrite Hd, Htruthy.
      by destruct (title_words (String d u)) as [|w ws].
  - (* whitespace *)
    cbn in Hc. rewrite Hc. split; [done|].
    change (" " +:+ ?x) with (String " " x). cbn [Py.rstrip_by].
    change (Py.isspace " ") with true. rewrite IHt. cbn [andb].
    by destruct (Py.truthy (PySeq.join " " (title_words u))).
Qed.

(** [normalize_title] gives the words of the lower-cased title, with
    one space between two words. *)
Lemma normalize_title_words (t : string) :
  normalize_title t = PySeq.join " " (title_words (Py.lower t)).
Proof.
  unfold normalize_title. destruct t as [|c t]; [done|]. cbn [Py.truthy negb].
  set (f := fun c => if Py.isword c || Py.isspace c then c else " "%char).
  set (u := Py.map_chars f (Py.lower (String c t))).
  assert (Hu : Py.all_chars (λ c, Py.isword c || Py.isspace c) u = true).
  { apply all_chars_map. intros d. unfold f.
    destruct (Py.isword d || Py.isspace d) eqn:Hd; [done|]. apply orb_true_r. }
  unfold Py.strip, Py.strip_by. rewrite lstrip_sub_runs.
  rewrite (proj1 (rstrip_sub_runs u Hu)). unfold u.
  rewrite title_words_map; [done| |].
  - intros d Hd. unfold f. by rewrite Hd.
  - intros d Hd. unfold f. rewrite Hd. cbn. by destruct (Py.isspace d).
Qed.

(** A text made of word characters is one word. *)
Lemma title_words_word (w : string) :
  Py.truthy w = true → Py.all_chars Py.isword w = true → title_words w = [w].
Proof.
  induction w as [|c w IH]; [done|]. intros _.
  cbn [Py.all_chars title_words]. intros [-> Hw]%andb_prop.
  destruct w as [|d w]; [done|].
  rewrite IH by done. cbn [starts_with_word].
  cbn in Hw. by apply andb_prop in Hw as [-> _].
Qed.

(** Any other character separates words. *)
Lemma title_words_sep (a b : string) (c : ascii) :
  Py.isword c = false →
  title_words (a +:+ String c b) = title_words a ++ title_words b.
Proof.
  intros Hc. induction a as [|d a IH].
  { change ("" +:+ ?x) with x. cbn [title_words]. by rewrite Hc. }
  rewrite append_cons. cbn [title_words]. rewrite IH.
  destruct (Py.isword d); [|done].
  assert (starts_with_word (a +:+ String c b) = starts_with_word a) as ->.
  { destruct a; [by cbn|done]. }
  destruct (title_words a) as [|w ws] eqn:Ha.
  - destruct a as [|e a]; [|].
    + cbn. by destruct (title_words b).
    + assert (starts_with_word (String e a) = false) as ->.
      { destruct (starts_with_word (String e a)) eqn:Hs; [|done].
        by apply title_words_start in Hs. }
      cbn. by destruct (title_words b).
  - cbn. by destruct (starts_with_word a).
Qed.

End WordFacts.

Section Merger.
Import Harvest.

Lemma add_provenance_idem sector tag r :
  add_provenance sector tag (add_provenance sector tag r)
  = add_provenance sector tag r.
Proof.
  unfold add_provenance; cbn.
  by rewrite <- !(assoc_L (∪)), !(idemp_L (∪) _).
Qed.

Lemma add_provenance_new sector tag item :
  add_provenance sector tag (new_rec sector tag item) = new_rec sector tag item.
Proof. unfold add_provenance, new_rec; cbn. by rewrite !(idemp_L (∪) _). Qed.

Lemma alter_last {A} (f : A → A) (l : list A) (x : A) :
  alter f (length l) (l ++ [x]) = l ++ [f x].
Proof. induction l as [|y l IH]; cbn; [done|]. by rewrite IH. Qed.

Lemma alter_twice_idem {A} (f : A → A) (i : nat) (l : list A) :
  (∀ x, f (f x) = f x) → alter f i (alter f i l) = alter f i l.
Proof.
  intros Hf. revert i. induction l as [|y l IH]; intros [|i]; cbn; try done.
  - by rewrite Hf.
  - by rewrite IH.
Qed.

Lemma ingest_wf tag sector item st : wf st → wf (ingest tag sector item st).
Proof.
  intros Hwf. unfold ingest.
  destruct (Py.truthy (canonical_key item)); cbn; [|done].
  destruct (seen st !! canonical_key item) as [i|] eqn:Hk.
  - intros k j Hj; cbn in *. rewrite length_alter. eauto.
  - intros k j; cbn. rewrite length_app; cbn.
    destruct (decide (canonical_key item = k)) as [->|Hne].
    + rewrite lookup_insert_eq. intros [= <-]. lia.
    + rewrite lookup_insert_ne by done. intros Hj. apply Hwf in Hj. lia.
Qed.

Lemma ingest_new tag sector item st :
  Py.truthy (canonical_key item) = true →
  seen st !! canonical_key item = None →
  ingest tag sector item st
  = {| seen := <[canonical_key item := length (rows st)]> (seen st);
       rows := rows st ++ [new_rec sector tag item] |}.
Proof. intros Ht Hn. unfold ingest. by rewrite Ht, Hn. Qed.

Lemma ingest_seen tag sector item st i :
  Py.truthy (canonical_key item) = true →
  seen st !! canonical_key item = Some i →
  ingest tag sector item st
  = {| seen := seen st; rows := alter (add_provenance sector tag) i (rows st) |}.
Proof. intros Ht Hs. unfold ingest. by rewrite Ht, Hs. Qed.

(** C7. The deduplication key of an item is its DOI, lower-cased and
    trimmed, when that is non-empty, and otherwise its normalized
    title.  The normalized title is made of the words of the
    lower-cased title, in their order, with a single space between two
    words and none at the ends; a word is a maximal run of word
    characters (letters, digits, the underscore), so that a run of
    word characters is one word and every other character, punctuation
    or whitespace, separates words and is otherwise dropped.  So the
    normalized title does not depend on letter case and is made of
    lower-case words separated by single spaces.  Two
    items with the same non-empty key, sighted one after the other for
    a key not seen before, leave exactly one new merged record, which
    keeps the fields of the first item and carries the source tags and
    the sector labels of both.  The DOIs 10.1/ABC and 10.1/abc have the
    same key, and so have the titles "Water Supply, Zambia!" and
    "water supply zambia". *)
Theorem canonical_key_identifies_work :
  (∀ item : Item,
     let d := Py.strip (Py.lower (Py.opt_str (item !! "doi"))) in
     (Py.truthy d = true → canonical_key item = d)
     ∧ (Py.truthy d = false →
        canonical_key item = normalize_title (Py.opt_str (item !! "title"))))
  ∧ (∀ t, normalize_title t = PySeq.join " " (title_words (Py.lower t)))
  ∧ (∀ w, Py.truthy w = true → Py.all_chars Py.isword w = true →
          title_words w = [w])
  ∧ (∀ a c b, Py.isword c = false →
              title_words (a +:+ String c b) = title_words a ++ title_words b)
  ∧ (∀ t, normalize_title (Py.lower t) = normalize_title t)
  ∧ (∀ t, is_normalized (normalize_title t) = true)
  ∧ (∀ (ta tb sa sb : string) (a b : Item) (st : State),
       Py.truthy (canonical_key a) = true →
       canonical_key b = canonical_key a →
       seen st !! canonical_key a = None →
       let st' := ingest tb sb b (ingest ta sa a st) in
       rows st' = rows st ++ [ {| fields := <["query_sector" := sa]> a;
                                  assigned_sectors := {[sa]} ∪ {[sb]};
                                  sources := {[ta]} ∪ {[tb]} |} ]
       ∧ merged st' (canonical_key a) = last (rows st')
       ∧ merged st' (canonical_key b) = last (rows st'))
  ∧ canonical_key {[ "doi" := "10.1/ABC" ]} = "10.1/abc"
  ∧ canonical_key {[ "doi" := "10.1/abc" ]} = "10.1/abc"
  ∧ canonical_key {[ "title" := "Water Supply, Zambia!" ]} = "water supply zambia"
  ∧ canonical_key {[ "title" := "water supply zambia" ]} = "water supply zambia".
Proof.
  split_and!.
  - intros item d. unfold canonical_key. fold d. split; intros ->; done.
  - apply normalize_title_words.
  - apply title_words_word.
  - intros a c b. apply title_words_sep.
  - intros t. unfold normalize_title. by rewrite truthy_lower, lower_idem.
  - apply normalize_title_shape.
  - intros ta tb sa sb a b st Ht Hb Hn st'.
    assert (Hst' : st' = {| seen := <[canonical_key a := length (rows st)]> (seen st);
                            rows := rows st ++ [add_provenance sb tb (new_rec sa ta a)] |}).
    { unfold st'. rewrite (ingest_new ta sa a st Ht Hn).
      rewrite (ingest_seen tb sb b _ (length (rows st))); cbn.
      - by rewrite alter_last.
      - by rewrite Hb.
      - by rewrite Hb, lookup_insert_eq. }
    rewrite Hb, Hst'. unfold merged; cbn.
    rewrite lookup_insert_eq; cbn. rewrite last_snoc.
    split_and!; try done.
    all: by rewrite lookup_app_r, Nat.sub_diag by lia.
  - by vm_compute.
  - by vm_compute.
  - by vm_compute.
  - by vm_compute.
Qed.

(** Scenario of C7: the DOI 10.1/ABC from one source, then 10.1/abc
    from another, into the empty state. *)
Lemma canonical_key_identifies_work_witness :
  let a : Item := {[ "doi" := "10.1/ABC" ]} in
  let b : Item := {[ "doi" := "10.1/abc" ]} in
  let st' := ingest "core" "Health" b (ingest "openalex" "Energy" a empty_state) in
  rows st' = [ {| fields := <["query_sector" := "Energy"]> a;
                  assigned_sectors := {["Energy"]} ∪ {["Health"]};
                  sources := {["openalex"]} ∪ {["core"]} |} ]
  ∧ merged st' (canonical_key a) = last (rows st')
  ∧ merged st' (canonical_key b) = last (rows st').
Proof.
  intros a b.
  exact (proj1 (proj2 (proj2 (proj2 (proj2 (proj2 (proj2
           canonical_key_identifies_work))))))
           "openalex" "core" "Energy" "Health" a b empty_state
           eq_refl eq_refl eq_refl).
Defined.

(** C8. Ingesting the same item for the same sector twice leaves the
    state of the merger, and so both sets of every merged record, as
    one ingestion leaves it; a sighting of a key seen before changes
    nothing but the two sets of that key's record, to which it adds
    the sector label and the source tag. *)
Theorem ingest_idempotent :
  (∀ (tag sector : string) (item : Item) (st : State),
     ingest tag sector item (ingest tag sector item st)
     = ingest tag sector item st)
  ∧ (∀ (tag sector : string) (item : Item) (st : State) (i : nat) (r : Rec),
       Py.truthy (canonical_key item) = true →
       seen st !! canonical_key item = Some i →
       rows st !! i = Some r →
       let st' := ingest tag sector item st in
       seen st' = seen st
       ∧ length (rows st') = length (rows st)
       ∧ (∀ j, j ≠ i → rows st' !! j = rows st !! j)
       ∧ rows st' !! i = Some {| fields := fields r;
                                 assigned_sectors := assigned_sectors r ∪ {[sector]};
                                 sources := sources r ∪ {[tag]} |}).
Proof.
  split.
  - intros tag sector item st.
    destruct (Py.truthy (canonical_key item)) eqn:Ht.
    2: { unfold ingest. by rewrite Ht. }
    destruct (seen st !! canonical_key item) as [i|] eqn:Hs.
    + rewrite (ingest_seen tag sector item st i Ht Hs).
      rewrite (ingest_seen tag sector item (Build_State (seen st) _) i Ht Hs); cbn.
      f_equal. apply alter_twice_idem, add_provenance_idem.
    + rewrite (ingest_new _ _ _ st Ht Hs).
      rewrite (ingest_seen _ _ _ _ (length (rows st)) Ht); cbn.
      * by rewrite alter_last, add_provenance_new.
      * by rewrite lookup_insert_eq.
  - intros tag sector item st i r Ht Hs Hr st'. unfold st'.
    rewrite (ingest_seen _ _ _ st i Ht Hs); cbn.
    split_and!; [done| by rewrite length_alter | |].
    + intros j Hj. by rewrite list_lookup_alter_ne.
    + rewrite list_lookup_alter_eq, Hr. done.
Qed.

(** An instance of C8: the third sighting of a key, under a new sector. *)
Lemma ingest_idempotent_witness :
  let item : Item := {[ "title" := "Water Supply, Zambia!" ]} in
  let st := ingest "openalex" "Infrastructure" item empty_state in
  let st' := ingest "arxiv" "Health" item st in
  seen st' = seen st
  ∧ length (rows st') = length (rows st)
  ∧ (∀ j, j ≠ 0 → rows st' !! j = rows st !! j)
  ∧ rows st' !! 0 = Some {| fields := <["query_sector" := "Infrastructure"]> item;
                            assigned_sectors := {["Infrastructure"]} ∪ {["Health"]};
                            sources := {["openalex"]} ∪ {["arxiv"]} |}.
Proof.
  intros item st.
  exact (proj2 ingest_idempotent "arxiv" "Health" item st 0
           (new_rec "Infrastructure" "openalex" item)
           eq_refl eq_refl eq_refl).
Defined.

End Merger.

(** ** Content validator *)

Section ValidatorFacts.
Import Web Lib Validator.
Variable E : Env.

Lemma write_rest_prefix (out : string) (evs : list StreamEv) :
  ∀ (w : World) (c : list byte),
    files w !! out = Some c →
    ∃ d, files (write_rest E out evs w).2 !! out = Some (c ++ d)
         ∧ d `prefix_of` stream_data evs.
Proof.
  induction evs as [|[data|e] evs IH]; intros w c Hc; cbn.
  - exists []. by rewrite app_nil_r.
  - destruct data as [|b data]; cbn.
    + apply IH, Hc.
    + unfold mbind, M_bind, bind, write. rewrite Hc; cbn.
      destruct (write_error E out c (b :: data)) as [e|]; cbn.
      * exists []. rewrite app_nil_r. split; [done|]. apply prefix_nil.
      * destruct (IH {| trace := trace w;
                        files := <[out := c ++ b :: data]> (files w) |}
                     (c ++ b :: data)) as (d & Hd & Hp).
        { cbn. apply lookup_insert_eq. }
        exists ((b :: data) ++ d). split.
        -- by rewrite Hd, <- app_assoc.
        -- change ((b :: data) ++ d `prefix_of` (b :: data) ++ stream_data evs).
           by apply prefix_app.
  - exists []. rewrite app_nil_r. split; [done|]. apply prefix_nil.
Qed.

(** With a disk that takes every write, the chunks before a read
    failure all arrive in the file. *)
Lemma write_rest_read_error (out : string) (pre : list StreamEv) e post :
  (∀ old data, write_error E out old data = None) →
  Forall is_chunk pre →
  ∀ (w : World) (c : list byte),
    files w !! out = Some c →
    (write_rest E out (pre ++ ReadError e :: post) w).1 = Some e
    ∧ files (write_rest E out (pre ++ ReadError e :: post) w).2 !! out
      = Some (c ++ stream_data pre).
Proof.
  intros Hw Hpre. induction Hpre as [|[data|e'] pre Hev _ IH]; intros w c Hc; cbn.
  - by rewrite app_nil_r.
  - destruct data as [|b data]; cbn.
    + apply IH, Hc.
    + unfold mbind, M_bind, bind, write. rewrite Hc, Hw; cbn.
      replace (c ++ b :: data ++ stream_data pre)
        with ((c ++ b :: data) ++ stream_data pre) by (by rewrite <- app_assoc).
      apply IH. cbn. apply lookup_insert_eq.
  - destruct Hev.
Qed.

(** With a disk that takes every write while the file is shorter than
    what has been read so far, and then refuses one, the chunks read
    before are in the file. *)
Lemma write_rest_write_error (out : string) (pre : list StreamEv) data e post :
  Forall is_chunk pre →
  data ≠ [] →
  ∀ (w : World) (c : list byte),
    files w !! out = Some c →
    (∀ old d, length old < length (c ++ stream_data pre) →
              write_error E out old d = None) →
    write_error E out (c ++ stream_data pre) data = Some e →
    (write_rest E out (pre ++ Chunk data :: post) w).1 = Some e
    ∧ files (write_rest E out (pre ++ Chunk data :: post) w).2 !! out
      = Some (c ++ stream_data pre).
Proof.
  intros Hpre Hdata.
  induction Hpre as [|[d0|e'] pre Hev _ IH]; intros w c Hc Hok Hfail; cbn in *.
  - destruct data as [|b data]; [done|]. cbn.
    unfold mbind, M_bind, bind, write. rewrite Hc; cbn.
    rewrite app_nil_r in Hfail. rewrite Hfail; cbn. by rewrite app_nil_r.
  - destruct d0 as [|b d0]; cbn in *.
    + by apply IH.
    + unfold mbind, M_bind, bind, write. rewrite Hc; cbn.
      rewrite Hok by (rewrite !length_app; cbn; lia). cbn.
      assert (Heq : c ++ b :: d0 ++ stream_data pre
                    = (c ++ b :: d0) ++ stream_data pre)
        by (by rewrite <- app_assoc).
      rewrite Heq in *. apply IH; cbn; [apply lookup_insert_eq|done|done].
  - destruct Hev.
Qed.

Lemma write_rest_clean (out : string) (rest : list StreamEv) :
  (∀ old data, write_error E out old data = None) →
  Forall is_chunk rest →
  ∀ w, (write_rest E out rest w).1 = None.
Proof.
  intros Hw Hrest. induction Hrest as [|[data|e'] rest Hev _ IH]; intros w; cbn.
  - done.
  - destruct data as [|b data]; cbn; [apply IH|].
    unfold mbind, M_bind, bind, write. rewrite Hw; cbn. apply IH.
  - destruct Hev.
Qed.

Lemma write_rest_other (out : string) (rest : list StreamEv) :
  ∀ w p, p ≠ out → files (write_rest E out rest w).2 !! p = files w !! p.
Proof.
  induction rest as [|[data|e] rest IH]; intros w p Hp; cbn; try done.
  destruct data as [|b data]; cbn; [by apply IH|].
  unfold mbind, M_bind, bind, write.
  destruct (write_error E out _ _); cbn; [done|].
  rewrite IH by done. cbn. by rewrite lookup_insert_ne.
Qed.

(** What the validator does, phase by phase. *)
Lemma validate_request_fails st u out w e :
  net E (snd <$> trace w) (stream_req u) = Raise e →
  download_stream_and_validate E st u out w
  = (handler e, {| trace := trace w ++ [(st, stream_req u)]; files := files w |}).
Proof.
  intros H. unfold download_stream_and_validate, mbind, M_bind, bind, http.
  by rewrite H.
Qed.

Lemma validate_status_fails st u out w r e :
  net E (snd <$> trace w) (stream_req u) = Ok r →
  raise_for_status r = Some e →
  download_stream_and_validate E st u out w
  = (handler e, {| trace := trace w ++ [(st, stream_req u)]; files := files w |}).
Proof.
  intros H Hs. unfold download_stream_and_validate, mbind, M_bind, bind, http.
  by rewrite H, Hs.
Qed.

Lemma validate_answered st u out w r :
  answered E w u r →
  download_stream_and_validate E st u out w
  = let w0 := {| trace := trace w ++ [(st, stream_req u)]; files := files w |} in
    match stream r with
    | [] => ((false, Some "empty_response"), w0)
    | ReadError e :: _ => (handler e, w0)
    | Chunk first :: rest =>
        if looks_like_pdf (Py.or_else (url r) u) first
        then match open_error E out with
             | Some e => (handler e, w0)
             | None =>
                 let w1 := {| trace := trace w0; files := <[out := []]> (files w0) |} in
                 match write_error E out [] first with
                 | Some e => (handler e, w1)
                 | None =>
                     let w2 := {| trace := trace w0;
                                  files := <[out := first]> (files w1) |} in
                     match (write_rest E out rest w2).1 with
                     | Some e => (handler e, (write_rest E out rest w2).2)
                     | None => ((true, None), (write_rest E out rest w2).2)
                     end
                 end
             end
        else ((false, Some "not_pdf"), w0)
    end.
Proof.
  intros [H Hs]. unfold download_stream_and_validate, mbind, M_bind, bind, http.
  rewrite H, Hs. cbn.
  destruct (stream r) as [|[first|e] rest]; try done.
  destruct (looks_like_pdf _ first); cbn; [|done].
  unfold open_wb. destruct (open_error E out); cbn; [done|].
  unfold write at 1. cbn. rewrite lookup_insert_eq. cbn.
  destruct (write_error E out [] first); cbn; [done|].
  destruct (write_rest E out rest _) as [[e|] w']; done.
Qed.

End ValidatorFacts.

Section ValidatorClaims.
Import Web Lib Validator.

(** C2, amended.  Once the GET has been answered without an error
    status and the stream has delivered its initial chunk, the
    validator's test is: the final URL (the URL after redirects, or
    the requested one when that is empty), lower-cased, ends in .pdf,
    or the first four bytes of the chunk are the magic marker, or the
    marker occurs anywhere in the chunk.  When the test fails the
    result is ok=false with reason not_pdf; the result is ok=true only
    when the test passes; and when nothing fails afterwards (opening
    the file, writing, reading the further chunks) the result is
    ok=true exactly when the test passes. *)
Theorem validator_accepts_iff (E : Env) (st : Stage) (u out : string)
    (w : World) (r : Response) (first : list byte) (rest : list StreamEv) :
  answered E w u r →
  stream r = Chunk first :: rest →
  let final := Py.or_else (url r) u in
  let result := (download_stream_and_validate E st u out w).1 in
  looks_like_pdf final first
  = (Py.endswith (Py.lower final) ".pdf"
     || bytes_eqb (firstn 4 first) PDF_MAGIC
     || bytes_contains PDF_MAGIC first)
  ∧ (looks_like_pdf final first = false → result = (false, Some "not_pdf"))
  ∧ (result.1 = true → looks_like_pdf final first = true)
  ∧ (undisturbed E out rest →
     (result.1 = true ↔ looks_like_pdf final first = true)
     ∧ (looks_like_pdf final first = true → result = (true, None))).
Proof.
  intros Hans Hstream final result.
  assert (Hres : result
    = (download_stream_and_validate E st u out w).1) by done.
  rewrite (validate_answered E st u out w r Hans), Hstream in Hres.
  cbn zeta in Hres. fold final in Hres.
  split; [done|].
  destruct (looks_like_pdf final first) eqn:Hlook.
  - split_and!; [done|done|].
    intros (Hopen & Hwrite & Hrest).
    rewrite Hopen, Hwrite in Hres.
    rewrite (write_rest_clean E out rest Hwrite Hrest) in Hres.
    cbn in Hres. by rewrite Hres.
  - cbn in Hres. rewrite Hres. by split_and!.
Qed.

(** An instance of C2: a PDF served under a URL without suffix. *)
Lemma validator_accepts_iff_witness :
  let u := "https://host.example/download?id=7" in
  let first := list_byte_of_string "%PDF-1.7 body" in
  let result := (download_stream_and_validate pdf_env validation u "out/7.pdf"
                   PyLib.empty_world).1 in
  (result.1 = true ↔ looks_like_pdf u first = true)
  ∧ (looks_like_pdf u first = true → result = (true, None)).
Proof.
  intros u first.
  refine (proj2 (proj2 (proj2
    (validator_accepts_iff pdf_env validation u "out/7.pdf" PyLib.empty_world
       (PyLib.page u "application/octet-stream" "%PDF-1.7 body") first []
       (conj eq_refl eq_refl) eq_refl))) _).
  split; [reflexivity|]. split; [reflexivity|constructor].
Defined.

(** The claim C2 read with the suffix compared as it is: an HTML page
    whose final URL ends in .PDF passes none of the three tests so
    read, and the validator accepts it. *)
Lemma validator_accepts_upper_case_suffix :
  let u := "https://host.example/PAPER.PDF" in
  let first := list_byte_of_string "<html>not a pdf</html>" in
  net upper_case_env [] (stream_req u)
  = Ok (PyLib.page u "text/html" "<html>not a pdf</html>")
  ∧ accepts_case_sensitive u first = false
  ∧ (download_stream_and_validate upper_case_env validation u "out/paper.pdf"
       PyLib.empty_world).1 = (true, None).
Proof. vm_compute. by split_and!. Qed.

(** C3.  When the stream of an answered request is empty the result is
    ok=false with empty_response, when its initial chunk fails the
    validator's test the result is ok=false with not_pdf, and in both
    cases the files on disk are what they were: no destination file is
    created.  The files change only when an initial chunk has passed
    the test. *)
Theorem validator_rejects_without_file (E : Env) (st : Stage) (u out : string)
    (w : World) :
  let res := download_stream_and_validate E st u out w in
  (∀ r, answered E w u r → stream r = [] →
        res.1 = (false, Some "empty_response") ∧ files res.2 = files w)
  ∧ (∀ r first rest,
        answered E w u r → stream r = Chunk first :: rest →
        looks_like_pdf (Py.or_else (url r) u) first = false →
        res.1 = (false, Some "not_pdf") ∧ files res.2 = files w)
  ∧ (files res.2 ≠ files w →
     ∃ r first rest,
       answered E w u r ∧ stream r = Chunk first :: rest
       ∧ looks_like_pdf (Py.or_else (url r) u) first = true).
Proof.
  intros res. split_and!.
  - intros r Hans Hs. unfold res.
    rewrite (validate_answered E st u out w r Hans), Hs. done.
  - intros r first rest Hans Hs Hl. unfold res.
    rewrite (validate_answered E st u out w r Hans), Hs. cbn zeta.
    rewrite Hl. done.
  - intros Hch.
    destruct (net E (snd <$> trace w) (stream_req u)) as [r|e] eqn:Hnet.
    2: { exfalso. apply Hch. unfold res.
         by rewrite (validate_request_fails E st u out w e Hnet). }
    destruct (raise_for_status r) as [e|] eqn:Hst.
    { exfalso. apply Hch. unfold res.
      by rewrite (validate_status_fails E st u out w r e Hnet Hst). }
    assert (Hans : answered E w u r) by done.
    unfold res in Hch. rewrite (validate_answered E st u out w r Hans) in Hch.
    destruct (stream r) as [|[first|e] rest] eqn:Hs; [by destruct Hch| |by destruct Hch].
    cbn zeta in Hch.
    destruct (looks_like_pdf (Py.or_else (url r) u) first) eqn:Hl; [|by destruct Hch].
    by exists r, first, rest.
Qed.

(** An instance of C3: an HTML error page and an empty response. *)
Lemma validator_rejects_without_file_witness :
  (let res := download_stream_and_validate html_env validation
                "https://host.example/empty" "out/a.pdf" PyLib.empty_world in
   res.1 = (false, Some "empty_response") ∧ files res.2 = ∅)
  ∧ (let res := download_stream_and_validate html_env validation
                  "https://host.example/article" "out/a.pdf" PyLib.empty_world in
     res.1 = (false, Some "not_pdf") ∧ files res.2 = ∅).
Proof.
  split.
  - exact (proj1 (validator_rejects_without_file html_env validation
             "https://host.example/empty" "out/a.pdf" PyLib.empty_world)
             (PyLib.page "https://host.example/empty" "text/html" "")
             (conj eq_refl eq_refl) eq_refl).
  - exact (proj1 (proj2 (validator_rejects_without_file html_env validation
             "https://host.example/article" "out/a.pdf" PyLib.empty_world))
             (PyLib.page "https://host.example/article" "text/html"
                "<html>Access denied</html>")
             (list_byte_of_string "<html>Access denied</html>") []
             (conj eq_refl eq_refl) eq_refl eq_refl).
Defined.

(** C10.  When the initial chunk has passed the test and the
    destination has been opened, the destination file exists
    afterwards, whatever happens next, and holds a prefix of the bytes
    of the stream.  If reading a later chunk raises an exception with
    message msg, the result is ok=false with msg and the file holds
    the chunks read before; the same when writing a later chunk raises
    on a disk that took the earlier writes. *)
Theorem validator_late_failure_leaves_partial_file (E : Env) (st : Stage)
    (u out : string) (w : World) (r : Response) (first : list byte)
    (rest : list StreamEv) :
  answered E w u r →
  stream r = Chunk first :: rest →
  looks_like_pdf (Py.or_else (url r) u) first = true →
  open_error E out = None →
  let res := download_stream_and_validate E st u out w in
  (∃ content, files res.2 !! out = Some content
              ∧ content `prefix_of` stream_data (Chunk first :: rest))
  ∧ (∀ pre msg post,
       rest = pre ++ ReadError (Error msg) :: post →
       Forall is_chunk pre →
       (∀ old data, write_error E out old data = None) →
       res.1 = (false, Some msg)
       ∧ files res.2 !! out = Some (stream_data (Chunk first :: pre)))
  ∧ (∀ pre data msg post,
       rest = pre ++ Chunk data :: post →
       Forall is_chunk pre → data ≠ [] →
       write_error E out [] first = None →
       (∀ old d, length old < length (stream_data (Chunk first :: pre)) →
                 write_error E out old d = None) →
       write_error E out (stream_data (Chunk first :: pre)) data
       = Some (Error msg) →
       res.1 = (false, Some msg)
       ∧ files res.2 !! out = Some (stream_data (Chunk first :: pre))).
Proof.
  intros Hans Hs Hl Hopen res.
  assert (Hres : res = download_stream_and_validate E st u out w) by done.
  rewrite (validate_answered E st u out w r Hans), Hs in Hres.
  cbn zeta in Hres. rewrite Hl, Hopen in Hres. cbn [trace files] in Hres.
  rewrite insert_insert_eq in Hres.
  set (w2 := {| trace := trace w ++ [(st, stream_req u)];
                files := <[out := first]> (files w) |}) in *.
  assert (Hw2 : files w2 !! out = Some first) by apply lookup_insert_eq.
  split_and!.
  - destruct (write_error E out [] first) as [e|].
    + rewrite Hres; cbn. exists []. rewrite lookup_insert_eq.
      split; [done|apply prefix_nil].
    + destruct (write_rest_prefix E out rest w2 first Hw2) as (d & Hd & Hp).
      exists (first ++ d). split; [|by apply prefix_app].
      rewrite Hres. by destruct (write_rest E out rest w2).1.
  - intros pre msg post -> Hpre Hw.
    destruct (write_rest_read_error E out pre (Error msg) post Hw Hpre w2 first Hw2)
      as [H1 H2].
    rewrite Hres, Hw, H1. done.
  - intros pre data msg post -> Hpre Hdata Hfirst Hok Hfail.
    destruct (write_rest_write_error E out pre data (Error msg) post Hpre Hdata
                w2 first Hw2 Hok Hfail) as [H1 H2].
    rewrite Hres, Hfirst, H1. done.
Qed.

(** Instances of C10: the connection breaks after the second chunk;
    the disk is full after the first. *)
Lemma validator_late_failure_leaves_partial_file_witness :
  (let res := download_stream_and_validate broken_env validation
                "https://host.example/big.pdf" "out/big.pdf" PyLib.empty_world in
   res.1 = (false, Some "Connection broken: IncompleteRead")
   ∧ files res.2 !! "out/big.pdf" = Some (list_byte_of_string "%PDF-1.7 second"))
  ∧ (let res := download_stream_and_validate full_disk_env validation
                  "https://host.example/big.pdf" "out/big.pdf" PyLib.empty_world in
     res.1 = (false, Some "No space left on device")
     ∧ files res.2 !! "out/big.pdf" = Some (list_byte_of_string "%PDF-1.7 ")).
Proof.
  split.
  - refine (proj1 (proj2
      (validator_late_failure_leaves_partial_file broken_env validation
         "https://host.example/big.pdf" "out/big.pdf" PyLib.empty_world
         broken_response (list_byte_of_string "%PDF-1.7 ")
         [Chunk (list_byte_of_string "second");
          ReadError (Error "Connection broken: IncompleteRead");
          Chunk (list_byte_of_string "never read")]
         (conj eq_refl eq_refl) eq_refl eq_refl eq_refl))
      [Chunk (list_byte_of_string "second")] _
      [Chunk (list_byte_of_string "never read")] eq_refl _ _).
    + repeat constructor.
    + reflexivity.
  - refine (proj2 (proj2
      (validator_late_failure_leaves_partial_file full_disk_env validation
         "https://host.example/big.pdf" "out/big.pdf" PyLib.empty_world
         broken_response (list_byte_of_string "%PDF-1.7 ")
         [Chunk (list_byte_of_string "second");
          ReadError (Error "Connection broken: IncompleteRead");
          Chunk (list_byte_of_string "never read")]
         (conj eq_refl eq_refl) eq_refl eq_refl eq_refl))
      [] (list_byte_of_string "second") _
      [ReadError (Error "Connection broken: IncompleteRead");
       Chunk (list_byte_of_string "never read")] eq_refl _ _ eq_refl _ eq_refl).
    + constructor.
    + discriminate.
    + intros old d Hlen. cbn in Hlen. apply Nat.ltb_lt in Hlen.
      unfold full_disk_env; cbn [write_error]. by rewrite Hlen.
Defined.

End ValidatorClaims.


(** ** More on strings *)

Section StringFacts.


Lemma str_take_drop (n : nat) (s : string) : Py.take n s +:+ Py.drop n s = s.
Proof.
  revert s. induction n as [|n IH]; intros [|c s]; cbn; try done.
  by rewrite append_cons, IH.
Qed.

Lemma lower_app (a b : string) : Py.lower (a +:+ b) = Py.lower a +:+ Py.lower b.
Proof.
  induction a as [|c a IH]; [done|].
  rewrite append_cons. cbn. fold Py.lower. by rewrite IH.
Qed.

Lemma length_lower (s : string) : String.length (Py.lower s) = String.length s.
Proof. induction s as [|c s IH]; cbn; [done|]. fold Py.lower. by rewrite IH. Qed.

Lemma endswith_cons (c : ascii) (s suf : string) :
  Py.endswith s suf = true → Py.endswith (String c s) suf = true.
Proof.
  unfold Py.endswith. intros [Hlen Heq]%andb_true_iff.
  apply Nat.leb_le in Hlen. apply andb_true_iff. split.
  - apply Nat.leb_le. cbn. lia.
  - replace (String.length (String c s) - String.length suf)
      with (S (String.length s - String.length suf)) by (cbn; lia).
    exact Heq.
Qed.

Lemma endswith_app (a s suf : string) :
  Py.endswith s suf = true → Py.endswith (a +:+ s) suf = true.
Proof.
  intros H. induction a as [|c a IH]; [done|].
  rewrite append_cons. by apply endswith_cons.
Qed.

Lemma prefix_app_self (p x : string) : String.prefix p (p +:+ x) = true.
Proof.
  induction p as [|c p IH]; [by destruct x|].
  rewrite append_cons. cbn. destruct (ascii_dec c c); [done|congruence].
Qed.

Lemma all_chars_app (p : ascii → bool) (a b : string) :
  Py.all_chars p (a +:+ b) = Py.all_chars p a && Py.all_chars p b.
Proof.
  induction a as [|c a IH]; [done|].
  rewrite append_cons. cbn. by rewrite IH, andb_assoc.
Qed.

Lemma url_char_lower (c : ascii) : Html.url_char (Py.lower_char c) = Html.url_char c.
Proof. destruct c as [[] [] [] [] [] [] [] []]; reflexivity. Qed.

Lemma all_url_chars_lower (s : string) :
  Py.all_chars Html.url_char (Py.lower s) = Py.all_chars Html.url_char s.
Proof.
  induction s as [|c s IH]; cbn; [done|]. fold Py.lower.
  by rewrite url_char_lower, IH.
Qed.

(** A literal of the pattern that matches case-insensitively at the
    head of [s] covers as many characters of [s] as it has. *)
Lemma lit_ci_take (p s : string) :
  Html.lit_ci p s = true → Py.lower (Py.take (String.length p) s) = p.
Proof. unfold Html.lit_ci. by intros ?%String.eqb_eq. Qed.

Lemma length_append (a b : string) :
  String.length (a +:+ b) = String.length a + String.length b.
Proof. induction a as [|c a IH]; [done|]. rewrite append_cons. cbn. by rewrite IH. Qed.

Lemma length_take (n : nat) (s : string) :
  String.length (Py.take n s) = n `min` String.length s.
Proof.
  revert s. induction n as [|n IH]; intros [|c s]; cbn; try done. by rewrite IH.
Qed.

Lemma append_assoc (a b c : string) : (a +:+ b) +:+ c = a +:+ b +:+ c.
Proof. induction a as [|x a IH]; [done|]. by rewrite !append_cons, IH. Qed.

(** A prefix test looks at no more characters than the prefix has. *)
Lemma prefix_long (p x y : string) :
  String.length p ≤ String.length x →
  String.prefix p (x +:+ y) = String.prefix p x.
Proof.
  revert x. induction p as [|c p IH]; intros [|d x] Hlen; cbn in *; try done.
  - by destruct y.
  - lia.
  - rewrite append_cons. cbn. destruct (ascii_dec c d); [|done].
    apply IH. lia.
Qed.

(** [replace] skips the characters of an occurrence it has replaced. *)
Lemma replace_go_skip (old new a s : string) :
  Py.replace_go old new (String.length a) (a +:+ s) = Py.replace_go old new 0 s.
Proof.
  induction a as [|c a IH]; cbn.
  - by destruct s.
  - done.
Qed.

Lemma replace_hit (old new rest : string) :
  old ≠ "" →
  Py.replace old new (old +:+ rest) = new +:+ Py.replace old new rest.
Proof.
  intros Hold. destruct old as [|c o]; [done|]. unfold Py.replace.
  rewrite append_cons. cbn [Py.replace_go].
  assert (Hp : String.prefix (String c o) (String c (o +:+ rest)) = true)
    by (rewrite <- append_cons; apply prefix_app_self).
  rewrite Hp.
  replace (String.length (String c o) - 1) with (String.length o) by (cbn; lia).
  by rewrite replace_go_skip.
Qed.

Lemma replace_absent (old new s : string) :
  Py.contains old s = false → Py.replace old new s = s.
Proof.
  unfold Py.replace. induction s as [|c s IH]; [done|].
  cbn [Py.contains Py.replace_go]. intros [Hp Hc]%orb_false_iff.
  by rewrite Hp, IH.
Qed.

(** The first occurrence of [old], after a text [pre] that with the
    first characters of [old] holds no occurrence of it, is replaced,
    and the replacement goes on behind it. *)
Lemma replace_first (old new pre rest : string) :
  old ≠ "" →
  Py.contains old (pre +:+ Py.take (String.length old - 1) old) = false →
  Py.replace old new (pre +:+ old +:+ rest)
  = pre +:+ new +:+ Py.replace old new rest.
Proof.
  intros Hold. induction pre as [|c pre IH]; intros Hc.
  - exact (replace_hit old new rest Hold).
  - rewrite append_cons in Hc. cbn [Py.contains] in Hc.
    apply orb_false_iff in Hc as [Hp Hc].
    rewrite !append_cons. unfold Py.replace in *. cbn [Py.replace_go].
    assert (Hmiss : String.prefix old (String c (pre +:+ old +:+ rest)) = false).
    { set (k := String.length old - 1) in *.
      assert (Heq : String c (pre +:+ old +:+ rest)
                    = String c (pre +:+ Py.take k old) +:+ (Py.drop k old +:+ rest)).
      { rewrite append_cons, append_assoc.
        by rewrite <- (append_assoc (Py.take k old)), str_take_drop. }
      rewrite Heq, prefix_long; [exact Hp|].
      cbn [String.length]. rewrite length_append, length_take.
      unfold k. lia. }
    rewrite Hmiss. by rewrite IH.
Qed.

End StringFacts.

(** ** Resolver: the arXiv construction *)

Section ArxivClaims.
Import Web Lib Csv Chain Scenarios.

(** C4, amended.  For a row without a direct URL whose source is arxiv
    (in any letter case), no request is made and the method is
    arxiv_construct, which stands for source_construct: an identifier
    that contains arxiv.org/abs/ yields the identifier with every /abs/
    replaced by /pdf/, followed by .pdf unless it ends in .pdf already;
    so an identifier <pre>/abs/<id> with no other /abs/ in it yields
    <pre>/pdf/<id>.pdf, with the scheme and host of the identifier;
    otherwise an identifier arXiv:<id> yields
    https://arxiv.org/pdf/<id>.pdf. *)
Theorem arxiv_source_construct (E : Env) (row : Row) (email : option string)
    (w : World) (ident : string) :
  Py.truthy_opt (py_or (row !! "pdf_url") (row !! "pdf")) = false →
  Py.lower (Py.opt_str (row !! "source")) = "arxiv" →
  Py.opt_str (py_or (row !! "id") (row !! "article_id")) = ident →
  stage_of_method "arxiv_construct" = Some source_construct
  ∧ (Py.contains "arxiv.org/abs/" ident = true →
     let link := Py.replace "/abs/" "/pdf/" ident in
     resolve_pdf_url E row email w
     = ((Some (if Py.endswith link ".pdf" then link else link +:+ ".pdf"),
         "arxiv_construct"), w))
  ∧ (∀ pre id,
       ident = pre +:+ "/abs/" +:+ id →
       Py.contains "arxiv.org/abs/" ident = true →
       Py.contains "/abs/" (pre +:+ "/abs") = false →
       Py.contains "/abs/" id = false →
       let link := pre +:+ "/pdf/" +:+ id in
       resolve_pdf_url E row email w
       = ((Some (if Py.endswith link ".pdf" then link else link +:+ ".pdf"),
           "arxiv_construct"), w))
  ∧ (Py.contains "arxiv.org/abs/" ident = false →
     Py.startswith ident "arXiv:" = true →
     resolve_pdf_url E row email w
     = ((Some ("https://arxiv.org/pdf/" +:+ Py.after_first ":" ident +:+ ".pdf"),
         "arxiv_construct"), w)).
Proof.
  intros Hpdf Hsrc Hid. split; [done|].
  assert (Hcsv : Py.truthy_opt (py_or (py_or (row !! "pdf_url") (row !! "pdf")) None)
                 = false).
  { unfold py_or at 1. by rewrite Hpdf. }
  assert (Hident : Py.truthy ident = true ∨ ident = "").
  { destruct ident; [by right|by left]. }
  assert (Habs : Py.contains "arxiv.org/abs/" ident = true →
            let link := Py.replace "/abs/" "/pdf/" ident in
            resolve_pdf_url E row email w
            = ((Some (if Py.endswith link ".pdf" then link else link +:+ ".pdf"),
                "arxiv_construct"), w)).
  { intros Hc link. unfold resolve_pdf_url. rewrite Hcsv.
    unfold arxiv_construct. rewrite Hsrc, Hid. cbn [String.eqb].
    destruct Hident as [Ht| ->]; [|discriminate Hc].
    rewrite Ht, Hc. fold link.
    by destruct (Py.endswith link ".pdf"). }
  split_and!.
  - exact Habs.
  - intros pre id Hsplit Hc Hpre Hrest link.
    rewrite (Habs Hc). cbv zeta.
    assert (Hrep : Py.replace "/abs/" "/pdf/" ident = link).
    { rewrite Hsplit, replace_first; [|done|exact Hpre].
      by rewrite (replace_absent _ _ _ Hrest). }
    by rewrite Hrep.
  - intros Hc Hs. unfold resolve_pdf_url. rewrite Hcsv.
    unfold arxiv_construct. rewrite Hsrc, Hid. cbn [String.eqb].
    destruct Hident as [Ht| ->]; [|discriminate Hs].
    by rewrite Ht, Hc, Hs.
Qed.

(** Scenario A as the code runs it: the identifier is an http URL, and
    so is the constructed link. *)
Lemma arxiv_source_construct_witness :
  resolve_pdf_url offline_env arxiv_row None PyLib.empty_world
  = ((Some "http://arxiv.org/pdf/1234.5678.pdf", "arxiv_construct"),
     PyLib.empty_world).
Proof.
  exact (proj1 (proj2 (proj2
    (arxiv_source_construct offline_env arxiv_row None PyLib.empty_world
       "http://arxiv.org/abs/1234.5678" eq_refl eq_refl eq_refl)))
    "http://arxiv.org" "1234.5678" eq_refl eq_refl eq_refl eq_refl).
Defined.

(** Scenario A as the claim C4 states it: the resolver does not return
    the https URL for the record with the http identifier. *)
Lemma arxiv_scenario_keeps_http_scheme :
  arxiv_row !! "pdf_url" = None
  ∧ arxiv_row !! "source" = Some "arxiv"
  ∧ arxiv_row !! "id" = Some "http://arxiv.org/abs/1234.5678"
  ∧ (resolve_pdf_url offline_env arxiv_row None PyLib.empty_world).1
    ≠ (Some "https://arxiv.org/pdf/1234.5678.pdf", "arxiv_construct")
  ∧ (resolve_pdf_url offline_env arxiv_row None PyLib.empty_world).1
    = (Some "http://arxiv.org/pdf/1234.5678.pdf", "arxiv_construct").
Proof. split_and!; [done|done|done|by vm_compute|by vm_compute]. Qed.

End ArxivClaims.

(** ** Landing-page scraping *)

Section RegexFacts.
Import Html.

Lemma rx_tail_sound (s m : string) :
  rx_tail s = Some m → (∃ post, s = m +:+ post) ∧ pdf_url_shape m.
Proof.
  revert m. induction s as [|c s IH]; intros m; cbn [rx_tail]; [done|].
  destruct (if url_char c then rx_tail s else None) as [m'|] eqn:Hrec.
  - intros [= <-]. destruct (url_char c) eqn:Hc; [|done].
    destruct (IH m' Hrec) as [[post ->] [Hall Hend]].
    split; [by exists post|]. split; cbn.
    + by rewrite Hc.
    + fold Py.lower. by apply endswith_cons.
  - destruct (lit_ci ".pdf" (String c s)) eqn:Hlit; [|done].
    intros Hm. apply lit_ci_take in Hlit. cbn [String.length] in Hlit.
    assert (m = Py.take 4 (String c s)) as -> by congruence. clear Hm.
    split.
    + exists (Py.drop 4 (String c s)). symmetry. apply str_take_drop.
    + split.
      * by rewrite <- all_url_chars_lower, Hlit.
      * by rewrite Hlit.
Qed.

Lemma rx_body_sound (s m : string) :
  rx_body s = Some m → (∃ post, s = m +:+ post) ∧ pdf_url_shape m.
Proof.
  destruct s as [|c s]; cbn; [done|].
  destruct (url_char c) eqn:Hc; [|done].
  destruct (rx_tail s) as [m'|] eqn:Ht; [|done].
  intros [= <-]. destruct (rx_tail_sound s m' Ht) as [[post ->] [Hall Hend]].
  split; [by exists post|]. split; cbn.
  - by rewrite Hc.
  - fold Py.lower. by apply endswith_cons.
Qed.

Lemma rx_at_sound (s m : string) :
  rx_at s = Some m →
  (∃ post, s = m +:+ post) ∧ pdf_url_shape m
  ∧ (Py.startswith (Py.lower m) "http://" = true
     ∨ Py.startswith (Py.lower m) "https://" = true).
Proof.
  assert (Hgen : ∀ lit, Py.all_chars url_char lit = true →
            lit_ci lit s = true →
            ∀ b, rx_body (Py.drop (String.length lit) s) = Some b →
            (∃ post, s = (Py.take (String.length lit) s +:+ b) +:+ post)
            ∧ pdf_url_shape (Py.take (String.length lit) s +:+ b)
            ∧ Py.startswith (Py.lower (Py.take (String.length lit) s +:+ b)) lit
              = true).
  { intros lit Hlitc Hlit b Hb. apply lit_ci_take in Hlit.
    destruct (rx_body_sound _ b Hb) as [[post Hpost] [Hall Hend]].
    split_and!.
    - exists post.
      rewrite <- (str_take_drop (String.length lit) s) at 1.
      rewrite Hpost. clear. induction (Py.take _ s) as [|c t IH]; [done|].
      by rewrite !append_cons, IH.
    - split.
      + rewrite all_chars_app, Hall, andb_true_r.
        by rewrite <- all_url_chars_lower, Hlit.
      + rewrite lower_app. by apply endswith_app.
    - unfold Py.startswith. rewrite lower_app, Hlit. apply prefix_app_self. }
  unfold rx_at.
  destruct (lit_ci "https://" s) eqn:H1.
  - destruct (rx_body (Py.drop 8 s)) as [b|] eqn:Hb; [|done]. intros [= <-].
    destruct (Hgen "https://" eq_refl H1 b Hb) as (?&?&?). eauto.
  - destruct (lit_ci "http://" s) eqn:H2; [|done].
    destruct (rx_body (Py.drop 7 s)) as [b|] eqn:Hb; [|done]. intros [= <-].
    destruct (Hgen "http://" eq_refl H2 b Hb) as (?&?&?). eauto.
Qed.

Lemma rx_search_sound (html m : string) :
  rx_search html = Some m →
  (∃ pre post, html = pre +:+ m +:+ post) ∧ pdf_url_shape m
  ∧ (Py.startswith (Py.lower m) "http://" = true
     ∨ Py.startswith (Py.lower m) "https://" = true).
Proof.
  induction html as [|c s IH].
  - done.
  - cbn [rx_search]. destruct (rx_at (String c s)) as [m'|] eqn:H.
    + intros [= <-]. destruct (rx_at_sound _ _ H) as ([post Hp] & ? & ?).
      split; [by exists "", post|done].
    + intros Hm. destruct (IH Hm) as ([pre [post Hp]] & ? & ?).
      split; [|done]. exists (String c pre), post. by rewrite append_cons, Hp.
Qed.

End RegexFacts.

Section ScrapeClaims.
Import Web Html Lib Scenarios.

Lemma find_sound (soup : list Tag) (name key value : string) (t : Tag) :
  find soup name key value = Some t →
  In t soup ∧ tag_name t = name ∧ attr t key = Some value.
Proof.
  unfold find. intros [Hin Hp]%find_some.
  apply andb_true_iff in Hp as [Hn Hv]. apply String.eqb_eq in Hn.
  destruct (attr t key) as [v|]; [|done]. apply String.eqb_eq in Hv.
  by subst.
Qed.

Lemma meta_step_sound (soup : list Tag) (names : list string) (c : string) :
  meta_step soup names = Some c →
  ∃ tag name,
    In tag soup ∧ In name names ∧ tag_name tag = "meta"
    ∧ (attr tag "name" = Some name ∨ attr tag "property" = Some name)
    ∧ attr tag "content" = Some c ∧ Py.truthy c = true.
Proof.
  induction names as [|name names IH]; cbn; [done|].
  destruct (meta_tag soup name) as [tag|] eqn:Htag.
  - destruct (Py.truthy_opt (attr tag "content")) eqn:Hc.
    + intros Hattr. exists tag, name.
      assert (In tag soup ∧ tag_name tag = "meta"
              ∧ (attr tag "name" = Some name ∨ attr tag "property" = Some name))
        as (?&?&?).
      { unfold meta_tag in Htag.
        destruct (find soup "meta" "name" name) as [t|] eqn:Hf.
        - injection Htag as ->. apply find_sound in Hf as (?&?&?). auto.
        - apply find_sound in Htag as (?&?&?). auto. }
      rewrite Hattr in Hc. split_and!; auto.
    + intros H. destruct (IH H) as (t & n & ? & ? & ?). exists t, n. auto.
  - intros H. destruct (IH H) as (t & n & ? & ? & ?). exists t, n. auto.
Qed.

Lemma find_all_href_sound (soup : list Tag) (name : string) (t : Tag) :
  In t (find_all_href soup name) →
  In t soup ∧ tag_name t = name ∧ ∃ h, attr t "href" = Some h.
Proof.
  unfold find_all_href. intros [Hin Hp]%filter_In.
  apply andb_true_iff in Hp as [Hn Hh]. apply String.eqb_eq in Hn.
  destruct (attr t "href") as [h|]; [|done]. eauto.
Qed.

Lemma link_step_sound (soup : list Tag) (h : string) :
  link_step soup = Some h →
  ∃ link, In link soup ∧ tag_name link = "link" ∧ attr link "href" = Some h
          ∧ Py.contains "pdf" (Py.lower (Py.opt_str (attr link "type"))) = true.
Proof.
  unfold link_step.
  destruct (List.find _ (find_all_href soup "link")) as [link|] eqn:Hf; [|done].
  intros Hh. apply find_some in Hf as [Hin Hp].
  apply find_all_href_sound in Hin as (?&?&?). eauto.
Qed.

Lemma anchor_step_sound (soup : list Tag) (h : string) :
  anchor_step soup = Some h →
  ∃ a raw, In a soup ∧ tag_name a = "a" ∧ attr a "href" = Some raw
           ∧ h = Py.strip raw ∧ anchor_ok h = true.
Proof.
  unfold anchor_step. intros [Hin Hok]%find_some.
  apply in_map_iff in Hin as (a & <- & Hin).
  apply find_all_href_sound in Hin as (?&?&[raw Hraw]).
  exists a, raw. rewrite Hraw in *. by split_and!.
Qed.

End ScrapeClaims.

(** ** The unverified candidate of the landing-page scrape *)

Section CandidateClaims.
Import Web Html Lib Scenarios.

(** In [resolve_pdf_url] a candidate whose probe does not confirm it is
    returned all the same. *)
Lemma csv_keeps_unconfirmed_candidate (E : Env) (c : string) (w : World)
    (r : Response) (cand : string) :
  net E (snd <$> trace w) (get_req c) = Ok r →
  Py.contains "pdf" (ctype_of r) = false →
  Py.endswith (Py.lower (url r)) ".pdf" = false →
  extract_pdf_from_html (BeautifulSoup E) (urljoin E) (url r) (text r)
  = Ok (Some cand) →
  Py.truthy cand = true →
  (head_is_pdf E landing_scrape cand
     {| trace := trace w ++ [(landing_scrape, get_req c)]; files := files w |}).1
  = None →
  (Csv.scrape_candidate E c w).1 = Some (Some cand, "landing_parsed").
Proof.
  intros Hnet Hct Hurl Hex Hcand Hhead.
  unfold Csv.scrape_candidate, mbind, M_bind, bind, http.
  rewrite Hnet, Hct, Hurl, Hex. cbn. rewrite Hcand.
  destruct (head_is_pdf E landing_scrape cand _) as [verified w'].
  cbn in Hhead. by subst verified.
Qed.

(** C6 at its failing input.  The landing page links to a download URL;
    the scrape finds it; the probe of the candidate is answered, with an
    HTML login page.  [try_resolve_pdf_url] of the topic downloader
    returns nothing, after having issued the probe; [resolve_pdf_url] of
    the CSV downloader returns the unverified candidate for the same
    page, and so does [try_resolve_pdf_url] itself when the probe cannot
    connect. *)
Theorem scraper_drops_unconfirmed_candidate :
  let page_url := "https://pub.example/article/2" in
  let cand := "https://pub.example/download?format=pdf" in
  extract_pdf_from_html PyLib.html_parser PyLib.urljoin page_url login_html
  = Ok (Some cand)
  ∧ net login_env [] (head_req cand)
    = Ok (PyLib.page "https://pub.example/login" "text/html" "")
  ∧ (Scraper.try_resolve_pdf_url login_env (Some page_url) None None
       PyLib.empty_world).1 = None
  ∧ trace (Scraper.try_resolve_pdf_url login_env (Some page_url) None None
             PyLib.empty_world).2
    = [(candidate_probe, head_req page_url);
       (landing_scrape, get_req page_url);
       (landing_scrape, head_req cand)]
  ∧ (Csv.resolve_pdf_url login_env login_row None PyLib.empty_world).1
    = (Some cand, "landing_parsed")
  ∧ (Scraper.try_resolve_pdf_url unreachable_probe_env (Some page_url) None None
       PyLib.empty_world).1 = Some cand.
Proof. vm_compute. by split_and!. Qed.

End CandidateClaims.

(** ** The repair attempt after a failed validation *)

Section RepairClaims.
Import Web Html Lib Csv Chain Scenarios.

Lemma write_rest_trace (E : Env) (out : string) (rest : list StreamEv) :
  ∀ w, trace (write_rest E out rest w).2 = trace w.
Proof.
  induction rest as [|[data|e] rest IH]; intros w; cbn; try done.
  destruct data as [|b data]; cbn; [apply IH|].
  unfold mbind, M_bind, bind, write.
  destruct (write_error E out _ _); cbn; [done|]. by rewrite IH.
Qed.

(** The validator issues exactly one request. *)
Lemma validate_trace (E : Env) (st : Stage) (u out : string) (w : World) :
  trace (download_stream_and_validate E st u out w).2
  = trace w ++ [(st, stream_req u)].
Proof.
  destruct (net E (snd <$> trace w) (stream_req u)) as [r|e] eqn:Hnet.
  2: by rewrite (validate_request_fails E st u out w e Hnet).
  destruct (raise_for_status r) as [e|] eqn:Hst.
  { by rewrite (validate_status_fails E st u out w r e Hnet Hst). }
  rewrite (validate_answered E st u out w r (conj Hnet Hst)). cbn zeta.
  destruct (stream r) as [|[first|e] rest]; try done.
  destruct (looks_like_pdf _ first); [|done].
  destruct (open_error E out); [done|].
  destruct (write_error E out [] first); [done|].
  destruct (write_rest E out rest _).1 eqn:Hw; cbn; by rewrite write_rest_trace.
Qed.

Lemma stage_of_method_eligible (method : string) (st : Stage) :
  stage_of_method method = Some st →
  repair_eligible method
  = match st with
    | csv_direct | api_lookup | content_negotiation | landing_scrape => true
    | _ => false
    end.
Proof.
  unfold stage_of_method.
  repeat match goal with
         | |- context [String.eqb method ?lit] =>
             destruct (String.eqb_spec method lit) as [->|_];
             [intros [= <-]; reflexivity|]
         end.
  done.
Qed.

(** C9, amended.  In [process_csv], when the validation of the resolved
    URL fails and the method is one of those of csv_direct, api_lookup,
    content_negotiation and landing_scrape, exactly one request follows:
    a GET of the resolved URL.  If that page cannot be fetched or the
    scrape of it, against its final URL, finds nothing, the failure is
    recorded as method|reason.  If the scrape finds a candidate, the
    validator runs once more, on the candidate and the same destination,
    which makes exactly one more request; the row records the candidate,
    and the saved path when this validation succeeds, the first failure
    otherwise.  Methods of the other strategies are not eligible.  The
    validation runs once the directory of the row has been made; when
    [os.makedirs] raises instead, nothing follows the resolution. *)
Theorem csv_repair_once :
  (∀ (E : Env) (out_dir : string) (email : option string) (row : Row)
     (w w1 w2 : World) (resolved method : string) (err : option string),
     resolve_pdf_url E (normalize_row row) email w
     = ((Some resolved, method), w1) →
     Py.truthy resolved = true →
     (makedirs E (save_dir_for out_dir row) w1).1 = false →
     download_stream_and_validate E validation resolved
       (out_file_for out_dir row) w1 = ((false, err), w2) →
     repair_eligible method = true →
     let out_file := out_file_for out_dir row in
     let error := method +:+ "|" +:+ default "None" err in
     let res := process_row E out_dir email row w in
     let w3 := {| trace := trace w2 ++ [(repair, get_req resolved)];
                  files := files w2 |} in
     let found :=
       match net E (snd <$> trace w2) (get_req resolved) with
       | Ok r =>
           match extract_pdf_from_html (BeautifulSoup E) (urljoin E)
                   (url r) (text r) with
           | Ok (Some cand) => if Py.truthy cand then Some cand else None
           | _ => None
           end
       | Raise _ => None
       end in
     trace w2 = trace w1 ++ [(validation, stream_req resolved)]
     ∧ match found with
       | None => res = (Some (resolved, "", error), w3)
       | Some cand =>
           let v := download_stream_and_validate E revalidation cand out_file w3 in
           res = (Some (cand, if v.1.1 then out_file else "",
                              if v.1.1 then "" else error), v.2)
           ∧ trace v.2 = trace w2 ++ [(repair, get_req resolved);
                                      (revalidation, stream_req cand)]
       end)
  ∧ (∀ method st,
       stage_of_method method = Some st →
       repair_eligible method
       = match st with
         | csv_direct | api_lookup | content_negotiation | landing_scrape => true
         | _ => false
         end)
  ∧ (∀ (E : Env) (out_dir : string) (email : option string) (row : Row)
       (w w1 : World) (resolved method : string),
       resolve_pdf_url E (normalize_row row) email w
       = ((Some resolved, method), w1) →
       Py.truthy resolved = true →
       (makedirs E (save_dir_for out_dir row) w1).1 = true →
       process_row E out_dir email row w = (None, w1)).
Proof.
  split; [|split; [apply stage_of_method_eligible|]].
  2:{ intros E out_dir email row w w1 resolved method Hres Htr Hmk.
      unfold process_row, mbind, M_bind, bind.
      rewrite Hres. cbn [Py.truthy_opt]. rewrite Htr.
      unfold makedirs in *. cbn [fst] in Hmk. by rewrite Hmk. }
  intros E out_dir email row w w1 w2 resolved method err Hres Htr Hmk Hval Hel
    out_file error res w3 found.
  split.
  { pose proof (validate_trace E validation resolved out_file w1) as Ht.
    unfold out_file in Ht. by rewrite Hval in Ht. }
  unfold res, process_row, save_resolved, mbind, M_bind, bind.
  rewrite Hres. cbn [Py.truthy_opt]. rewrite Htr.
  unfold makedirs in *. cbn [fst] in Hmk. rewrite Hmk.
  change (Py.opt_str (Some resolved)) with resolved.
  rewrite Hval. cbn iota beta. rewrite Hel.
  unfold http. fold w3. unfold found.
  destruct (net E (snd <$> trace w2) (get_req resolved)) as [r|e]; [|done].
  destruct (extract_pdf_from_html _ _ (url r) (text r)) as [[cand|]|e]; try done.
  cbn [Py.truthy_opt].
  destruct (Py.truthy cand); [|done].
  change (Py.opt_str (Some cand)) with cand.
  fold out_file.
  pose proof (validate_trace E revalidation cand out_file w3) as Ht.
  destruct (download_stream_and_validate E revalidation cand out_file w3)
    as [[ok2 err2] w4].
  cbn in *. split.
  - by destruct ok2.
  - by rewrite Ht, <- app_assoc.
Qed.

(** An instance of C9: the looked-up URL serves a landing page; the
    repair finds the PDF behind it and saves it. *)
Lemma csv_repair_once_witness :
  let res := process_row repair_env "pdfs" (Some "me@example.org") doi_row
               PyLib.empty_world in
  res.1 = Some ("https://x.example/f/paper.pdf",
                "pdfs/openalex/10.1000_xyz.pdf", "")
  ∧ fst <$> trace res.2 = [api_lookup; validation; repair; revalidation].
Proof.
  pose proof (proj1 csv_repair_once repair_env "pdfs" (Some "me@example.org")
    doi_row PyLib.empty_world
    (resolve_pdf_url repair_env (normalize_row doi_row) (Some "me@example.org")
       PyLib.empty_world).2
    (download_stream_and_validate repair_env validation "https://x.example/y"
       (out_file_for "pdfs" doi_row)
       (resolve_pdf_url repair_env (normalize_row doi_row) (Some "me@example.org")
          PyLib.empty_world).2).2
    "https://x.example/y" "unpaywall" (Some "not_pdf")) as H.
  specialize (H ltac:(vm_compute; reflexivity) eq_refl eq_refl
                ltac:(vm_compute; reflexivity) eq_refl).
  cbv zeta in H. destruct H as [_ H].
  intros res. subst res.
  remember (process_row repair_env "pdfs" (Some "me@example.org") doi_row
              PyLib.empty_world) as res eqn:Hr.
  clear Hr. vm_compute in H. destruct H as [-> _].
  split; reflexivity.
Defined.

(** The claim C9 on the topic downloader: the URL comes from the
    open-access lookup and serves an HTML page, validation fails with
    not_pdf, and [download_for_topic] records the failure without any
    further request. *)
Lemma topic_downloader_has_no_repair :
  let res := Scraper.process_work repair_env "downloads" (Some "me@example.org")
               doi_work PyLib.empty_world in
  res.1 = Ok ("https://x.example/y", "", "not_pdf")
  ∧ trace res.2
    = [(api_lookup, lookup_req "https://api.unpaywall.org/v2/10.1000/xyz"
                      "me@example.org");
       (validation, stream_req "https://x.example/y")]
  ∧ (extract_pdf_from_html PyLib.html_parser PyLib.urljoin
       "https://x.example/y" meta_html
     = Ok (Some "https://x.example/f/paper.pdf")).
Proof. vm_compute. by split_and!. Qed.

End RepairClaims.

(** ** The order of the chain *)

Section ChainLogs.
Import Web Html Lib Csv Chain.
Variable E : Env.

(** The requests one call adds to the log. *)
Lemma http_log (st : Stage) (rq : Request) (w : World) :
  trace (http E st rq w).2 = trace w ++ [(st, rq)]
  ∧ files (http E st rq w).2 = files w.
Proof. done. Qed.

Lemma head_is_pdf_log (st : Stage) (u : string) (w : World) :
  trace (head_is_pdf E st u w).2 = trace w ++ [(st, head_req u)].
Proof.
  unfold head_is_pdf, mbind, M_bind, bind, http.
  destruct (net E _ _) as [h|e]; [|done].
  by destruct (Py.contains "pdf" (ctype_of h)).
Qed.

Lemma unpaywall_log (doi : string) (email : option string) (w : World) :
  Py.truthy doi = true → Py.truthy_opt email = true →
  trace (unpaywall_pdf_for_doi E doi email w).2
  = trace w ++ [(api_lookup,
                 lookup_req ("https://api.unpaywall.org/v2/" +:+ quote_plus E doi)
                   (Py.opt_str email))].
Proof.
  intros Hd He. unfold unpaywall_pdf_for_doi, mbind, M_bind, bind, http.
  rewrite Hd, He. cbn [negb orb].
  destruct (net E _ _) as [r|e]; [|done].
  destruct (status_code r =? 200)%nat; [|done]. by destruct (json r).
Qed.

Lemma negotiation_log (doi : string) (w : World) :
  Py.truthy doi = true →
  trace (try_doi_content_negotiation E doi w).2
  = trace w ++ [(content_negotiation,
                 negotiate_req (if Py.startswith doi "http" then doi
                                else "https://doi.org/" +:+ doi))].
Proof.
  intros Hd. unfold try_doi_content_negotiation, mbind, M_bind, bind, http.
  rewrite Hd. cbn [negb].
  destruct (net E _ _) as [r|e]; [|done].
  destruct (_ || _); [done|].
  destruct (raw4 r) as [first|]; [|done]. by destruct (bytes_eqb first PDF_MAGIC).
Qed.

Lemma probe_log (cs : list string) :
  ∀ w, ∃ evs, trace (probe_candidates E cs w).2 = trace w ++ evs
              ∧ Forall (λ e, e.1 = candidate_probe) evs
              ∧ (cs ≠ [] → evs ≠ []).
Proof.
  induction cs as [|c cs IH]; intros w; cbn.
  - exists []. by rewrite app_nil_r.
  - unfold mbind, M_bind, bind.
    pose proof (head_is_pdf_log candidate_probe c w) as Hh.
    destruct (head_is_pdf E candidate_probe c w) as [hpdf w1]. cbn in Hh.
    destruct (Py.truthy_opt hpdf).
    + exists [(candidate_probe, head_req c)]. split_and!; [done|by constructor|done].
    + destruct (IH w1) as (evs & Ht & Hall & _).
      exists ((candidate_probe, head_req c) :: evs). split_and!; [|by constructor|done].
      by rewrite Ht, Hh, <- app_assoc.
Qed.

Lemma scrape_candidate_log (c : string) (w : World) :
  ∃ evs, trace (scrape_candidate E c w).2 = trace w ++ evs
         ∧ Forall (λ e, e.1 = landing_scrape) evs ∧ evs ≠ [].
Proof.
  unfold scrape_candidate, mbind, M_bind, bind, http.
  set (w1 := {| trace := trace w ++ [(landing_scrape, get_req c)];
                files := files w |}).
  assert (Hone : ∃ evs, trace w1 = trace w ++ evs
                        ∧ Forall (λ e, e.1 = landing_scrape) evs ∧ evs ≠ []).
  { exists [(landing_scrape, get_req c)]. split_and!; [done|by constructor|done]. }
  destruct (net E _ _) as [r|e]; [|done].
  destruct (_ || _); [done|].
  destruct (extract_pdf_from_html _ _ _ _) as [pdf_from_html|e]; [|done].
  destruct (Py.truthy_opt pdf_from_html); [|done].
  pose proof (head_is_pdf_log landing_scrape (Py.opt_str pdf_from_html) w1) as Hh.
  destruct (head_is_pdf E landing_scrape _ w1) as [verified w2]. cbn in *.
  exists [(landing_scrape, get_req c);
          (landing_scrape, head_req (Py.opt_str pdf_from_html))].
  split_and!; [by rewrite Hh, <- app_assoc|by repeat constructor|done].
Qed.

Lemma scrape_log (cs : list string) :
  ∀ w, ∃ evs, trace (scrape_candidates E cs w).2 = trace w ++ evs
              ∧ Forall (λ e, e.1 = landing_scrape) evs.
Proof.
  induction cs as [|c cs IH]; intros w; cbn.
  - exists []. by rewrite app_nil_r.
  - unfold mbind, M_bind, bind.
    destruct (scrape_candidate_log c w) as (evs1 & Ht1 & Hall1 & _).
    destruct (scrape_candidate E c w) as [[result|] w1]; cbn in *.
    + by exists evs1.
    + destruct (IH w1) as (evs2 & Ht2 & Hall2).
      exists (evs1 ++ evs2). split; [|by apply Forall_app].
      by rewrite Ht2, Ht1, <- app_assoc.
Qed.

(** What a strategy yields carries a method string of that strategy. *)
Lemma arxiv_construct_truthy (row : Row) (link : string) :
  arxiv_construct row = Some link → Py.truthy link = true.
Proof.
  unfold arxiv_construct.
  destruct (String.eqb _ "arxiv"); [|done].
  destruct (Py.truthy _); [|done].
  destruct (Py.contains "arxiv.org/abs/" _).
  - intros [= <-]. set (l := Py.replace _ _ _).
    destruct (Py.endswith l ".pdf") eqn:He; cbn.
    + by destruct l.
    + by destruct l.
  - destruct (Py.startswith _ "arXiv:"); [|done]. by intros [= <-].
Qed.

Lemma scrape_candidates_yield (cs : list string) :
  ∀ w u method,
    (scrape_candidates E cs w).1 = Some (u, method) →
    stage_of_method method = Some landing_scrape
    ∧ ∃ link, u = Some link
              ∧ (method ≠ "landing_direct_pdf" → Py.truthy link = true).
Proof.
  induction cs as [|c cs IH]; intros w u method; cbn; [done|].
  unfold mbind, M_bind, bind.
  destruct (scrape_candidate E c w) as [[result|] w1] eqn:Hc; cbn.
  - intros [= ->]. revert Hc.
    unfold scrape_candidate, mbind, M_bind, bind, http.
    destruct (net E _ _) as [r|e]; [|done].
    destruct (_ || _).
    { intros [= <- <- _]. split; [done|]. by exists (url r). }
    destruct (extract_pdf_from_html _ _ _ _) as [pdf_from_html|e]; [|done].
    destruct (Py.truthy_opt pdf_from_html) eqn:Hp; [|done].
    destruct (head_is_pdf E landing_scrape _ _) as [verified w2]. cbn.
    intros [= <- <- _]. split; [done|].
    unfold py_or. destruct (Py.truthy_opt verified) eqn:Hv.
    + apply truthy_opt_Some in Hv as (s & -> & ?). by exists s.
    + apply truthy_opt_Some in Hp as (s & -> & ?). by exists s.
  - apply IH.
Qed.

End ChainLogs.

Section ChainOrder.
Import Web Html Lib Csv Chain.
Variable E : Env.

Lemma resolve_is_first_yield (row : Row) (email : option string) (w : World) :
  resolve_pdf_url E row email w = first_yield (strategies E) row email w.
Proof.
  unfold resolve_pdf_url, strategies. cbn [first_yield].
  unfold s_csv_direct, s_source_construct, s_api_lookup, s_content_negotiation,
    s_candidate_probe, s_landing_scrape, yield_if.
  unfold mbind, M_bind, bind, mret, M_ret, ret.
  set (x := py_or (row !! "pdf_url") (row !! "pdf")). clearbody x.
  assert (Hpn : Py.truthy_opt (py_or x None) = Py.truthy_opt x).
  { unfold py_or. by destruct (Py.truthy_opt x) eqn:H. }
  assert (Hpv : Py.truthy_opt x = true → py_or x None = x).
  { unfold py_or. by intros ->. }
  rewrite Hpn.
  destruct (Py.truthy_opt x) eqn:Hx.
  { by rewrite Hpv. }
  cbn [Py.truthy_opt].
  destruct (arxiv_construct row) as [link|] eqn:Ha.
  { cbn [Py.truthy_opt]. by rewrite (arxiv_construct_truthy row link Ha). }
  cbn [Py.truthy_opt].
  set (doi := Py.opt_str (row !! "doi")).
  destruct (Py.truthy doi && Py.truthy_opt email).
  - destruct (unpaywall_pdf_for_doi E doi email w) as [up w1].
    destruct (Py.truthy_opt up); [done|].
    destruct (Py.truthy doi && is_doi_like doi).
    + destruct (try_doi_content_negotiation E doi w1) as [dn w2].
      destruct (Py.truthy_opt dn); [done|].
      destruct (probe_candidates E (candidates row) w2) as [hpdf w3].
      destruct (Py.truthy_opt hpdf); [done|].
      by destruct (scrape_candidates E (candidates row) w3) as [[result|] w4].
    + cbn [Py.truthy_opt].
      destruct (probe_candidates E (candidates row) w1) as [hpdf w3].
      destruct (Py.truthy_opt hpdf); [done|].
      by destruct (scrape_candidates E (candidates row) w3) as [[result|] w4].
  - cbn [Py.truthy_opt].
    destruct (Py.truthy doi && is_doi_like doi).
    + destruct (try_doi_content_negotiation E doi w) as [dn w2].
      destruct (Py.truthy_opt dn); [done|].
      destruct (probe_candidates E (candidates row) w2) as [hpdf w3].
      destruct (Py.truthy_opt hpdf); [done|].
      by destruct (scrape_candidates E (candidates row) w3) as [[result|] w4].
    + cbn [Py.truthy_opt].
      destruct (probe_candidates E (candidates row) w) as [hpdf w3].
      destruct (Py.truthy_opt hpdf); [done|].
      by destruct (scrape_candidates E (candidates row) w3) as [[result|] w4].
Qed.

(** Every strategy of the chain reports a method of its own stage, with
    a URL that is not empty (the URL of a response apart, which the
    direct case of the landing scrape returns as it is). *)
Lemma strategies_yield (row : Row) (email : option string) (w : World)
    (st : Stage) (s : Strategy) (u : option string) (method : string) :
  In (st, s) (strategies E) →
  (s row email w).1 = Some (u, method) →
  stage_of_method method = Some st
  ∧ ∃ link, u = Some link
            ∧ (method ≠ "landing_direct_pdf" → Py.truthy link = true).
Proof.
  assert (Hy : ∀ o m, yield_if o m = Some (u, method) →
                 method = m ∧ ∃ link, u = Some link ∧ Py.truthy link = true).
  { intros o m. unfold yield_if. destruct (Py.truthy_opt o) eqn:Ho; [|done].
    intros [= <- <-]. apply truthy_opt_Some in Ho as (link & -> & ?). eauto. }
  unfold strategies.
  intros [[= <- <-]|[[= <- <-]|[[= <- <-]|[[= <- <-]|[[= <- <-]|[[= <- <-]|[]]]]]]];
    cbn.
  - intros (-> & link & -> & ?)%Hy. eauto.
  - intros (-> & link & -> & ?)%Hy. eauto.
  - unfold s_api_lookup, mbind, M_bind, bind, mret, M_ret, ret.
    destruct (_ && _); [|done].
    destruct (unpaywall_pdf_for_doi E _ email w) as [up w1]. cbn.
    intros (-> & link & -> & ?)%Hy. eauto.
  - unfold s_content_negotiation, mbind, M_bind, bind, mret, M_ret, ret.
    destruct (_ && _); [|done].
    destruct (try_doi_content_negotiation E _ w) as [dn w1]. cbn.
    intros (-> & link & -> & ?)%Hy. eauto.
  - unfold s_candidate_probe, mbind, M_bind, bind, mret, M_ret, ret.
    destruct (probe_candidates E _ w) as [hpdf w1]. cbn.
    intros (-> & link & -> & ?)%Hy. eauto.
  - apply scrape_candidates_yield.
Qed.

(** The log of one resolution: the requests of the open-access lookup,
    then those of the content negotiation, then the probes, then the
    requests of the landing scrape. *)
Lemma resolve_log (row : Row) (email : option string) (w : World) :
  let doi := Py.opt_str (row !! "doi") in
  ∃ e3 e4 e5 e6,
    trace (resolve_pdf_url E row email w).2 = trace w ++ e3 ++ e4 ++ e5 ++ e6
    ∧ Forall (λ e, e.1 = api_lookup) e3
    ∧ Forall (λ e, e.1 = content_negotiation) e4
    ∧ Forall (λ e, e.1 = candidate_probe) e5
    ∧ Forall (λ e, e.1 = landing_scrape) e6
    ∧ (e4 ++ e5 ++ e6 ≠ [] →
       Py.truthy doi = true → Py.truthy_opt email = true →
       e3 = [(api_lookup,
              lookup_req ("https://api.unpaywall.org/v2/" +:+ quote_plus E doi)
                (Py.opt_str email))])
    ∧ (e5 ++ e6 ≠ [] →
       Py.truthy doi = true → is_doi_like doi = true →
       e4 = [(content_negotiation,
              negotiate_req (if Py.startswith doi "http" then doi
                             else "https://doi.org/" +:+ doi))])
    ∧ (e6 ≠ [] → candidates row ≠ [] ∧ e5 ≠ []).
Proof.
  intros doi.
  unfold resolve_pdf_url. cbv zeta. fold doi.
  set (m3 := if Py.truthy doi && Py.truthy_opt email
             then unpaywall_pdf_for_doi E doi email else mret None).
  set (m4 := if Py.truthy doi && is_doi_like doi
             then try_doi_content_negotiation E doi else mret None).
  unfold mbind, M_bind, bind, mret, M_ret, ret.
  destruct (Py.truthy_opt (py_or _ None)).
  { exists [], [], [], []. cbn. rewrite app_nil_r. by split_and!. }
  destruct (arxiv_construct row).
  { exists [], [], [], []. cbn. rewrite app_nil_r. by split_and!. }
  (* 3) the lookup *)
  assert (H3 : ∃ e3, trace (m3 w).2 = trace w ++ e3
               ∧ Forall (λ e, e.1 = api_lookup) e3
               ∧ (Py.truthy doi = true → Py.truthy_opt email = true →
                  e3 = [(api_lookup,
                         lookup_req ("https://api.unpaywall.org/v2/"
                                     +:+ quote_plus E doi) (Py.opt_str email))])).
  { unfold m3. destruct (Py.truthy doi) eqn:Hd, (Py.truthy_opt email) eqn:He; cbn.
    - eexists. split; [by apply unpaywall_log|]. split; [by repeat constructor|done].
    - exists []. by rewrite app_nil_r.
    - exists []. by rewrite app_nil_r.
    - exists []. by rewrite app_nil_r. }
  destruct H3 as (e3 & Ht3 & Hall3 & Hex3).
  destruct (m3 w) as [up w1]. cbn in Ht3.
  destruct (Py.truthy_opt up).
  { exists e3, [], [], []. cbn. rewrite !app_nil_r. by split_and!. }
  (* 4) the negotiation *)
  assert (H4 : ∃ e4, trace (m4 w1).2 = trace w1 ++ e4
               ∧ Forall (λ e, e.1 = content_negotiation) e4
               ∧ (Py.truthy doi = true → is_doi_like doi = true →
                  e4 = [(content_negotiation,
                         negotiate_req (if Py.startswith doi "http" then doi
                                        else "https://doi.org/" +:+ doi))])).
  { unfold m4. destruct (Py.truthy doi) eqn:Hd, (is_doi_like doi) eqn:Hl; cbn.
    - eexists. split; [by apply negotiation_log|]. split; [by repeat constructor|done].
    - exists []. by rewrite app_nil_r.
    - exists []. by rewrite app_nil_r.
    - exists []. by rewrite app_nil_r. }
  destruct H4 as (e4 & Ht4 & Hall4 & Hex4).
  destruct (m4 w1) as [dn w2]. cbn in Ht4.
  destruct (Py.truthy_opt dn).
  { exists e3, e4, [], []. cbn. rewrite !app_nil_r. split_and!; try done.
    all: try (by rewrite Ht4, Ht3, <- app_assoc).
    all: intros _; by apply Hex3. }
  (* 5) the probes *)
  destruct (probe_log E (candidates row) w2) as (e5 & Ht5 & Hall5 & Hne5).
  destruct (probe_candidates E (candidates row) w2) as [hpdf w3]. cbn in Ht5.
  destruct (Py.truthy_opt hpdf).
  { exists e3, e4, e5, []. cbn. rewrite !app_nil_r. split_and!; try done.
    all: try (by rewrite Ht5, Ht4, Ht3, <- !app_assoc).
    all: try (intros _; by apply Hex3).
    all: intros _; by apply Hex4. }
  (* 6) the landing scrape *)
  destruct (scrape_log E (candidates row) w3) as (e6 & Ht6 & Hall6).
  assert (Hcs : e6 ≠ [] → candidates row ≠ []).
  { intros Hne Hc. rewrite Hc in Ht6. cbn in Ht6. destruct e6; [done|].
    apply (f_equal length) in Ht6. rewrite length_app in Ht6. cbn in Ht6. lia. }
  assert (Hfin : trace w3 ++ e6 = trace w ++ e3 ++ e4 ++ e5 ++ e6).
  { by rewrite Ht5, Ht4, Ht3, <- !app_assoc. }
  destruct (scrape_candidates E (candidates row) w3) as [[result|] w4];
    cbn in Ht6; exists e3, e4, e5, e6; cbn; rewrite Ht6.
  all: split_and!; try done.
  all: try (intros _; by apply Hex3).
  all: try (intros _; by apply Hex4).
  all: intros Hne; split; [by apply Hcs|by apply Hne5, Hcs].
Qed.

End ChainOrder.

Section ScraperLogs.
Import Web Html Lib Chain.
Variable E : Env.

Lemma scraper_log (candidate_url doi email : option string) (w : World) :
  ∃ e3 e4 e5 e6,
    trace (Scraper.try_resolve_pdf_url E candidate_url doi email w).2
    = trace w ++ e3 ++ e4 ++ e5 ++ e6
    ∧ Forall (λ e, e.1 = api_lookup) e3
    ∧ Forall (λ e, e.1 = content_negotiation) e4
    ∧ Forall (λ e, e.1 = candidate_probe) e5
    ∧ Forall (λ e, e.1 = landing_scrape) e6
    ∧ (e4 ++ e5 ++ e6 ≠ [] →
       Py.truthy_opt doi = true → Py.truthy_opt email = true →
       e3 = [(api_lookup,
              lookup_req ("https://api.unpaywall.org/v2/" +:+ Py.opt_str doi)
                (Py.opt_str email))])
    ∧ (e5 ++ e6 ≠ [] → Scraper.is_doi_url candidate_url = true → e4 ≠ [])
    ∧ (e6 ≠ [] → e5 ≠ []).
Proof.
  unfold Scraper.try_resolve_pdf_url.
  set (m3 := if Py.truthy_opt doi && Py.truthy_opt email
             then Scraper.unpaywall_pdf_for_doi E doi email else mret None).
  set (m4 := if Scraper.is_doi_url candidate_url
             then Scraper.negotiate E (Py.opt_str candidate_url) else mret None).
  unfold mbind, M_bind, bind, mret, M_ret, ret.
  (* 1) the lookup *)
  assert (H3 : ∃ e3, trace (m3 w).2 = trace w ++ e3
               ∧ Forall (λ e, e.1 = api_lookup) e3
               ∧ (Py.truthy_opt doi = true → Py.truthy_opt email = true →
                  e3 = [(api_lookup,
                         lookup_req ("https://api.unpaywall.org/v2/"
                                     +:+ Py.opt_str doi) (Py.opt_str email))])).
  { unfold m3, Scraper.unpaywall_pdf_for_doi, mbind, M_bind, bind, http.
    destruct (Py.truthy_opt doi) eqn:Hd, (Py.truthy_opt email) eqn:He; cbn.
    2-4: exists []; by rewrite app_nil_r.
    exists [(api_lookup,
             lookup_req ("https://api.unpaywall.org/v2/" +:+ Py.opt_str doi)
               (Py.opt_str email))].
    split; [|split; [by repeat constructor|done]].
    destruct (net E _ _) as [r|e]; [|done].
    destruct (status_code r =? 200)%nat; [|done]. by destruct (json r). }
  destruct H3 as (e3 & Ht3 & Hall3 & Hex3).
  destruct (m3 w) as [pdf w1]. cbn in Ht3.
  destruct (Py.truthy_opt pdf).
  { exists e3, [], [], []. cbn. rewrite ?app_nil_r. by split_and!. }
  (* 2) the negotiation *)
  assert (H4 : ∃ e4, trace (m4 w1).2 = trace w1 ++ e4
               ∧ Forall (λ e, e.1 = content_negotiation) e4
               ∧ (Scraper.is_doi_url candidate_url = true → e4 ≠ [])).
  { unfold m4, Scraper.negotiate, mbind, M_bind, bind, http.
    destruct (Scraper.is_doi_url candidate_url); cbn.
    2: exists []; by rewrite app_nil_r.
    set (rq := negotiate_req _).
    exists [(content_negotiation, rq)].
    split; [|split; [by repeat constructor|done]].
    destruct (net E _ _) as [r|e]; [|done].
    destruct (_ || _); [done|].
    destruct (raw4 r) as [first|]; [|done]. by destruct (bytes_eqb first PDF_MAGIC). }
  destruct H4 as (e4 & Ht4 & Hall4 & Hex4).
  destruct (m4 w1) as [[final|] w2]; cbn in Ht4.
  { exists e3, e4, [], []. cbn. rewrite ?app_nil_r. split_and!; try done.
    all: try (by rewrite Ht4, Ht3, <- app_assoc).
    all: intros _; by apply Hex3. }
  assert (Hfin2 : trace w2 = trace w ++ e3 ++ e4).
  { by rewrite Ht4, Ht3, <- app_assoc. }
  destruct (Py.truthy_opt candidate_url); cbn [negb].
  2: { exists e3, e4, [], []. cbn. rewrite ?app_nil_r. split_and!; try done.
       all: intros _; by apply Hex3. }
  (* 3) the probe *)
  assert (H5 : trace (Scraper.head_check E (Py.opt_str candidate_url) w2).2
               = trace w2 ++ [(candidate_probe, head_req (Py.opt_str candidate_url))]).
  { unfold Scraper.head_check, mbind, M_bind, bind, http.
    destruct (net E _ _) as [h|e]; [|done].
    by destruct (Py.contains "pdf" (ctype_of h)). }
  set (e5 := [(candidate_probe, head_req (Py.opt_str candidate_url))]) in *.
  destruct (Scraper.head_check E (Py.opt_str candidate_url) w2) as [[u|] w3];
    cbn in H5.
  { exists e3, e4, e5, []. cbn. rewrite ?app_nil_r. split_and!; try done.
    all: try (by rewrite H5, Hfin2, <- !app_assoc).
    all: try (by repeat constructor).
    all: try (intros _; by apply Hex3).
    all: intros _; by apply Hex4. }
  (* 4) the landing page *)
  assert (H6 : ∃ e6, trace (Scraper.landing E (Py.opt_str candidate_url) w3).2
                     = trace w3 ++ e6
                     ∧ Forall (λ e, e.1 = landing_scrape) e6).
  { unfold Scraper.landing, mbind, M_bind, bind, http.
    set (g := (landing_scrape, get_req (Py.opt_str candidate_url))).
    assert (Hg : Forall (λ e : Stage * Request, e.1 = landing_scrape) [g])
      by (by repeat constructor).
    destruct (net E _ _) as [r|e]; [|by exists [g]].
    destruct (raise_for_status r); [by exists [g]|].
    destruct (_ || _); [by exists [g]|].
    destruct (extract_pdf_from_html _ _ _ _) as [pdf_candidate|e]; [|by exists [g]].
    destruct (Py.truthy_opt pdf_candidate); [|by exists [g]].
    exists [g; (landing_scrape, head_req (Py.opt_str pdf_candidate))].
    split; [|by repeat constructor].
    cbn. destruct (net E _ (head_req _)) as [h2|e]; cbn.
    - destruct (_ || _); cbn; by rewrite <- app_assoc.
    - by rewrite <- app_assoc. }
  destruct H6 as (e6 & Ht6 & Hall6).
  exists e3, e4, e5, e6. split_and!; try done.
  all: try (by rewrite Ht6, H5, Hfin2, <- !app_assoc).
  all: try (by repeat constructor).
  all: try (intros _; by apply Hex3).
  all: intros _; by apply Hex4.
Qed.

End ScraperLogs.

Section OrderFacts.
Import Web Lib Chain.

Lemma same_stage_sorted (st : Stage) (evs : list (Stage * Request)) :
  Forall (λ e, e.1 = st) evs → in_chain_order evs.
Proof.
  unfold in_chain_order. induction 1 as [|[s rq] evs Hs Hall IH]; cbn.
  - constructor.
  - constructor; [done|]. cbn in Hs. subst s.
    apply Forall_fmap, (Forall_impl _ _ _ Hall). intros [s rq'] Hs'; cbn in *.
    by subst s.
Qed.

Lemma in_chain_order_app (l1 l2 : list (Stage * Request)) (r1 r2 : nat) :
  in_chain_order l1 → in_chain_order l2 →
  Forall (λ e, rank e.1 ≤ r1) l1 → Forall (λ e, r2 ≤ rank e.1) l2 → r1 ≤ r2 →
  in_chain_order (l1 ++ l2).
Proof.
  unfold in_chain_order. intros H1 H2 Hl1 Hl2 Hr.
  rewrite fmap_app. apply StronglySorted_app. split_and!; [|done|done].
  intros x1 x2 (e1 & -> & Hin1)%list_elem_of_fmap (e2 & -> & Hin2)%list_elem_of_fmap.
  rewrite Forall_forall in Hl1, Hl2. specialize (Hl1 e1 Hin1).
  specialize (Hl2 e2 Hin2). cbn in *. lia.
Qed.

Lemma stage_rank (st : Stage) (evs : list (Stage * Request)) :
  Forall (λ e, e.1 = st) evs →
  Forall (λ e, rank e.1 ≤ rank st) evs ∧ Forall (λ e, rank st ≤ rank e.1) evs.
Proof.
  intros H. split; apply (Forall_impl _ _ _ H); intros [s rq] Hs; cbn in *;
    by subst s.
Qed.

(** Four blocks of requests, one per strategy, in the order of the chain. *)
Lemma blocks_in_order (e3 e4 e5 e6 : list (Stage * Request)) :
  Forall (λ e, e.1 = api_lookup) e3 →
  Forall (λ e, e.1 = content_negotiation) e4 →
  Forall (λ e, e.1 = candidate_probe) e5 →
  Forall (λ e, e.1 = landing_scrape) e6 →
  in_chain_order (e3 ++ e4 ++ e5 ++ e6).
Proof.
  intros H3 H4 H5 H6.
  destruct (stage_rank _ _ H3) as [H3u _], (stage_rank _ _ H4) as [H4u H4l],
    (stage_rank _ _ H5) as [H5u H5l], (stage_rank _ _ H6) as [_ H6l].
  cbn [rank] in *.
  apply (in_chain_order_app _ _ 3 4); [by eapply same_stage_sorted| |done| |lia].
  - apply (in_chain_order_app _ _ 4 5); [by eapply same_stage_sorted| |done| |lia].
    + apply (in_chain_order_app _ _ 5 6); [by eapply same_stage_sorted..|done|done|lia].
    + apply Forall_app. split; [done|]. apply (Forall_impl _ _ _ H6l).
      intros; cbn in *; lia.
  - apply Forall_app. split; [done|]. apply Forall_app. split.
    + apply (Forall_impl _ _ _ H5l). intros; cbn in *; lia.
    + apply (Forall_impl _ _ _ H6l). intros; cbn in *; lia.
Qed.

Lemma sorted_lookup (l : list nat) :
  StronglySorted le l → ∀ i j a b, i < j → l !! i = Some a → l !! j = Some b → a ≤ b.
Proof.
  induction 1 as [|x l Hs IH Hall]; intros i j a b Hij Hi Hj; [done|].
  destruct j as [|j]; [lia|]. destruct i as [|i]; cbn in *.
  - injection Hi as <-. rewrite Forall_forall in Hall. apply Hall.
    by eapply list_elem_of_lookup_2.
  - eapply (IH i j); [lia|done..].
Qed.

Lemma in_order_all_before (a b : Stage) (evs : list (Stage * Request)) :
  in_chain_order evs → rank a < rank b → all_before a b evs.
Proof.
  intros Hs Hab i j ra rb Hi Hj.
  destruct (decide (i < j)) as [|Hge]; [done|]. exfalso.
  destruct (decide (i = j)) as [->|Hne].
  { rewrite Hi in Hj. injection Hj as -> _. lia. }
  assert (Hji : j < i) by lia.
  pose proof (sorted_lookup _ Hs j i (rank b) (rank a) Hji) as H.
  rewrite !list_lookup_fmap, Hi, Hj in H. cbn in H.
  specialize (H eq_refl eq_refl). lia.
Qed.

Lemma attempted_app (st : Stage) (l1 l2 : list (Stage * Request)) :
  attempted st (l1 ++ l2) ↔ attempted st l1 ∨ attempted st l2.
Proof. unfold attempted. by rewrite fmap_app, elem_of_app. Qed.

Lemma attempted_block (st st' : Stage) (evs : list (Stage * Request)) :
  Forall (λ e, e.1 = st') evs → attempted st evs → st = st' ∧ evs ≠ [].
Proof.
  unfold attempted. intros Hall (e & -> & Hin)%list_elem_of_fmap.
  rewrite Forall_forall in Hall. split; [by apply Hall|].
  intros ->. by apply not_elem_of_nil in Hin.
Qed.

Lemma issued_app {A} (m : M A) (w : World) (evs : list (Stage * Request)) :
  trace (m w).2 = trace w ++ evs → issued m w = evs.
Proof. unfold issued. intros ->. apply drop_app_length. Qed.

(** What four ordered blocks give for the requests of a resolution. *)
Lemma blocks_facts (e3 e4 e5 e6 : list (Stage * Request)) :
  Forall (λ e, e.1 = api_lookup) e3 →
  Forall (λ e, e.1 = content_negotiation) e4 →
  Forall (λ e, e.1 = candidate_probe) e5 →
  Forall (λ e, e.1 = landing_scrape) e6 →
  let evs := e3 ++ e4 ++ e5 ++ e6 in
  in_chain_order evs
  ∧ all_before api_lookup content_negotiation evs
  ∧ all_before content_negotiation landing_scrape evs
  ∧ (attempted content_negotiation evs → e4 ≠ [])
  ∧ (attempted landing_scrape evs → e6 ≠ []).
Proof.
  intros H3 H4 H5 H6 evs.
  pose proof (blocks_in_order e3 e4 e5 e6 H3 H4 H5 H6) as Hs.
  split_and!; [done|by apply in_order_all_before; [|cbn; lia]..| |].
  - unfold evs. rewrite !attempted_app.
    intros [H|[H|[H|H]]].
    + by apply (attempted_block _ _ _ H3) in H as [? ?].
    + by apply (attempted_block _ _ _ H4) in H as [? ?].
    + by apply (attempted_block _ _ _ H5) in H as [? ?].
    + by apply (attempted_block _ _ _ H6) in H as [? ?].
  - unfold evs. rewrite !attempted_app.
    intros [H|[H|[H|H]]].
    + by apply (attempted_block _ _ _ H3) in H as [? ?].
    + by apply (attempted_block _ _ _ H4) in H as [? ?].
    + by apply (attempted_block _ _ _ H5) in H as [? ?].
    + by apply (attempted_block _ _ _ H6) in H as [? ?].
Qed.

End OrderFacts.

Section FullLogs.
Import Web Html Lib Csv Chain.
Variable E : Env.

(** The probes: one HEAD for each candidate, in order, up to the first
    that is confirmed. *)
Lemma probe_full_log (cs : list string) :
  ∀ w, ∃ n,
    n ≤ length cs
    ∧ trace (probe_candidates E cs w).2
      = trace w ++ ((λ c, (candidate_probe, head_req c)) <$> take n cs)
    ∧ (Py.truthy_opt (probe_candidates E cs w).1 = false → n = length cs)
    ∧ (Py.truthy_opt (probe_candidates E cs w).1 = true → 0 < n).
Proof.
  induction cs as [|c cs IH]; intros w; cbn [probe_candidates].
  { exists 0. cbn. rewrite app_nil_r. by split_and!. }
  unfold mbind, M_bind, bind.
  pose proof (head_is_pdf_log E candidate_probe c w) as Hh.
  destruct (head_is_pdf E candidate_probe c w) as [hpdf w1]. cbn in Hh.
  destruct (Py.truthy_opt hpdf) eqn:Hp.
  - exists 1. cbn. rewrite Hp. split_and!; [lia|by rewrite take_0|done|lia].
  - destruct (IH w1) as (n & Hn & Ht & Hall & Hpos).
    exists (S n). cbn [length firstn fmap list_fmap].
    split_and!; [lia| |by intros ->%Hall|lia].
    rewrite Ht, Hh, <- app_assoc. done.
Qed.

(** The requests of the scrape of one candidate: a GET of the
    candidate, and a HEAD of what the page points to. *)
Lemma scrape_candidate_full_log (c : string) (w : World) :
  ∃ blk,
    trace (scrape_candidate E c w).2 = trace w ++ blk
    ∧ Forall (λ e, e.1 = landing_scrape) blk
    ∧ List.filter is_get (snd <$> blk) = [get_req c].
Proof.
  unfold scrape_candidate, mbind, M_bind, bind, http.
  set (w1 := {| trace := trace w ++ [(landing_scrape, get_req c)];
                files := files w |}).
  assert (Hone : ∃ blk, trace w1 = trace w ++ blk
                        ∧ Forall (λ e, e.1 = landing_scrape) blk
                        ∧ List.filter is_get (snd <$> blk) = [get_req c]).
  { exists [(landing_scrape, get_req c)]. split_and!; [done|by constructor|done]. }
  destruct (net E _ _) as [r|e]; [|done].
  destruct (_ || _); [done|].
  destruct (extract_pdf_from_html _ _ _ _) as [pdf_from_html|e]; [|done].
  destruct (Py.truthy_opt pdf_from_html); [|done].
  pose proof (head_is_pdf_log E landing_scrape (Py.opt_str pdf_from_html) w1) as Hh.
  destruct (head_is_pdf E landing_scrape _ w1) as [verified w2]. cbn in *.
  exists [(landing_scrape, get_req c);
          (landing_scrape, head_req (Py.opt_str pdf_from_html))].
  split_and!; [by rewrite Hh, <- app_assoc|by repeat constructor|done].
Qed.

Lemma scrape_full_log (cs : list string) :
  ∀ w, ∃ e6 n,
    n ≤ length cs
    ∧ trace (scrape_candidates E cs w).2 = trace w ++ e6
    ∧ Forall (λ e, e.1 = landing_scrape) e6
    ∧ List.filter is_get (snd <$> e6) = get_req <$> take n cs
    ∧ (e6 = [] ↔ n = 0)
    ∧ ((scrape_candidates E cs w).1 = None → n = length cs)
    ∧ (is_Some (scrape_candidates E cs w).1 → 0 < n).
Proof.
  induction cs as [|c cs IH]; intros w; cbn [scrape_candidates].
  { exists [], 0. cbn. rewrite app_nil_r. split_and!; try done;
      by intros [? ?]. }
  unfold mbind, M_bind, bind.
  destruct (scrape_candidate_full_log c w) as (blk & Ht1 & Hall1 & Hget1).
  assert (Hblk : blk ≠ []) by (by intros ->).
  destruct (scrape_candidate E c w) as [[result|] w1]; cbn in *.
  - exists blk, 1. cbn [firstn fmap list_fmap length].
    split_and!; [lia|done|done|done| |done|lia].
    split; [done|lia].
  - destruct (IH w1) as (e6 & n & Hn & Ht & Hall & Hget & Hnil & Hnone & Hsome).
    exists (blk ++ e6), (S n). cbn [length firstn fmap list_fmap].
    split_and!; [lia| |by apply Forall_app| | |by intros ->%Hnone|lia].
    + by rewrite Ht, Ht1, <- app_assoc.
    + by rewrite fmap_app, List.filter_app, Hget1, Hget.
    + split; [|lia]. intros [? _]%app_eq_nil. done.
Qed.

Lemma reached_landing (st : Stage) (method : string) :
  stage_of_method method = Some landing_scrape →
  reached st method = (rank st <=? 6)%nat.
Proof. unfold reached. by intros ->. Qed.

(** The whole log of a resolution. *)
Lemma resolve_full_log (row : Row) (email : option string) (w : World) :
  let doi := Py.opt_str (row !! "doi") in
  let res := resolve_pdf_url E row email w in
  let method := res.1.2 in
  let cs := candidates row in
  ∃ n5 e6 n6,
    trace res.2
    = trace w
      ++ (if applies api_lookup row email && reached api_lookup method
          then [(api_lookup,
                 lookup_req ("https://api.unpaywall.org/v2/" +:+ quote_plus E doi)
                   (Py.opt_str email))]
          else [])
      ++ (if applies content_negotiation row email
             && reached content_negotiation method
          then [(content_negotiation,
                 negotiate_req (if Py.startswith doi "http" then doi
                                else "https://doi.org/" +:+ doi))]
          else [])
      ++ ((λ c, (candidate_probe, head_req c)) <$> take n5 cs)
      ++ e6
    ∧ n5 ≤ length cs
    ∧ (reached candidate_probe method = false → n5 = 0)
    ∧ (reached landing_scrape method = true → n5 = length cs)
    ∧ (reached candidate_probe method = true → cs ≠ [] → 0 < n5)
    ∧ Forall (λ e, e.1 = landing_scrape) e6
    ∧ n6 ≤ length cs
    ∧ List.filter is_get (snd <$> e6) = get_req <$> take n6 cs
    ∧ (e6 = [] ↔ n6 = 0)
    ∧ (reached landing_scrape method = false → n6 = 0)
    ∧ (reached landing_scrape method = true → cs ≠ [] → 0 < n6)
    ∧ (method = "no_pdf_found" → n6 = length cs).
Proof.
  intros doi res method cs. unfold method, res, applies. fold doi.
  unfold resolve_pdf_url. cbv zeta. fold doi. fold cs.
  set (m3 := if Py.truthy doi && Py.truthy_opt email
             then unpaywall_pdf_for_doi E doi email else mret None).
  set (m4 := if Py.truthy doi && is_doi_like doi
             then try_doi_content_negotiation E doi else mret None).
  set (l3 := [(api_lookup,
               lookup_req ("https://api.unpaywall.org/v2/" +:+ quote_plus E doi)
                 (Py.opt_str email))]).
  set (l4 := [(content_negotiation,
               negotiate_req (if Py.startswith doi "http" then doi
                              else "https://doi.org/" +:+ doi))]).
  unfold mbind, M_bind, bind, mret, M_ret, ret.
  (* an exit before the probes *)
  assert (Hearly : ∀ (w' : World) (method : string) (b3 b4 : bool),
    reached candidate_probe method = false →
    reached landing_scrape method = false →
    method ≠ "no_pdf_found" →
    trace w' = trace w ++ (if b3 then l3 else []) ++ (if b4 then l4 else []) →
    ∃ n5 e6 n6,
      trace w'
      = trace w ++ (if b3 then l3 else []) ++ (if b4 then l4 else [])
        ++ ((λ c, (candidate_probe, head_req c)) <$> take n5 cs) ++ e6
      ∧ n5 ≤ length cs
      ∧ (reached candidate_probe method = false → n5 = 0)
      ∧ (reached landing_scrape method = true → n5 = length cs)
      ∧ (reached candidate_probe method = true → cs ≠ [] → 0 < n5)
      ∧ Forall (λ e, e.1 = landing_scrape) e6
      ∧ n6 ≤ length cs
      ∧ List.filter is_get (snd <$> e6) = get_req <$> take n6 cs
      ∧ (e6 = [] ↔ n6 = 0)
      ∧ (reached landing_scrape method = false → n6 = 0)
      ∧ (reached landing_scrape method = true → cs ≠ [] → 0 < n6)
      ∧ (method = "no_pdf_found" → n6 = length cs)).
  { intros w' m b3 b4 Hr5 Hr6 Hm Ht. exists 0, [], 0.
    rewrite Ht, take_0. cbn [fmap list_fmap]. rewrite !app_nil_r.
    split_and!; try done; try lia; try congruence. }
  destruct (Py.truthy_opt (py_or _ None)).
  { cbn [fst snd]. change (reached api_lookup "csv_pdf_url") with false.
    change (reached content_negotiation "csv_pdf_url") with false.
    rewrite !andb_false_r.
    apply (Hearly w "csv_pdf_url" false false); try done.
    by rewrite !app_nil_r. }
  destruct (arxiv_construct row).
  { cbn [fst snd]. change (reached api_lookup "arxiv_construct") with false.
    change (reached content_negotiation "arxiv_construct") with false.
    rewrite !andb_false_r.
    apply (Hearly w "arxiv_construct" false false); try done.
    by rewrite !app_nil_r. }
  (* 3) the lookup *)
  assert (H3 : trace (m3 w).2
               = trace w ++ (if Py.truthy doi && Py.truthy_opt email
                             then l3 else [])).
  { unfold m3. destruct (Py.truthy doi) eqn:Hd, (Py.truthy_opt email) eqn:He;
      cbn; rewrite ?app_nil_r; try done.
    by apply unpaywall_log. }
  destruct (m3 w) as [up w1]. cbn [fst snd] in H3.
  destruct (Py.truthy_opt up).
  { cbn [fst snd]. change (reached api_lookup "unpaywall") with true.
    change (reached content_negotiation "unpaywall") with false.
    rewrite andb_true_r, andb_false_r.
    apply (Hearly w1 "unpaywall" _ false); try done.
    by rewrite H3, !app_nil_r. }
  (* 4) the negotiation *)
  assert (H4 : trace (m4 w1).2
               = trace w1 ++ (if Py.truthy doi && is_doi_like doi
                              then l4 else [])).
  { unfold m4. destruct (Py.truthy doi) eqn:Hd, (is_doi_like doi) eqn:Hl;
      cbn; rewrite ?app_nil_r; try done.
    by apply negotiation_log. }
  destruct (m4 w1) as [dn w2]. cbn [fst snd] in H4.
  destruct (Py.truthy_opt dn).
  { cbn [fst snd]. change (reached api_lookup "doi_negotiation") with true.
    change (reached content_negotiation "doi_negotiation") with true.
    rewrite !andb_true_r.
    apply (Hearly w2 "doi_negotiation"); try done.
    by rewrite H4, H3, <- app_assoc. }
  assert (H34 : trace w2
                = trace w ++ (if Py.truthy doi && Py.truthy_opt email
                              then l3 else [])
                  ++ (if Py.truthy doi && is_doi_like doi then l4 else [])).
  { by rewrite H4, H3, <- app_assoc. }
  (* 5) the probes *)
  destruct (probe_full_log cs w2) as (n5 & Hn5 & Ht5 & Hall5 & Hpos5).
  destruct (probe_candidates E cs w2) as [hpdf w3]. cbn [fst snd] in *.
  destruct (Py.truthy_opt hpdf).
  { cbn [fst snd]. change (reached api_lookup "head_pdf_candidate") with true.
    change (reached content_negotiation "head_pdf_candidate") with true.
    rewrite !andb_true_r. exists n5, [], 0.
    rewrite Ht5, H34, take_0, <- !app_assoc. cbn [fmap list_fmap].
    rewrite !app_nil_r.
    split_and!; try done; try lia; intros _ _; by apply Hpos5. }
  specialize (Hall5 eq_refl). subst n5.
  (* 6) the landing scrape *)
  destruct (scrape_full_log cs w3)
    as (e6 & n6 & Hn6 & Ht6 & Hall6 & Hget6 & Hnil6 & Hnone6 & Hsome6).
  assert (Hpos : cs ≠ [] → 0 < length cs).
  { destruct cs; [done|cbn; lia]. }
  destruct (scrape_candidates E cs w3) as [[[u method']|] w4] eqn:Hsc;
    cbn [fst snd] in *.
  - pose proof (scrape_candidates_yield E cs w3 u method') as Hy.
    rewrite Hsc in Hy. destruct (Hy eq_refl) as [Hst _].
    rewrite !(reached_landing _ _ Hst). cbn [rank Nat.leb]. rewrite !andb_true_r.
    exists (length cs), e6, n6.
    rewrite Ht6, Ht5, H34, <- !app_assoc.
    split_and!; try done; try lia.
    all: try (intros _ _; by apply Hsome6).
    all: try (intros _; by apply Hpos).
    all: by intros ->.
  - change (reached api_lookup "no_pdf_found") with true.
    change (reached content_negotiation "no_pdf_found") with true.
    rewrite !andb_true_r.
    exists (length cs), e6, n6.
    rewrite Ht6, Ht5, H34, <- !app_assoc.
    split_and!; try done; try lia.
    all: try (intros _ Hcs; rewrite Hnone6 by done; by apply Hpos).
    all: try (intros _; by apply Hpos).
    all: try (intros _; by apply Hnone6).
Qed.

End FullLogs.

Section ScraperFullLogs.
Import Web Html Lib Chain.
Variable E : Env.

Lemma scraper_lookup_log (doi email : option string) (w : World) :
  trace ((if Py.truthy_opt doi && Py.truthy_opt email
          then Scraper.unpaywall_pdf_for_doi E doi email else mret None) w).2
  = trace w
    ++ (if Py.truthy_opt doi && Py.truthy_opt email
        then [(api_lookup,
               lookup_req ("https://api.unpaywall.org/v2/" +:+ Py.opt_str doi)
                 (Py.opt_str email))]
        else []).
Proof.
  unfold Scraper.unpaywall_pdf_for_doi, mbind, M_bind, bind, http.
  destruct (Py.truthy_opt doi) eqn:Hd, (Py.truthy_opt email) eqn:He; cbn;
    rewrite ?app_nil_r; try done.
  destruct (net E _ _) as [r|e]; [|done].
  destruct (status_code r =? 200)%nat; [|done]. by destruct (json r).
Qed.

Lemma scraper_negotiate_log (c : string) (w : World) :
  trace (Scraper.negotiate E c w).2
  = trace w
    ++ [(content_negotiation,
         negotiate_req
           (if Py.startswith c "10." then "https://doi.org/" +:+ c
            else if Py.startswith c "http" then c else "https://" +:+ c))].
Proof.
  unfold Scraper.negotiate, mbind, M_bind, bind, http. cbv zeta.
  destruct (net E _ _) as [r|e]; [|done].
  destruct (_ || _); [done|].
  destruct (raw4 r) as [first|]; [|done]. by destruct (bytes_eqb first PDF_MAGIC).
Qed.

Lemma scraper_head_log (c : string) (w : World) :
  trace (Scraper.head_check E c w).2
  = trace w ++ [(candidate_probe, head_req c)].
Proof.
  unfold Scraper.head_check, mbind, M_bind, bind, http.
  destruct (net E _ _) as [h|e]; [|done].
  by destruct (Py.contains "pdf" (ctype_of h)).
Qed.

Lemma scraper_landing_log (c : string) (w : World) :
  ∃ e6, trace (Scraper.landing E c w).2 = trace w ++ e6
        ∧ Forall (λ e, e.1 = landing_scrape) e6
        ∧ head e6 = Some (landing_scrape, get_req c).
Proof.
  unfold Scraper.landing, mbind, M_bind, bind, http.
  set (g := (landing_scrape, get_req c)).
  assert (Hg : Forall (λ e : Stage * Request, e.1 = landing_scrape) [g])
    by (by repeat constructor).
  destruct (net E _ _) as [r|e]; [|by exists [g]].
  destruct (raise_for_status r); [by exists [g]|].
  destruct (_ || _); [by exists [g]|].
  destruct (extract_pdf_from_html _ _ _ _) as [pdf_candidate|e]; [|by exists [g]].
  destruct (Py.truthy_opt pdf_candidate); [|by exists [g]].
  exists [g; (landing_scrape, head_req (Py.opt_str pdf_candidate))].
  split_and!; [|by repeat constructor|done].
  cbn. destruct (net E _ (head_req _)) as [h2|e]; cbn.
  - destruct (_ || _); cbn; by rewrite <- app_assoc.
  - by rewrite <- app_assoc.
Qed.

Lemma is_doi_url_truthy (u : option string) :
  Scraper.is_doi_url u = true → Py.truthy_opt u = true.
Proof. unfold Scraper.is_doi_url. by destruct (Py.truthy_opt u). Qed.

(** The whole log of a resolution of the topic downloader. *)
Lemma scraper_full_log (candidate_url doi email : option string) (w : World) :
  let c := Py.opt_str candidate_url in
  let res := Scraper.try_resolve_pdf_url E candidate_url doi email w in
  ∃ (b4 b5 : bool) e6,
    trace res.2
    = trace w
      ++ (if Py.truthy_opt doi && Py.truthy_opt email
          then [(api_lookup,
                 lookup_req ("https://api.unpaywall.org/v2/" +:+ Py.opt_str doi)
                   (Py.opt_str email))]
          else [])
      ++ (if b4
          then [(content_negotiation,
                 negotiate_req
                   (if Py.startswith c "10." then "https://doi.org/" +:+ c
                    else if Py.startswith c "http" then c
                         else "https://" +:+ c))]
          else [])
      ++ (if b5 then [(candidate_probe, head_req c)] else [])
      ++ e6
    ∧ (b4 = true → Scraper.is_doi_url candidate_url = true)
    ∧ (b5 = true → Py.truthy_opt candidate_url = true
                   ∧ b4 = Scraper.is_doi_url candidate_url)
    ∧ Forall (λ e, e.1 = landing_scrape) e6
    ∧ (e6 ≠ [] → b5 = true ∧ head e6 = Some (landing_scrape, get_req c))
    ∧ (res.1 = None →
       b4 = Scraper.is_doi_url candidate_url
       ∧ (Py.truthy_opt candidate_url = true → b5 = true ∧ e6 ≠ [])).
Proof.
  intros c res. unfold res, Scraper.try_resolve_pdf_url. fold c.
  unfold mbind, M_bind, bind.
  pose proof (scraper_lookup_log doi email w) as H3.
  destruct ((if Py.truthy_opt doi && Py.truthy_opt email
             then Scraper.unpaywall_pdf_for_doi E doi email else mret None) w)
    as [pdf w1].
  cbn [fst snd] in H3.
  destruct (Py.truthy_opt pdf) eqn:Hpdf.
  { exists false, false, []. cbn [mret M_ret ret fst snd].
    rewrite H3, !app_nil_r. split_and!; try done.
    intros ->. done. }
  assert (H4 : ∀ w2,
    trace w2 = trace w1
               ++ (if Scraper.is_doi_url candidate_url
                   then [(content_negotiation,
                          negotiate_req
                            (if Py.startswith c "10." then "https://doi.org/" +:+ c
                             else if Py.startswith c "http" then c
                                  else "https://" +:+ c))]
                   else []) →
    trace w2
    = trace w
      ++ (if Py.truthy_opt doi && Py.truthy_opt email
          then [(api_lookup,
                 lookup_req ("https://api.unpaywall.org/v2/" +:+ Py.opt_str doi)
                   (Py.opt_str email))]
          else [])
      ++ (if Scraper.is_doi_url candidate_url
          then [(content_negotiation,
                 negotiate_req
                   (if Py.startswith c "10." then "https://doi.org/" +:+ c
                    else if Py.startswith c "http" then c
                         else "https://" +:+ c))]
          else [])).
  { intros w2 ->. by rewrite H3, <- app_assoc. }
  assert (Hneg : trace ((if Scraper.is_doi_url candidate_url
                         then Scraper.negotiate E c else mret None) w1).2
                 = trace w1
                   ++ (if Scraper.is_doi_url candidate_url
                       then [(content_negotiation,
                              negotiate_req
                                (if Py.startswith c "10."
                                 then "https://doi.org/" +:+ c
                                 else if Py.startswith c "http" then c
                                      else "https://" +:+ c))]
                       else [])).
  { destruct (Scraper.is_doi_url candidate_url).
    - apply scraper_negotiate_log.
    - cbn. by rewrite app_nil_r. }
  destruct ((if Scraper.is_doi_url candidate_url
             then Scraper.negotiate E c else mret None) w1) as [dn w2].
  cbn [fst snd] in Hneg. apply H4 in Hneg. clear H4.
  destruct dn as [final|].
  { exists (Scraper.is_doi_url candidate_url), false, [].
    cbn [mret M_ret ret fst snd]. rewrite Hneg, !app_nil_r.
    split_and!; done. }
  destruct (Py.truthy_opt candidate_url) eqn:Hc; cbn [negb].
  2:{ exists (Scraper.is_doi_url candidate_url), false, [].
      cbn [mret M_ret ret fst snd]. rewrite Hneg, !app_nil_r.
      split_and!; done. }
  pose proof (scraper_head_log c w2) as H5.
  destruct (Scraper.head_check E c w2) as [[u|] w3]; cbn [fst snd] in H5.
  { exists (Scraper.is_doi_url candidate_url), true, [].
    cbn [mret M_ret ret fst snd]. rewrite H5, Hneg, !app_nil_r, <- !app_assoc.
    split_and!; done. }
  destruct (scraper_landing_log c w3) as (e6 & H6 & Hall6 & Hhead6).
  exists (Scraper.is_doi_url candidate_url), true, e6.
  rewrite H6, H5, Hneg, <- !app_assoc.
  split_and!; try done.
  intros _. split; [done|]. intros _. split; [done|]. by intros ->.
Qed.

End ScraperFullLogs.

Section AttemptFacts.
Import Web Html Lib Csv Chain.

Lemma rank_inj (a b : Stage) : rank a = rank b → a = b.
Proof. by destruct a, b. Qed.

Lemma requests_of_app (st : Stage) (l1 l2 : list (Stage * Request)) :
  requests_of st (l1 ++ l2) = requests_of st l1 ++ requests_of st l2.
Proof. unfold requests_of. by rewrite List.filter_app, fmap_app. Qed.

Lemma requests_of_same (st : Stage) (l : list (Stage * Request)) :
  Forall (λ e, e.1 = st) l → requests_of st l = snd <$> l.
Proof.
  unfold requests_of. induction 1 as [|[s rq] l Hs Hl IH]; [done|].
  cbn in *. subst s. by rewrite Nat.eqb_refl, <- IH.
Qed.

Lemma requests_of_other (st st' : Stage) (l : list (Stage * Request)) :
  Forall (λ e, e.1 = st') l → st ≠ st' → requests_of st l = [].
Proof.
  unfold requests_of. intros Hl Hne. induction Hl as [|[s rq] l Hs Hl IH]; [done|].
  cbn in *. subst s.
  destruct (Nat.eqb_spec (rank st') (rank st)) as [Heq|_]; [|done].
  by apply rank_inj in Heq.
Qed.

Lemma attempted_requests (st : Stage) (evs : list (Stage * Request)) :
  attempted st evs ↔ requests_of st evs ≠ [].
Proof.
  unfold attempted, requests_of. induction evs as [|[s rq] evs IH]; cbn.
  { split; [by intros ?%elem_of_nil|done]. }
  rewrite elem_of_cons, IH.
  destruct (Nat.eqb_spec (rank s) (rank st)) as [Heq|Hne]; cbn.
  - apply rank_inj in Heq. split; [done|]. by left.
  - split; [|by right]. intros [->|?]; done.
Qed.

Lemma block_stage (st : Stage) (b : bool) (rq : Request) :
  Forall (λ e : Stage * Request, e.1 = st) (if b then [(st, rq)] else []).
Proof. destruct b; by repeat constructor. Qed.

Lemma probes_stage (l : list string) :
  Forall (λ e : Stage * Request, e.1 = candidate_probe)
         ((λ c, (candidate_probe, head_req c)) <$> l).
Proof. apply Forall_fmap, Forall_true. done. Qed.

Lemma take_nil_iff {A} (n : nat) (l : list A) :
  n ≤ length l → (take n l = [] ↔ n = 0 ∨ l = []).
Proof.
  intros Hn. destruct n, l; cbn in *; split; auto; try done.
  - intros [?|?]; done.
Qed.

(** Which strategies a resolution attempts, and with which requests. *)
Lemma resolve_attempts (E : Env) (row : Row) (email : option string)
    (w : World) :
  let doi := Py.opt_str (row !! "doi") in
  let method := (resolve_pdf_url E row email w).1.2 in
  let evs := issued (resolve_pdf_url E row email) w in
  let cs := candidates row in
  (∀ st, attempted st evs
         ↔ applies st row email = true ∧ reached st method = true)
  ∧ requests_of api_lookup evs
    = (if applies api_lookup row email && reached api_lookup method
       then [lookup_req ("https://api.unpaywall.org/v2/" +:+ quote_plus E doi)
               (Py.opt_str email)]
       else [])
  ∧ requests_of content_negotiation evs
    = (if applies content_negotiation row email
          && reached content_negotiation method
       then [negotiate_req (if Py.startswith doi "http" then doi
                            else "https://doi.org/" +:+ doi)]
       else [])
  ∧ (∃ n, n ≤ length cs
          ∧ requests_of candidate_probe evs = head_req <$> take n cs
          ∧ (reached landing_scrape method = true → n = length cs))
  ∧ (∃ n, n ≤ length cs
          ∧ List.filter is_get (requests_of landing_scrape evs)
            = get_req <$> take n cs
          ∧ (method = "no_pdf_found" → n = length cs)).
Proof.
  intros doi method evs cs.
  destruct (resolve_full_log E row email w)
    as (n5 & e6 & n6 & Ht & Hn5 & H5a & H5b & H5c & Hall6 & Hn6 & Hget6
        & Hnil6 & H6a & H6b & H6c).
  fold doi method cs in Ht, Hn5, H5a, H5b, H5c, Hn6, Hget6, H6a, H6b, H6c.
  apply issued_app in Ht. fold evs in Ht.
  set (b3 := applies api_lookup row email && reached api_lookup method) in *.
  set (b4 := applies content_negotiation row email
             && reached content_negotiation method) in *.
  set (rq3 := lookup_req _ _) in *. set (rq4 := negotiate_req _) in *.
  pose proof (block_stage api_lookup b3 rq3) as Hs3.
  pose proof (block_stage content_negotiation b4 rq4) as Hs4.
  pose proof (probes_stage (take n5 cs)) as Hs5.
  assert (Hreq : ∀ st,
    requests_of st evs
    = match st with
      | api_lookup => if b3 then [rq3] else []
      | content_negotiation => if b4 then [rq4] else []
      | candidate_probe => head_req <$> take n5 cs
      | landing_scrape => snd <$> e6
      | _ => []
      end).
  { intros st. rewrite Ht, !requests_of_app.
    destruct st;
      repeat match goal with
      | |- context [requests_of ?s ?l] =>
          first [ rewrite (requests_of_same s l) by done
                | rewrite (requests_of_other s api_lookup l) by done
                | rewrite (requests_of_other s content_negotiation l) by done
                | rewrite (requests_of_other s candidate_probe l) by done
                | rewrite (requests_of_other s landing_scrape l) by done ]
      end;
      rewrite ?app_nil_r; cbn [app]; try done.
    - by destruct b3.
    - by destruct b4.
    - by rewrite <- list_fmap_compose. }
  assert (Hcs : applies candidate_probe row email = true ↔ cs ≠ []).
  { unfold applies. fold cs. by destruct cs. }
  split_and!.
  - intros st. rewrite attempted_requests, Hreq.
    destruct st; try (by split; [|intros [? _]]).
    + fold b3. rewrite <- andb_true_iff. by destruct (_ && _).
    + rewrite <- andb_true_iff. fold b4. by destruct b4.
    + rewrite Hcs. split.
      * intros Hne. assert (n5 ≠ 0 ∧ cs ≠ []) as [? ?].
        { split; intros ->; apply Hne; [done|by rewrite take_nil]. }
        split; [done|].
        destruct (reached candidate_probe method); [done|]. by destruct H5a.
      * intros [Hne Hr] Hnil%fmap_nil_inv.
        apply take_nil_iff in Hnil as [->| ->]; [|done..].
        specialize (H5c Hr Hne). lia.
    + change (applies landing_scrape row email)
        with (applies candidate_probe row email). rewrite Hcs. split.
      * intros Hne. assert (n6 ≠ 0) as Hn.
        { intros Hn%Hnil6. apply Hne. by rewrite Hn. }
        split.
        -- intros Hnil. rewrite Hnil in Hn6. cbn in Hn6. lia.
        -- destruct (reached landing_scrape method); [done|]. by destruct H6a.
      * intros [Hne Hr] Hnil%fmap_nil_inv.
        apply Hnil6 in Hnil. specialize (H6b Hr Hne). lia.
  - by rewrite Hreq.
  - by rewrite Hreq.
  - exists n5. by rewrite Hreq.
  - exists n6. by rewrite Hreq.
Qed.

(** The same for the resolver of the topic downloader. *)
Lemma scraper_attempts (E : Env) (candidate_url doi email : option string)
    (w : World) :
  let c := Py.opt_str candidate_url in
  let res := Scraper.try_resolve_pdf_url E candidate_url doi email w in
  let evs := issued (Scraper.try_resolve_pdf_url E candidate_url doi email) w in
  requests_of api_lookup evs
  = (if Py.truthy_opt doi && Py.truthy_opt email
     then [lookup_req ("https://api.unpaywall.org/v2/" +:+ Py.opt_str doi)
             (Py.opt_str email)]
     else [])
  ∧ (attempted content_negotiation evs →
     Scraper.is_doi_url candidate_url = true
     ∧ requests_of content_negotiation evs
       = [negotiate_req
            (if Py.startswith c "10." then "https://doi.org/" +:+ c
             else if Py.startswith c "http" then c else "https://" +:+ c)])
  ∧ (attempted candidate_probe evs →
     Py.truthy_opt candidate_url = true
     ∧ requests_of candidate_probe evs = [head_req c]
     ∧ (Scraper.is_doi_url candidate_url = true →
        attempted content_negotiation evs))
  ∧ (attempted landing_scrape evs →
     attempted candidate_probe evs
     ∧ head (requests_of landing_scrape evs) = Some (get_req c))
  ∧ (res.1 = None →
     (Scraper.is_doi_url candidate_url = true →
      attempted content_negotiation evs)
     ∧ (Py.truthy_opt candidate_url = true →
        attempted candidate_probe evs ∧ attempted landing_scrape evs)).
Proof.
  intros c res evs.
  destruct (scraper_full_log E candidate_url doi email w)
    as (b4 & b5 & e6 & Ht & H4 & H5 & Hall6 & H6 & Hnone).
  fold c res in Ht, H4, H5, H6, Hnone.
  apply issued_app in Ht. fold evs in Ht.
  set (b3 := Py.truthy_opt doi && Py.truthy_opt email) in *.
  set (rq3 := lookup_req _ _) in *. set (rq4 := negotiate_req _) in *.
  pose proof (block_stage api_lookup b3 rq3) as Hs3.
  pose proof (block_stage content_negotiation b4 rq4) as Hs4.
  pose proof (block_stage candidate_probe b5 (head_req c)) as Hs5.
  assert (Hreq : ∀ st,
    requests_of st evs
    = match st with
      | api_lookup => if b3 then [rq3] else []
      | content_negotiation => if b4 then [rq4] else []
      | candidate_probe => if b5 then [head_req c] else []
      | landing_scrape => snd <$> e6
      | _ => []
      end).
  { intros st. rewrite Ht, !requests_of_app.
    destruct st;
      repeat match goal with
      | |- context [requests_of ?s ?l] =>
          first [ rewrite (requests_of_same s l) by done
                | rewrite (requests_of_other s api_lookup l) by done
                | rewrite (requests_of_other s content_negotiation l) by done
                | rewrite (requests_of_other s candidate_probe l) by done
                | rewrite (requests_of_other s landing_scrape l) by done ]
      end;
      rewrite ?app_nil_r; cbn [app]; try done.
    - by destruct b3.
    - by destruct b4.
    - by destruct b5. }
  assert (Ha4 : attempted content_negotiation evs ↔ b4 = true).
  { rewrite attempted_requests, Hreq. by destruct b4. }
  assert (Ha5 : attempted candidate_probe evs ↔ b5 = true).
  { rewrite attempted_requests, Hreq. by destruct b5. }
  assert (Ha6 : attempted landing_scrape evs ↔ e6 ≠ []).
  { rewrite attempted_requests, Hreq. by destruct e6. }
  split_and!.
  - by rewrite Hreq.
  - intros Hb%Ha4. rewrite Hreq, Hb. split; [by apply H4|done].
  - intros Hb%Ha5. rewrite Hreq, Hb. destruct (H5 Hb) as [? Heq].
    split_and!; [done|done|]. intros Hd. apply Ha4. congruence.
  - intros He%Ha6. destruct (H6 He) as [Hb Hhead]. split; [by apply Ha5|].
    rewrite Hreq. destruct e6 as [|[s rq] e6]; [done|]. cbn in *. congruence.
  - intros Hres. destruct (Hnone Hres) as [Hb4 Hrest]. split.
    + intros Hd. apply Ha4. congruence.
    + intros Hc. destruct (Hrest Hc). split; [by apply Ha5|by apply Ha6].
Qed.

End AttemptFacts.

Section ChainClaims.
Import Web Html Lib Csv Chain Scenarios.

(** The claim C1 at a record with a DOI and a contact email: the DOI
    carries a prefix and is no hit for [is_doi_like], and the landing
    scrape is attempted without any content negotiation.  The same
    holds of [try_resolve_pdf_url] for a plain DOI, whose content
    negotiation looks at the candidate URL only. *)
Lemma landing_scrape_skips_content_negotiation :
  let email := Some "me@example.org" in
  let evs := issued (resolve_pdf_url offline_env prefixed_doi_row email)
               PyLib.empty_world in
  let evs' := issued (Scraper.try_resolve_pdf_url offline_env
                        (Some "https://pub.example/article/1")
                        (Some "10.1000/xyz") email)
                PyLib.empty_world in
  prefixed_doi_row !! "doi" = Some "doi:10.1000/xyz"
  ∧ fst <$> evs = [api_lookup; candidate_probe; landing_scrape]
  ∧ attempted landing_scrape evs
  ∧ ¬ attempted content_negotiation evs
  ∧ fst <$> evs' = [api_lookup; candidate_probe; landing_scrape]
  ∧ attempted landing_scrape evs'
  ∧ ¬ attempted content_negotiation evs'.
Proof.
  cbv zeta. unfold attempted.
  split_and!; try (by vm_compute).
  - apply list_elem_of_In. vm_compute. tauto.
  - intros H%list_elem_of_In. vm_compute in H. intuition discriminate.
  - apply list_elem_of_In. vm_compute. tauto.
  - intros H%list_elem_of_In. vm_compute in H. intuition discriminate.
Qed.



End ChainClaims.
(* ===================================================================== *)
(** ** File names and paths *)
(* ===================================================================== *)

Section NameFacts.
Import Names.

Lemma all_chars_true (p : ascii → bool) (s : string) :
  (∀ c, p c = true) → Py.all_chars p s = true.
Proof. intros H. induction s as [|c s IH]; cbn; [done|]. by rewrite H, IH. Qed.

Lemma all_chars_impl (p q : ascii → bool) (s : string) :
  (∀ c, p c = true → q c = true) →
  Py.all_chars p s = true → Py.all_chars q s = true.
Proof.
  intros H. induction s as [|c s IH]; cbn; [done|].
  intros [Hc Hs]%andb_prop. by rewrite (H c Hc), IH.
Qed.

Lemma all_chars_sub_runs (cls q : ascii → bool) (rep s : string) :
  Py.all_chars q rep = true →
  Py.all_chars (λ c, cls c || q c) s = true →
  ∀ b, Py.all_chars q (Py.sub_runs cls rep b s) = true.
Proof.
  intros Hrep. induction s as [|c s IH]; cbn; [done|].
  intros [Hc Hs]%andb_prop b. destruct (cls c) eqn:Hcls.
  - destruct b; [by apply IH|]. rewrite all_chars_app, Hrep. by apply IH.
  - cbn in Hc. cbn. rewrite Hc. by apply IH.
Qed.

Lemma all_chars_lstrip (cls q : ascii → bool) (s : string) :
  Py.all_chars q s = true → Py.all_chars q (Py.lstrip_by cls s) = true.
Proof.
  induction s as [|c s IH]; cbn; [done|].
  intros H. destruct (cls c); [|done]. apply andb_prop in H as [_ H]. by apply IH.
Qed.

Lemma all_chars_rstrip (cls q : ascii → bool) (s : string) :
  Py.all_chars q s = true → Py.all_chars q (Py.rstrip_by cls s) = true.
Proof.
  induction s as [|c s IH]; cbn; [done|].
  intros [Hc Hs]%andb_prop. destruct (cls c && _); [done|].
  cbn. by rewrite Hc, IH.
Qed.

Lemma all_chars_take (q : ascii → bool) (n : nat) (s : string) :
  Py.all_chars q s = true → Py.all_chars q (Py.take n s) = true.
Proof.
  revert s. induction n as [|n IH]; intros [|c s]; cbn; try done.
  intros [Hc Hs]%andb_prop. by rewrite Hc, IH.
Qed.

Lemma length_sub_runs (cls : ascii → bool) (rep s : string) :
  String.length rep ≤ 1 →
  ∀ b, String.length (Py.sub_runs cls rep b s) ≤ String.length s.
Proof.
  intros Hrep. induction s as [|c s IH]; intros b; cbn; [done|].
  destruct (cls c).
  - destruct b.
    + specialize (IH true). lia.
    + rewrite length_append. specialize (IH true). lia.
  - cbn. specialize (IH false). lia.
Qed.

Lemma length_lstrip (cls : ascii → bool) (s : string) :
  String.length (Py.lstrip_by cls s) ≤ String.length s.
Proof. induction s as [|c s IH]; cbn; [done|]. destruct (cls c); cbn; lia. Qed.

Lemma length_rstrip (cls : ascii → bool) (s : string) :
  String.length (Py.rstrip_by cls s) ≤ String.length s.
Proof.
  induction s as [|c s IH]; cbn; [done|]. destruct (cls c && _); cbn; lia.
Qed.

(** What is left after [lstrip] does not begin with a stripped
    character, and [rstrip] keeps the head of what it leaves. *)
Lemma lstrip_head (cls : ascii → bool) (s : string) :
  match Py.lstrip_by cls s with
  | String c _ => cls c = false
  | EmptyString => True
  end.
Proof.
  induction s as [|c s IH]; cbn; [done|]. by destruct (cls c) eqn:Hc.
Qed.

Lemma rstrip_head (cls : ascii → bool) (c : ascii) (s : string) :
  Py.rstrip_by cls (String c s) = ""
  ∨ ∃ r, Py.rstrip_by cls (String c s) = String c r.
Proof. cbn. destruct (cls c && _); eauto. Qed.

Lemma rstrip_last (cls : ascii → bool) (s : string) :
  Py.rstrip_by cls s = ""
  ∨ ∃ r c, Py.rstrip_by cls s = r +:+ String c "" ∧ cls c = false.
Proof.
  induction s as [|c s IH]; cbn; [by left|].
  destruct (Py.rstrip_by cls s) as [|d r'] eqn:Hr; cbn.
  - destruct (cls c) eqn:Hc; cbn; [by left|]. right. by exists "", c.
  - rewrite andb_false_r. right.
    destruct IH as [?|(r & e & Heq & He)]; [done|].
    exists (String c r), e. by rewrite Heq.
Qed.

Lemma lstrip_id (cls : ascii → bool) (s : string) :
  match s with String c _ => cls c = false | EmptyString => True end →
  Py.lstrip_by cls s = s.
Proof. destruct s as [|c s]; cbn; [done|]. by intros ->. Qed.

Lemma rstrip_idem (cls : ascii → bool) (s : string) :
  Py.rstrip_by cls (Py.rstrip_by cls s) = Py.rstrip_by cls s.
Proof.
  induction s as [|c s IH]; cbn; [done|].
  destruct (cls c && negb (Py.truthy (Py.rstrip_by cls s))) eqn:Hc; [done|].
  cbn. by rewrite IH, Hc.
Qed.

Lemma strip_by_idem (cls : ascii → bool) (s : string) :
  Py.strip_by cls (Py.strip_by cls s) = Py.strip_by cls s.
Proof.
  unfold Py.strip_by.
  assert (Py.lstrip_by cls (Py.rstrip_by cls (Py.lstrip_by cls s))
          = Py.rstrip_by cls (Py.lstrip_by cls s)) as ->.
  { apply lstrip_id. pose proof (lstrip_head cls s) as Hh.
    destruct (Py.lstrip_by cls s) as [|c r]; [done|].
    destruct (rstrip_head cls c r) as [->|[r' ->]]; done. }
  apply rstrip_idem.
Qed.

Lemma drop_app_length (a b : string) : Py.drop (String.length a) (a +:+ b) = b.
Proof. induction a as [|c a IH]; cbn; [by destruct b|done]. Qed.

Lemma take_app_length (a b : string) : Py.take (String.length a) (a +:+ b) = a.
Proof.
  induction a as [|c a IH]; [by destruct b|].
  rewrite append_cons. cbn. by rewrite IH.
Qed.

Lemma take_all (n : nat) (s : string) :
  String.length s ≤ n → Py.take n s = s.
Proof.
  revert s. induction n as [|n IH]; intros [|c s]; cbn; try done; [lia|].
  intros H. rewrite IH; [done|lia].
Qed.

Lemma endswith_last (r : string) (c d : ascii) :
  Py.endswith (r +:+ String c "") (String d "") = Ascii.eqb c d.
Proof.
  unfold Py.endswith. rewrite length_append. cbn [String.length].
  replace (String.length r + 1 - 1) with (String.length r) by lia.
  rewrite drop_app_length.
  replace (1 <=? String.length r + 1) with true by (symmetry; apply Nat.leb_le; lia).
  cbn. by destruct (Ascii.eqb c d).
Qed.

Lemma startswith_single (c d : ascii) (r : string) :
  d ≠ c → Py.startswith (String c r) (String d "") = false.
Proof.
  intros H. unfold Py.startswith.
  change (String.prefix (String d "") (String c r))
    with (if ascii_dec d c then String.prefix "" r else false).
  by destruct (ascii_dec d c).
Qed.

Lemma last_char (s : string) :
  Py.truthy s = true → ∃ r c, s = r +:+ String c "".
Proof.
  induction s as [|c s IH]; [done|]. intros _.
  destruct s as [|d s]; [by exists "", c|].
  destruct IH as (r & e & Heq); [done|]. exists (String c r), e. by rewrite Heq.
Qed.

Lemma sub_runs_id (cls : ascii → bool) (rep s : string) :
  Py.all_chars (λ c, negb (cls c)) s = true →
  Py.sub_runs cls rep false s = s.
Proof.
  induction s as [|c s IH]; cbn; [done|].
  intros [Hc Hs]%andb_prop. apply negb_true_iff in Hc. by rewrite Hc, IH.
Qed.

Lemma all_chars_no_char (p : ascii → bool) (c : ascii) (s : string) :
  p c = false → Py.all_chars p s = true → Py.contains (String c "") s = false.
Proof.
  intros Hc. induction s as [|d s IH]; cbn; [done|].
  intros [Hd Hs]%andb_prop. rewrite (IH Hs), orb_false_r.
  destruct (Ascii.eqb_spec c d) as [->|Hne]; [congruence|].
  destruct (ascii_dec c d); [done|]. by destruct s.
Qed.

Lemma harmless_sub_hostile (s : string) (b : bool) :
  Py.all_chars (λ c, negb (Csv.hostile c)) (Py.sub_runs Csv.hostile "_" b s)
  = true.
Proof.
  apply all_chars_sub_runs; [reflexivity|].
  apply all_chars_true. intros c. by destruct (Csv.hostile c).
Qed.

Lemma harmless_sub_space (s : string) (b : bool) :
  Py.all_chars (λ c, negb (Csv.hostile c)) s = true →
  Py.all_chars harmless (Py.sub_runs Py.isspace "_" b s) = true.
Proof.
  intros H. apply all_chars_sub_runs; [reflexivity|].
  revert H. apply all_chars_impl. intros c Hc. unfold harmless.
  rewrite Hc. by destruct (Py.isspace c).
Qed.

End NameFacts.

Section NameTheorems.
Import Names.

Lemma safe_filename_shape (s : string) (maxlen : nat) :
  let f := Csv.safe_filename s maxlen in
  component f
  ∧ String.length f ≤ maxlen `max` 4
  ∧ Py.contains "/" f = false
  ∧ Py.startswith f "_" = false
  ∧ Py.endswith f "_" = false.
Proof.
  cbv zeta. unfold Csv.safe_filename.
  set (x := Py.sub_runs Py.isspace "_" false
              (Py.sub_runs Csv.hostile "_" false (Py.take maxlen s))).
  set (u := λ c, (Py.code c =? 95)%nat).
  assert (Hx : Py.all_chars harmless x = true).
  { apply harmless_sub_space, harmless_sub_hostile. }
  assert (Hlen : String.length (Py.strip_by u x) ≤ maxlen).
  { unfold Py.strip_by.
    etransitivity; [apply length_rstrip|].
    etransitivity; [apply length_lstrip|].
    etransitivity; [apply length_sub_runs; cbn; lia|].
    etransitivity; [apply length_sub_runs; cbn; lia|].
    rewrite length_take. lia. }
  assert (Hall : Py.all_chars harmless (Py.strip_by u x) = true).
  { by apply all_chars_rstrip, all_chars_lstrip. }
  pose proof (lstrip_head u x) as Hhead.
  pose proof (rstrip_last u (Py.lstrip_by u x)) as Hlast.
  unfold Py.or_else.
  destruct (Py.truthy (Py.strip_by u x)) eqn:Ht.
  - split_and!.
    + done.
    + lia.
    + by apply (all_chars_no_char harmless).
    + unfold Py.strip_by in *.
      destruct (Py.lstrip_by u x) as [|c r]; [done|].
      destruct (rstrip_head u c r) as [Heq|[r' Heq]]; rewrite Heq in *; [done|].
      apply startswith_single. intros <-. by vm_compute in Hhead.
    + unfold Py.strip_by in *.
      destruct Hlast as [Heq|(r & c & Heq & Hc)]; rewrite Heq in *; [done|].
      rewrite endswith_last. unfold u in Hc.
      destruct (Ascii.eqb_spec c "_") as [->|]; done.
  - split_and!; [done|cbn; lia|done..].
Qed.

(** X1.  [safe_filename] of [download_pdfs_from_csv.py] always returns
    the name of one path component: it is never empty, holds none of
    the characters of the hostile class, no whitespace and hence no
    path separator, is not longer than [maxlen] (or than the four
    characters of the default name), and neither begins nor ends with an
    underscore. *)
Theorem safe_filename_component (s : string) (maxlen : nat) :
  let f := Csv.safe_filename s maxlen in
  component f
  ∧ String.length f ≤ maxlen `max` 4
  ∧ Py.contains "/" f = false
  ∧ Py.startswith f "_" = false
  ∧ Py.endswith f "_" = false.
Proof. apply safe_filename_shape. Qed.

(** X2.  Sanitizing a sanitized name changes nothing, for a length
    limit that leaves room for the default name. *)
Theorem safe_filename_idempotent (s : string) (maxlen : nat) :
  4 ≤ maxlen →
  Csv.safe_filename (Csv.safe_filename s maxlen) maxlen
  = Csv.safe_filename s maxlen.
Proof.
  intros Hmax.
  destruct (safe_filename_shape s maxlen) as ([_ Hall] & Hlen & _).
  unfold Csv.safe_filename at 1.
  rewrite take_all by lia.
  rewrite (sub_runs_id Csv.hostile).
  2:{ revert Hall. apply all_chars_impl. unfold harmless.
      by intros c [? _]%andb_prop. }
  rewrite (sub_runs_id Py.isspace).
  2:{ revert Hall. apply all_chars_impl. unfold harmless.
      by intros c [_ ?]%andb_prop. }
  unfold Csv.safe_filename, Py.or_else.
  set (x := Py.sub_runs Py.isspace "_" false _).
  destruct (Py.truthy (Py.strip_by _ x)) eqn:Ht.
  - by rewrite strip_by_idem, Ht.
  - reflexivity.
Qed.

Lemma safe_filename_idempotent_witness :
  Csv.safe_filename (Csv.safe_filename "10.1000/ab:c d" 200) 200
  = Csv.safe_filename "10.1000/ab:c d" 200.
Proof. apply (safe_filename_idempotent "10.1000/ab:c d" 200). lia. Defined.

Lemma lstrip_empty (cls : ascii → bool) (s : string) :
  Py.lstrip_by cls s = "" ↔ Py.all_chars cls s = true.
Proof.
  induction s as [|c s IH]; cbn; [done|].
  destruct (cls c); cbn; [done|]. split; done.
Qed.

Lemma strip_by_empty (cls : ascii → bool) (s : string) :
  Py.strip_by cls s = "" ↔ Py.all_chars cls s = true.
Proof.
  unfold Py.strip_by. rewrite <- lstrip_empty.
  pose proof (lstrip_head cls s) as Hh.
  destruct (Py.lstrip_by cls s) as [|c r]; [done|].
  cbn. rewrite Hh. cbn. split; done.
Qed.

Lemma sub_runs_empty (cls : ascii → bool) (s : string) :
  Py.sub_runs cls "_" false s = "" ↔ s = "".
Proof. destruct s as [|c s]; cbn; [done|]. destruct (cls c); split; done. Qed.

Lemma take_empty (n : nat) (s : string) : Py.take (S n) s = "" ↔ s = "".
Proof. destruct s; cbn; split; done. Qed.

Lemma hostile_not_space (c : ascii) : Csv.hostile c = true → Py.isspace c = false.
Proof.
  destruct c as [[] [] [] [] [] [] [] []]; vm_compute; congruence.
Qed.

(** Replacing the hostile characters keeps a text of whitespace as it
    is, and makes no other text one. *)
Lemma sub_hostile_space (s : string) :
  Py.all_chars Py.isspace (Py.sub_runs Csv.hostile "_" false s)
  = Py.all_chars Py.isspace s.
Proof.
  induction s as [|c s IH]; cbn; [done|].
  destruct (Csv.hostile c) eqn:Hc.
  - by rewrite (hostile_not_space c Hc).
  - cbn. by rewrite IH.
Qed.

Lemma scraper_safe_filename_shape (s : string) :
  let f := Scraper.safe_filename s in
  Py.all_chars harmless f = true
  ∧ String.length f ≤ 180
  ∧ Py.contains "/" f = false
  ∧ (f = "" ↔ Py.all_chars Py.isspace s = true).
Proof.
  cbv zeta. unfold Scraper.safe_filename.
  assert (Hall : Py.all_chars harmless
            (Py.take 180 (Py.sub_runs Py.isspace "_" false
               (Py.strip (Py.sub_runs Csv.hostile "_" false s)))) = true).
  { apply all_chars_take, harmless_sub_space.
    apply all_chars_rstrip, all_chars_lstrip, harmless_sub_hostile. }
  split_and!; [done| |by apply (all_chars_no_char harmless)|].
  - rewrite length_take. lia.
  - rewrite take_empty, sub_runs_empty.
    unfold Py.strip. by rewrite strip_by_empty, sub_hostile_space.
Qed.

(** X3.  [safe_filename] of [scraper.py] returns at most 180
    characters, none of them hostile, whitespace or a path separator.
    It has no default name: it returns the empty name exactly when its
    argument holds nothing but whitespace. *)
Theorem scraper_safe_filename_harmless (s : string) :
  let f := Scraper.safe_filename s in
  Py.all_chars harmless f = true
  ∧ String.length f ≤ 180
  ∧ Py.contains "/" f = false
  ∧ (f = "" ↔ Py.all_chars Py.isspace s = true).
Proof. apply scraper_safe_filename_shape. Qed.

End NameTheorems.

Section PathTheorems.
Import Names Csv.

Lemma truthy_app_r (a b : string) : Py.truthy b = true → Py.truthy (a +:+ b) = true.
Proof. destruct a; [done|]. by rewrite append_cons. Qed.

Lemma component_app (a b : string) :
  component a → Py.all_chars harmless b = true → component (a +:+ b).
Proof.
  intros [Ht Ha] Hb. split.
  - destruct a; [done|]. by rewrite append_cons.
  - by rewrite all_chars_app, Ha, Hb.
Qed.

Lemma component_no_slash_end (a b : string) :
  component b → Py.endswith (a +:+ b) "/" = false.
Proof.
  intros [Ht Hall]. destruct (last_char b Ht) as (r & c & ->).
  rewrite all_chars_app in Hall. apply andb_prop in Hall as [_ Hc].
  cbn in Hc. rewrite andb_true_r in Hc.
  rewrite <- append_assoc, endswith_last.
  destruct (Ascii.eqb_spec c "/") as [->|]; done.
Qed.

(** [os.path.join(a, b)] for the name of one component. *)
Lemma path_join_component (a b : string) :
  component b →
  Py.path_join a b
  = a +:+ (if negb (Py.truthy a) || Py.endswith a "/" then "" else "/") +:+ b.
Proof.
  intros [Ht Hall]. unfold Py.path_join.
  destruct b as [|c r]; [done|]. cbn in Hall. apply andb_prop in Hall as [Hc _].
  rewrite startswith_single by (by intros <-).
  by destruct (negb (Py.truthy a) || Py.endswith a "/").
Qed.

(** The directory and the file of a row. *)
Lemma row_paths_shape (out_dir : string) (row : Row) :
  ∃ folder name,
    component folder ∧ component name
    ∧ save_dir_for out_dir row
      = out_dir
        +:+ (if negb (Py.truthy out_dir) || Py.endswith out_dir "/" then ""
             else "/")
        +:+ folder
    ∧ out_file_for out_dir row
      = save_dir_for out_dir row +:+ "/" +:+ name +:+ ".pdf".
Proof.
  unfold out_file_for, save_dir_for. cbv zeta.
  set (folder := safe_filename _ 200).
  set (name := if Py.truthy _ then _ else _).
  assert (Hf : component folder) by apply safe_filename_shape.
  assert (Hn : component name).
  { unfold name. case_match; apply safe_filename_shape. }
  exists folder, name. split_and!; [done..| |].
  - by rewrite (path_join_component out_dir folder).
  - rewrite (path_join_component _ (name +:+ ".pdf"))
      by (by apply component_app).
    rewrite (path_join_component out_dir folder) by done.
    set (sep := if negb (Py.truthy out_dir) || _ then _ else _).
    assert (Py.truthy (out_dir +:+ sep +:+ folder) = true) as ->.
    { rewrite <- append_assoc. apply truthy_app_r, Hf. }
    assert (Py.endswith (out_dir +:+ sep +:+ folder) "/" = false) as ->.
    { rewrite <- append_assoc. by apply component_no_slash_end. }
    cbn [negb orb]. by rewrite !append_assoc.
Qed.

Lemma out_file_shape (out_dir : string) (row : Row) :
  ∃ folder name,
    component folder ∧ component name
    ∧ out_file_for out_dir row
      = out_dir
        +:+ (if negb (Py.truthy out_dir) || Py.endswith out_dir "/" then ""
             else "/")
        +:+ folder +:+ "/" +:+ name +:+ ".pdf".
Proof.
  destruct (row_paths_shape out_dir row) as (folder & name & ? & ? & Hd & Hf).
  exists folder, name. split_and!; [done..|].
  rewrite Hf, Hd. by rewrite ?append_assoc.
Qed.

(** X4.  The path [process_csv] saves a row under lies below the
    output directory, textually: it is the output directory, a
    separator unless the directory is empty or ends with one, the name
    of one folder, a separator, and a file name that ends in .pdf.
    Folder and file name are never empty and hold no separator, no
    hostile character and no whitespace. *)
Theorem out_file_inside_out_dir (out_dir : string) (row : Row) :
  ∃ folder name,
    component folder ∧ component name
    ∧ out_file_for out_dir row
      = out_dir
        +:+ (if negb (Py.truthy out_dir) || Py.endswith out_dir "/" then ""
             else "/")
        +:+ folder +:+ "/" +:+ name +:+ ".pdf".
Proof. apply out_file_shape. Qed.

Lemma out_file_truthy (out_dir : string) (row : Row) :
  out_file_for out_dir row ≠ "".
Proof.
  destruct (out_file_shape out_dir row) as (folder & name & _ & _ & ->).
  intros H. apply (f_equal String.length) in H.
  rewrite !length_append in H. cbn in H. lia.
Qed.

End PathTheorems.

(* ===================================================================== *)
(** ** Effects of the validator and of the resolvers *)
(* ===================================================================== *)

Section EffectFacts.
Import Web Html Lib Effects Validator.

Lemma at_most_refl (n : nat) (w w' : World) :
  trace w' = trace w → at_most n w w'.
Proof. intros H. exists []. rewrite app_nil_r. split; [done|cbn; lia]. Qed.

Lemma at_most_trans (n k : nat) (w1 w2 w3 : World) :
  at_most n w1 w2 → at_most k w2 w3 → at_most (n + k) w1 w3.
Proof.
  intros (e1 & H1 & L1) (e2 & H2 & L2). exists (e1 ++ e2).
  rewrite H2, H1, <- app_assoc, length_app. split; [done|lia].
Qed.

Lemma at_most_mono (n k : nat) (w w' : World) :
  n ≤ k → at_most n w w' → at_most k w w'.
Proof. intros Hle (e & H & L). exists e. split; [done|lia]. Qed.

Lemma at_most_one (w w' : World) (ev : Stage * Request) :
  trace w' = trace w ++ [ev] → at_most 1 w w'.
Proof. intros H. exists [ev]. split; [done|cbn; lia]. Qed.

Lemma only_touches_same (path : string) (w w' : World) :
  files w' = files w → only_touches path w w'.
Proof. intros H. split; intros p; by rewrite H. Qed.

Lemma only_touches_insert (path : string) (w w' : World) (c : list byte) :
  files w' = <[path := c]> (files w) → only_touches path w w'.
Proof.
  intros H. split; intros p Hp; rewrite H.
  - by rewrite lookup_insert_ne.
  - rewrite lookup_insert_is_Some. destruct (decide (path = p)); auto.
Qed.

Lemma only_touches_trans (path : string) (w1 w2 w3 : World) :
  only_touches path w1 w2 → only_touches path w2 w3 → only_touches path w1 w3.
Proof.
  intros [Ha Hb] [Hc Hd]. split; intros p Hp.
  - by rewrite Hc, Ha.
  - by apply Hd, Hb.
Qed.

Lemma reads_only_ret {A} (n : nat) (a : A) : reads_only n (mret a : M A).
Proof. intros w. split; [done|]. by apply at_most_refl. Qed.

Lemma reads_only_bind {A B} (n k : nat) (m : M A) (f : A → M B) :
  reads_only n m → (∀ a, reads_only k (f a)) → reads_only (n + k) (m ≫= f).
Proof.
  intros Hm Hf w. unfold mbind, M_bind, bind.
  destruct (Hm w) as [Hfiles Htrace]. destruct (m w) as [a w1]. cbn in *.
  destruct (Hf a w1) as [Hfiles' Htrace']. split; [congruence|].
  by eapply at_most_trans.
Qed.

Lemma reads_only_mono {A} (n k : nat) (m : M A) :
  n ≤ k → reads_only n m → reads_only k m.
Proof. intros Hle Hm w. destruct (Hm w). split; [done|]. by eapply at_most_mono. Qed.

Variable E : Env.

Lemma reads_only_http (st : Stage) (rq : Request) : reads_only 1 (http E st rq).
Proof. intros w. split; [done|]. by eapply at_most_one. Qed.

Lemma reads_only_head (st : Stage) (u : string) :
  reads_only 1 (head_is_pdf E st u).
Proof.
  unfold head_is_pdf. apply (reads_only_bind 1 0); [apply reads_only_http|].
  intros [h|e]; [|apply reads_only_ret].
  destruct (Py.contains "pdf" (ctype_of h)); apply reads_only_ret.
Qed.

(** *** The validator *)

Lemma write_rest_frame (out : string) (evs : list StreamEv) :
  ∀ w, files (write_rest E out evs w).2 = files w
       ∨ ∃ c, files (write_rest E out evs w).2 = <[out := c]> (files w).
Proof.
  induction evs as [|[data|e] evs IH]; intros w; cbn; [by left| |by left].
  destruct (is_empty data); [apply IH|].
  unfold mbind, M_bind, bind, write.
  destruct (write_error E out _ _); cbn; [by left|].
  right. destruct (IH {| trace := trace w;
                         files := <[out := default [] (files w !! out) ++ data]>
                                    (files w) |}) as [->|[c ->]]; cbn; [eauto|].
  exists c. by rewrite insert_insert_eq.
Qed.

Lemma write_rest_saved (out : string) (evs : list StreamEv) :
  ∀ w c, files w !! out = Some c →
         (write_rest E out evs w).1 = None →
         files (write_rest E out evs w).2 = <[out := c ++ stream_data evs]> (files w)
         ∧ Forall is_chunk evs.
Proof.
  induction evs as [|[data|e] evs IH]; intros w c Hc; cbn; [| |done].
  - intros _. rewrite app_nil_r, insert_id by done. by split.
  - destruct data as [|b data]; cbn [is_empty].
    + intros H. destruct (IH w c Hc H) as [-> ?]. split; [done|by constructor].
    + unfold mbind, M_bind, bind, write. rewrite Hc. cbn.
      destruct (write_error E out c (b :: data)); cbn; [done|].
      intros H. eapply IH in H as [-> ?]; [|cbn; apply lookup_insert_eq].
      cbn. rewrite insert_insert_eq, <- app_assoc. split; [done|by constructor].
Qed.

Lemma validate_frame (st : Stage) (u out : string) (w : World) :
  files (download_stream_and_validate E st u out w).2 = files w
  ∨ ∃ c, files (download_stream_and_validate E st u out w).2
         = <[out := c]> (files w).
Proof.
  destruct (net E (snd <$> trace w) (stream_req u)) as [r|e] eqn:Hnet.
  2: { left. by rewrite (validate_request_fails E st u out w e Hnet). }
  destruct (raise_for_status r) as [e|] eqn:Hst.
  { left. by rewrite (validate_status_fails E st u out w r e Hnet Hst). }
  rewrite (validate_answered E st u out w r (conj Hnet Hst)). cbn zeta.
  destruct (stream r) as [|[first|e] rest]; [by left| |by left].
  destruct (looks_like_pdf _ first); [|by left].
  destruct (open_error E out); [by left|].
  destruct (write_error E out [] first); [right; by exists []|].
  right. cbn [trace files].
  match goal with
  | |- context [write_rest E out rest ?w2] =>
      destruct (write_rest_frame out rest w2) as [Hf|[c Hf]]
  end.
  - exists first. destruct (write_rest E out rest _).1;
      cbn; rewrite Hf; cbn; by rewrite insert_insert_eq.
  - exists c. destruct (write_rest E out rest _).1;
      cbn; rewrite Hf; cbn; by rewrite !insert_insert_eq.
Qed.

Lemma validate_saved (st : Stage) (u out : string) (w : World) :
  (download_stream_and_validate E st u out w).1.1 = true →
  ∃ r, answered E w u r ∧ Forall is_chunk (stream r) ∧ stream r ≠ []
       ∧ (download_stream_and_validate E st u out w).1 = (true, None)
       ∧ files (download_stream_and_validate E st u out w).2
         = <[out := stream_data (stream r)]> (files w).
Proof.
  destruct (net E (snd <$> trace w) (stream_req u)) as [r|e] eqn:Hnet.
  2: { rewrite (validate_request_fails E st u out w e Hnet). by destruct e. }
  destruct (raise_for_status r) as [e|] eqn:Hst.
  { rewrite (validate_status_fails E st u out w r e Hnet Hst). by destruct e. }
  rewrite (validate_answered E st u out w r (conj Hnet Hst)). cbn zeta.
  intros H. exists r. split; [done|]. revert H.
  destruct (stream r) as [|[first|e] rest]; [done| |by destruct e].
  destruct (looks_like_pdf _ first); [|done].
  destruct (open_error E out) as [e|]; [by destruct e|].
  destruct (write_error E out [] first) as [e|]; [by destruct e|].
  cbn [trace files].
  match goal with
  | |- context [write_rest E out rest ?w2] =>
      pose proof (write_rest_saved out rest w2 first) as Hs
  end.
  destruct (write_rest E out rest _).1 as [e|] eqn:Hw; [by destruct e|].
  intros _. destruct Hs as [Hs Hall]; [apply lookup_insert_eq|done|].
  split_and!; [by constructor|done|done|].
  cbn. rewrite Hs. cbn. by rewrite !insert_insert_eq.
Qed.

(** What one run of the validator does to the world. *)
Lemma validate_effect (st : Stage) (u out : string) (w : World) :
  let res := download_stream_and_validate E st u out w in
  only_touches out w res.2
  ∧ trace res.2 = trace w ++ [(st, stream_req u)]
  ∧ (res.1.1 = true → is_Some (files res.2 !! out)).
Proof.
  cbv zeta. split_and!.
  - destruct (validate_frame st u out w) as [H|[c H]].
    + by apply only_touches_same.
    + by eapply only_touches_insert.
  - apply validate_trace.
  - intros (r & _ & _ & _ & _ & H)%validate_saved. rewrite H.
    rewrite lookup_insert_eq. eauto.
Qed.

End EffectFacts.

Section ValidatorEffects.
Import Web Html Lib Effects Validator.

(** X5.  When the validator reports success, the request was answered
    without an error status, no read failed, and the destination file
    holds exactly the bytes of the stream, the first chunk and all that
    followed, whatever it held before; the reason is then [None]. *)
Theorem validator_success_saves_stream (E : Env) (st : Stage) (u out : string)
    (w : World) :
  let res := download_stream_and_validate E st u out w in
  res.1.1 = true →
  ∃ r, answered E w u r
       ∧ Forall is_chunk (stream r) ∧ stream r ≠ []
       ∧ res.1 = (true, None)
       ∧ files res.2 = <[out := stream_data (stream r)]> (files w).
Proof. apply validate_saved. Qed.

Lemma validator_success_saves_stream_witness :
  let u := "https://host.example/download?id=7" in
  let w := {| trace := [];
              files := {[ "out/7.pdf" := list_byte_of_string "old" ]} |} in
  let res := download_stream_and_validate pdf_env validation u "out/7.pdf" w in
  res.1.1 = true
  ∧ ∃ r, answered pdf_env w u r
         ∧ Forall is_chunk (stream r) ∧ stream r ≠ []
         ∧ res.1 = (true, None)
         ∧ files res.2 = <["out/7.pdf" := stream_data (stream r)]> (files w).
Proof.
  split; [reflexivity|].
  apply (validator_success_saves_stream pdf_env validation
           "https://host.example/download?id=7" "out/7.pdf").
  reflexivity.
Defined.

(** X6.  One run of the validator issues exactly one request, the
    streamed GET of the URL, changes no file but the destination, and
    removes no file. *)
Theorem validator_touches_only_destination (E : Env) (st : Stage)
    (u out : string) (w : World) :
  let res := download_stream_and_validate E st u out w in
  trace res.2 = trace w ++ [(st, stream_req u)]
  ∧ only_touches out w res.2.
Proof.
  cbv zeta. destruct (validate_effect E st u out w) as (? & ? & _). done.
Qed.

End ValidatorEffects.

Section ResolverEffects.
Import Web Html Lib Effects.
Variable E : Env.

Lemma reads_only_unpaywall (doi : string) (email : option string) :
  reads_only 1 (Csv.unpaywall_pdf_for_doi E doi email).
Proof.
  unfold Csv.unpaywall_pdf_for_doi.
  destruct (negb _ || negb _); [apply reads_only_ret|].
  apply (reads_only_bind 1 0); [apply reads_only_http|].
  intros [r|e]; repeat case_match; apply reads_only_ret.
Qed.

Lemma reads_only_negotiation (doi : string) :
  reads_only 1 (Csv.try_doi_content_negotiation E doi).
Proof.
  unfold Csv.try_doi_content_negotiation.
  destruct (negb _); [apply reads_only_ret|].
  apply (reads_only_bind 1 0); [apply reads_only_http|].
  intros [r|e]; repeat case_match; apply reads_only_ret.
Qed.

Lemma reads_only_probe (cs : list string) :
  reads_only (length cs) (Csv.probe_candidates E cs).
Proof.
  induction cs as [|c cs IH]; [apply reads_only_ret|].
  cbn [Csv.probe_candidates].
  apply (reads_only_bind 1 (length cs)); [apply reads_only_head|].
  intros hpdf. destruct (Py.truthy_opt hpdf); [apply reads_only_ret|apply IH].
Qed.

Lemma reads_only_scrape_candidate (c : string) :
  reads_only 2 (Csv.scrape_candidate E c).
Proof.
  unfold Csv.scrape_candidate.
  apply (reads_only_bind 1 1); [apply reads_only_http|].
  intros [r|e]; [|apply reads_only_ret].
  destruct (_ || _); [apply reads_only_ret|].
  destruct (extract_pdf_from_html _ _ _ _) as [p|]; [|apply reads_only_ret].
  destruct (Py.truthy_opt p); [|apply reads_only_ret].
  apply (reads_only_bind 1 0); [apply reads_only_head|].
  intros v. apply reads_only_ret.
Qed.

Lemma reads_only_scrape (cs : list string) :
  reads_only (2 * length cs) (Csv.scrape_candidates E cs).
Proof.
  induction cs as [|c cs IH]; [apply reads_only_ret|].
  cbn [Csv.scrape_candidates].
  apply (reads_only_mono (2 + 2 * length cs)); [cbn; lia|].
  apply reads_only_bind; [apply reads_only_scrape_candidate|].
  intros [result|]; [apply reads_only_ret|apply IH].
Qed.

Lemma candidates_length (row : Csv.Row) : length (Csv.candidates row) ≤ 5.
Proof.
  unfold Csv.candidates. cbn [omap list_omap].
  repeat case_match; cbn; lia.
Qed.

Lemma reads_only_resolve (row : Csv.Row) (email : option string) :
  reads_only (2 + 3 * length (Csv.candidates row))
    (Csv.resolve_pdf_url E row email).
Proof.
  unfold Csv.resolve_pdf_url. cbv zeta.
  destruct (Py.truthy_opt (py_or _ None)); [apply reads_only_ret|].
  destruct (Csv.arxiv_construct row); [apply reads_only_ret|].
  set (n := length (Csv.candidates row)).
  apply (reads_only_mono (1 + (1 + (n + (2 * n + 0))))); [lia|].
  apply reads_only_bind.
  { destruct (_ && _); [apply reads_only_unpaywall|apply reads_only_ret]. }
  intros up. destruct (Py.truthy_opt up); [apply reads_only_ret|].
  apply reads_only_bind.
  { destruct (_ && _); [apply reads_only_negotiation|apply reads_only_ret]. }
  intros dn. destruct (Py.truthy_opt dn); [apply reads_only_ret|].
  apply reads_only_bind; [apply reads_only_probe|].
  intros hpdf. destruct (Py.truthy_opt hpdf); [apply reads_only_ret|].
  apply reads_only_bind; [apply reads_only_scrape|].
  intros [result|]; apply reads_only_ret.
Qed.

Lemma reads_only_try_resolve (candidate_url doi email : option string) :
  reads_only 5 (Scraper.try_resolve_pdf_url E candidate_url doi email).
Proof.
  unfold Scraper.try_resolve_pdf_url.
  apply (reads_only_bind 1 4).
  { destruct (_ && _); [|apply reads_only_ret].
    unfold Scraper.unpaywall_pdf_for_doi.
    destruct (negb _ || negb _); [apply reads_only_ret|].
    apply (reads_only_bind 1 0); [apply reads_only_http|].
    intros [r|e]; repeat case_match; apply reads_only_ret. }
  intros pdf. destruct (Py.truthy_opt pdf); [apply reads_only_ret|].
  apply (reads_only_bind 1 3).
  { destruct (Scraper.is_doi_url _); [|apply reads_only_ret].
    unfold Scraper.negotiate.
    apply (reads_only_bind 1 0); [apply reads_only_http|].
    intros [r|e]; repeat case_match; apply reads_only_ret. }
  intros [final|]; [apply reads_only_ret|].
  destruct (negb _); [apply reads_only_ret|].
  apply (reads_only_bind 1 2).
  { unfold Scraper.head_check.
    apply (reads_only_bind 1 0); [apply reads_only_http|].
    intros [r|e]; repeat case_match; apply reads_only_ret. }
  intros [u|]; [apply reads_only_ret|].
  unfold Scraper.landing.
  apply (reads_only_bind 1 1); [apply reads_only_http|].
  intros [r|e]; [|apply reads_only_ret].
  destruct (raise_for_status r); [apply reads_only_ret|].
  destruct (_ || _); [apply reads_only_ret|].
  destruct (extract_pdf_from_html _ _ _ _) as [p|]; [|apply reads_only_ret].
  destruct (Py.truthy_opt p); [|apply reads_only_ret].
  apply (reads_only_bind 1 0); [apply reads_only_http|].
  intros [r2|e]; repeat case_match; apply reads_only_ret.
Qed.

End ResolverEffects.

Section ResolverTheorems.
Import Web Html Lib Effects.

(** X7.  [resolve_pdf_url] writes no file, and issues at most two
    requests and three per candidate URL of the row: seventeen at
    most, since a row has no more than five candidates. *)
Theorem resolver_reads_only (E : Env) (row : Csv.Row) (email : option string)
    (w : World) :
  let res := Csv.resolve_pdf_url E row email w in
  files res.2 = files w
  ∧ length (Csv.candidates row) ≤ 5
  ∧ ∃ evs, trace res.2 = trace w ++ evs
           ∧ length evs ≤ 2 + 3 * length (Csv.candidates row)
           ∧ length evs ≤ 17.
Proof.
  cbv zeta. destruct (reads_only_resolve E row email w) as (Hf & evs & Ht & Hl).
  pose proof (candidates_length row).
  split_and!; [done..|]. exists evs. split_and!; [done..|lia].
Qed.

(** X8.  [try_resolve_pdf_url] of [scraper.py] writes no file and
    issues at most five requests. *)
Theorem scraper_resolver_reads_only (E : Env)
    (candidate_url doi email : option string) (w : World) :
  let res := Scraper.try_resolve_pdf_url E candidate_url doi email w in
  files res.2 = files w
  ∧ ∃ evs, trace res.2 = trace w ++ evs ∧ length evs ≤ 5.
Proof. apply reads_only_try_resolve. Qed.

End ResolverTheorems.

Section ValidatorOutcomes.
Import Web Html Lib Effects Validator.

(** X24.  The validator raises nothing and always gives a reason with
    a failure: its result is success without reason, or failure with
    one.  A request that raises is reported by the text of the
    exception, an answer with a status from 400 to 599 as http_error_
    followed by the status; in both cases no file is touched. *)
Theorem validator_outcomes (E : Env) (st : Stage) (u out : string) (w : World) :
  let res := download_stream_and_validate E st u out w in
  (res.1 = (true, None) ∨ ∃ reason, res.1 = (false, Some reason))
  ∧ (∀ r, net E (snd <$> trace w) (stream_req u) = Ok r →
          400 ≤ status_code r < 600 →
          res.1 = (false, Some ("http_error_" +:+ pretty (status_code r)))
          ∧ files res.2 = files w)
  ∧ (∀ e, net E (snd <$> trace w) (stream_req u) = Raise e →
          res.1 = handler e ∧ files res.2 = files w).
Proof.
  cbv zeta.
  assert (Hhandler : ∀ e, ∃ reason, handler e = (false, Some reason)).
  { intros [c|m]; eexists; reflexivity. }
  split_and!.
  - destruct (download_stream_and_validate E st u out w).1.1 eqn:Hok.
    + left. by apply validate_saved in Hok as (_ & _ & _ & _ & ? & _).
    + right. revert Hok.
      destruct (net E (snd <$> trace w) (stream_req u)) as [r|e] eqn:Hnet.
      2:{ rewrite (validate_request_fails E st u out w e Hnet). intros _.
          apply Hhandler. }
      destruct (raise_for_status r) as [e|] eqn:Hst.
      { rewrite (validate_status_fails E st u out w r e Hnet Hst). intros _.
        apply Hhandler. }
      rewrite (validate_answered E st u out w r (conj Hnet Hst)). cbn zeta.
      destruct (stream r) as [|[first|e] rest];
        [by eexists| |intros _; apply Hhandler].
      destruct (looks_like_pdf _ first); [|by eexists].
      destruct (open_error E out) as [e|]; [intros _; apply Hhandler|].
      destruct (write_error E out [] first) as [e|]; [intros _; apply Hhandler|].
      destruct (write_rest E out rest _).1 as [e|]; [intros _; apply Hhandler|].
      done.
  - intros r Hnet [Hlo Hhi].
    assert (Hst : raise_for_status r = Some (HTTPError (status_code r))).
    { unfold raise_for_status.
      apply Nat.leb_le in Hlo. apply Nat.ltb_lt in Hhi. by rewrite Hlo, Hhi. }
    by rewrite (validate_status_fails E st u out w r _ Hnet Hst).
  - intros e Hnet. by rewrite (validate_request_fails E st u out w e Hnet).
Qed.

Lemma validator_outcomes_witness :
  let res := download_stream_and_validate Samples.gone_env validation
               "https://host.example/gone.pdf" "out/x.pdf" PyLib.empty_world in
  res.1 = (false, Some "http_error_404") ∧ files res.2 = ∅.
Proof.
  cbv zeta.
  destruct (validator_outcomes Samples.gone_env validation
              "https://host.example/gone.pdf" "out/x.pdf" PyLib.empty_world)
    as (_ & H & _).
  apply (H Samples.gone_response); [reflexivity|cbn; lia].
Defined.

End ValidatorOutcomes.

Section SegmentFacts.

Lemma contains_slash_cons (c : ascii) (s : string) :
  Py.contains "/" (String c s) = Ascii.eqb c "/" || Py.contains "/" s.
Proof.
  cbn [Py.contains]. f_equal.
  change (String.prefix "/" (String c s))
    with (if ascii_dec "/" c then String.prefix "" s else false).
  destruct (ascii_dec "/" c) as [<-|Hne].
  - by destruct s.
  - destruct (Ascii.eqb_spec c "/"); [congruence|done].
Qed.

Lemma contains_slash_app (a rest : string) :
  Py.contains "/" (a +:+ String "/" rest) = true.
Proof.
  induction a as [|c a IH].
  - change ("" +:+ String "/" rest) with (String "/" rest).
    by rewrite contains_slash_cons.
  - rewrite append_cons, contains_slash_cons, IH. apply orb_true_r.
Qed.

Lemma last_segment_no_slash (s : string) :
  Py.contains "/" (PySeq.last_segment s) = false.
Proof.
  induction s as [|c s IH]; [done|]. cbn [PySeq.last_segment].
  destruct (Py.contains "/" s) eqn:Hs; [done|].
  destruct (Ascii.eqb c "/") eqn:Hc; [done|].
  by rewrite contains_slash_cons, Hc, Hs.
Qed.

Lemma last_segment_app (a name : string) :
  Py.contains "/" name = false →
  PySeq.last_segment (a +:+ String "/" name) = name.
Proof.
  intros Hname. induction a as [|c a IH].
  - change ("" +:+ String "/" name) with (String "/" name).
    cbn [PySeq.last_segment]. by rewrite Hname.
  - rewrite append_cons. cbn [PySeq.last_segment].
    by rewrite contains_slash_app.
Qed.

(** The last segment is what follows the last slash. *)
Lemma last_segment_spec (s : string) :
  Py.contains "/" s = true →
  ∃ pre, s = pre +:+ String "/" (PySeq.last_segment s).
Proof.
  induction s as [|c s IH]; [done|].
  rewrite contains_slash_cons. cbn [PySeq.last_segment].
  destruct (Py.contains "/" s) eqn:Hs.
  - intros _. destruct (IH eq_refl) as [pre Hpre].
    exists (String c pre). by rewrite append_cons, <- Hpre.
  - rewrite orb_false_r. intros Hc. rewrite Hc.
    apply Ascii.eqb_eq in Hc as ->. by exists "".
Qed.

End SegmentFacts.

(* ===================================================================== *)
(** ** What a processed row reports *)
(* ===================================================================== *)

Section RowFacts.
Import Web Html Lib Effects Csv.
Variable E : Env.

Lemma error_text_truthy (method reason : string) :
  method +:+ "|" +:+ reason ≠ "".
Proof.
  intros H. apply (f_equal String.length) in H.
  rewrite !length_append in H. cbn in H. lia.
Qed.

Lemma truthy_opt_str (o : option string) :
  Py.truthy_opt o = true → Py.truthy (Py.opt_str o) = true.
Proof. by intros (s & -> & ?)%truthy_opt_Some. Qed.

(** [os.makedirs] looks at one path and leaves the world as it is. *)
Lemma makedirs_files (path : string) (w w' : World) :
  files w' !! path = files w !! path →
  (makedirs E path w').1 = (makedirs E path w).1.
Proof. unfold makedirs. cbn. by intros ->. Qed.

Lemma append_cancel_l (a x y : string) : a +:+ x = a +:+ y → x = y.
Proof.
  induction a as [|c a IH]; [done|]. rewrite !append_cons. intros [= H]. auto.
Qed.

(** The directory of a row is the output file of no row. *)
Lemma save_dir_not_out_file (out_dir : string) (row row' : Row) :
  save_dir_for out_dir row ≠ out_file_for out_dir row'.
Proof.
  destruct (row_paths_shape out_dir row) as (folder & _ & [_ Hf] & _ & Hd & _).
  destruct (row_paths_shape out_dir row') as (folder' & name' & _ & _ & Hd' & Ho').
  rewrite Ho', Hd', Hd, !append_assoc. intros H.
  do 2 apply append_cancel_l in H.
  apply (all_chars_no_char Names.harmless "/") in Hf; [|done].
  change (String "/" "") with "/" in Hf.
  rewrite H in Hf.
  change ("/" +:+ name' +:+ ".pdf") with (String "/" (name' +:+ ".pdf")) in Hf.
  by rewrite contains_slash_app in Hf.
Qed.

(** What follows the creation of the directory. *)
Lemma save_resolved_effect (used method out : string) (w : World) :
  Py.truthy used = true →
  out ≠ "" →
  let res := save_resolved E used method out w in
  let saved_path := res.1.1.2 in
  let error := res.1.2 in
  only_touches out w res.2
  ∧ at_most 3 w res.2
  ∧ (saved_path = "" ∨ saved_path = out)
  ∧ (saved_path = "" ↔ error ≠ "")
  ∧ (saved_path ≠ "" →
     is_Some (files res.2 !! saved_path) ∧ Py.truthy res.1.1.1 = true).
Proof.
  intros Hused Hout. cbv zeta. unfold save_resolved, mbind, M_bind, bind.
  destruct (validate_effect E validation used out w) as (H12 & Ht2 & Hok).
  destruct (download_stream_and_validate E validation used out w)
    as [[ok err] w2].
  cbn [fst snd] in *.
  assert (Hn2 : at_most 1 w w2) by (by eapply at_most_one).
  (* the row reports a failure: nothing saved, the error recorded *)
  assert (Hfail : ∀ used' w',
            only_touches out w w' → at_most 3 w w' →
            let report := (used', "", method +:+ "|" +:+ default "None" err) in
            only_touches out w w' ∧ at_most 3 w w'
            ∧ (report.1.2 = "" ∨ report.1.2 = out)
            ∧ (report.1.2 = "" ↔ report.2 ≠ "")
            ∧ (report.1.2 ≠ "" → is_Some (files w' !! report.1.2)
                                 ∧ Py.truthy report.1.1 = true)).
  { intros used' w' ? ?. cbn. split_and!; [done|done|by left| |done].
    split; [|done]. intros _. apply error_text_truthy. }
  destruct ok.
  { cbn. split_and!; [done|by eapply at_most_mono; [|done]; lia|by right| |].
    - split; [done|]. by intros [].
    - intros _. split; [by apply Hok|done]. }
  destruct (repair_eligible method).
  2:{ cbn. apply Hfail; [done|]. by eapply at_most_mono; [|done]; lia. }
  unfold http.
  set (w3 := {| trace := trace w2 ++ [(repair, get_req used)];
                files := files w2 |}).
  assert (H03 : only_touches out w w3).
  { eapply only_touches_trans; [done|]. by apply only_touches_same. }
  assert (Hn3 : at_most 2 w w3).
  { apply (at_most_trans 1 1 w w2 w3); [done|by eapply at_most_one]. }
  assert (Hn3' : at_most 3 w w3) by (by eapply at_most_mono; [|done]; lia).
  destruct (net E _ _) as [r|e]; [|by apply Hfail].
  destruct (extract_pdf_from_html _ _ _ _) as [cand|e]; [|by apply Hfail].
  destruct (Py.truthy_opt cand) eqn:Hcand; [|by apply Hfail].
  apply truthy_opt_str in Hcand.
  destruct (validate_effect E revalidation (Py.opt_str cand) out w3)
    as (H34 & Ht4 & Hok4).
  destruct (download_stream_and_validate E revalidation (Py.opt_str cand) out w3)
    as [[ok2 err2] w4].
  cbn [fst snd] in *.
  assert (H04 : only_touches out w w4) by by eapply only_touches_trans.
  assert (Hn4 : at_most 3 w w4).
  { apply (at_most_trans 2 1 w w3 w4); [done|by eapply at_most_one]. }
  destruct ok2; [|by apply Hfail].
  cbn. split_and!; [done|done|by right| |].
  - split; [done|]. by intros [].
  - intros _. split; [by apply Hok4|done].
Qed.

(** What [process_row] does to the world and what it reports. *)
Lemma process_row_effect (out_dir : string) (email : option string)
    (row : Row) (w : World) :
  let res := process_row E out_dir email row w in
  let resolution := resolve_pdf_url E (normalize_row row) email w in
  let out_file := out_file_for out_dir row in
  only_touches out_file w res.2
  ∧ at_most 20 w res.2
  ∧ (res.1 = None
     ↔ Py.truthy_opt resolution.1.1 = true
       ∧ (makedirs E (save_dir_for out_dir row) w).1 = true)
  ∧ (res.1 = None → res.2 = resolution.2 ∧ files res.2 = files w)
  ∧ ∀ used saved error,
      res.1 = Some (used, saved, error) →
      (saved = "" ∨ saved = out_file)
      ∧ (saved = "" ↔ error ≠ "")
      ∧ (saved ≠ "" →
         is_Some (files res.2 !! saved) ∧ Py.truthy used = true).
Proof.
  cbv zeta. unfold process_row, mbind, M_bind, bind.
  destruct (reads_only_resolve E (normalize_row row) email w) as [Hf1 Ht1].
  apply (at_most_mono _ 17) in Ht1;
    [|pose proof (candidates_length (normalize_row row)); lia].
  destruct (resolve_pdf_url E (normalize_row row) email w)
    as [[resolved method] w1].
  cbn [fst snd] in *.
  set (out := out_file_for out_dir row).
  assert (Hout : out ≠ "") by apply out_file_truthy.
  assert (H01 : only_touches out w w1) by by apply only_touches_same.
  assert (Hmk : (makedirs E (save_dir_for out_dir row) w1).1
                = (makedirs E (save_dir_for out_dir row) w).1).
  { apply makedirs_files. by rewrite Hf1. }
  destruct (Py.truthy_opt resolved) eqn:Hres.
  2:{ cbn. split_and!; [done|by eapply at_most_mono; [|done]; lia| |done|].
      - split; [done|]. by intros [? _].
      - intros used saved error [= <- <- <-]. split_and!; [by left| |done].
        split; [|done]. intros _. unfold Py.or_else. by destruct method. }
  apply truthy_opt_str in Hres.
  assert (Hfr : (makedirs E (save_dir_for out_dir row) w1).2 = w1) by done.
  destruct (makedirs E (save_dir_for out_dir row) w1) as [failed w1'].
  cbn [fst snd] in *. subst w1'.
  destruct failed.
  { cbn. split_and!; [done|by eapply at_most_mono; [|done]; lia|done|done|done]. }
  destruct (save_resolved_effect (Py.opt_str resolved) method out w1 Hres Hout)
    as (Ha & Hn & Hs & Herr & Hfile).
  destruct (save_resolved E (Py.opt_str resolved) method out w1)
    as [[[used saved] error] w2].
  cbn [fst snd] in *. cbn [mret M_ret ret fst snd].
  split_and!.
  - by eapply only_touches_trans.
  - by apply (at_most_trans 17 3 w w1 w2).
  - split; [done|]. intros [_ H]. congruence.
  - done.
  - by intros ? ? ? [= <- <- <-].
Qed.

(** The same for [process_work] of [scraper.py]. *)
Lemma process_work_effect (out_dir : string) (email : option string)
    (work : Scraper.Work) (w : World) :
  let res := Scraper.process_work E out_dir email work w in
  let filepath := Scraper.filepath_for out_dir work in
  only_touches filepath w res.2
  ∧ at_most 6 w res.2
  ∧ (∀ used saved_file error,
       res.1 = Ok (used, saved_file, error) →
       (saved_file = "" ∨ saved_file = filepath)
       ∧ (error = "" → saved_file = filepath)
       ∧ (saved_file ≠ "" →
          error = "" ∧ is_Some (files res.2 !! saved_file)
          ∧ Py.truthy used = true)
       ∧ (used = "" → Scraper.named work = true))
  ∧ (∀ e, res.1 = Raise e →
       e = Scraper.not_subscriptable ∧ Scraper.named work = false
       ∧ files res.2 = files w)
  ∧ (Scraper.named work = true → ∃ report, res.1 = Ok report)
  ∧ (Py.truthy_opt (Scraper.candidate_of work) = false →
     Py.truthy_opt (Scraper.doi work) = false →
     res = (if Scraper.named work then Ok ("", "", "no_pdf_url_found")
            else Raise Scraper.not_subscriptable, w)).
Proof.
  cbv zeta. unfold Scraper.process_work, mbind, M_bind, bind.
  set (filepath := Scraper.filepath_for out_dir work).
  (* no URL: the message printed needs the name of the work *)
  assert (Hnone : ∀ w',
    files w' = files w → at_most 6 w w' →
    let res := ((if Scraper.named work then mret (Ok ("", "", "no_pdf_url_found"))
                 else mret (Raise Scraper.not_subscriptable))
                : M (res (string * string * string))) w' in
    only_touches filepath w res.2
    ∧ at_most 6 w res.2
    ∧ (∀ used saved_file error,
         res.1 = Ok (used, saved_file, error) →
         (saved_file = "" ∨ saved_file = filepath)
         ∧ (error = "" → saved_file = filepath)
         ∧ (saved_file ≠ "" →
            error = "" ∧ is_Some (files res.2 !! saved_file)
            ∧ Py.truthy used = true)
         ∧ (used = "" → Scraper.named work = true))
    ∧ (∀ e, res.1 = Raise e →
         e = Scraper.not_subscriptable ∧ Scraper.named work = false
         ∧ files res.2 = files w)
    ∧ (Scraper.named work = true → ∃ report, res.1 = Ok report)).
  { intros w' Hf Hn. cbv zeta. destruct (Scraper.named work); cbn.
    - split_and!; [by apply only_touches_same|done| |done|by eexists].
      intros ? ? ? [= <- <- <-]. split_and!; [by left|done..].
    - split_and!; [by apply only_touches_same|done|done| |done].
      by intros e [= <-]. }
  destruct (Py.truthy_opt (Scraper.candidate_of work)
            || Py.truthy_opt (Scraper.doi work)) eqn:Hany.
  2:{ destruct (Hnone w eq_refl (at_most_refl 6 w w eq_refl))
        as (? & ? & ? & ? & ?).
      split_and!; [done..|].
      intros _ _. cbn. by destruct (Scraper.named work). }
  apply orb_true_iff in Hany.
  assert (Hno : Py.truthy_opt (Scraper.candidate_of work) = false →
                Py.truthy_opt (Scraper.doi work) = false → False).
  { intros Hc Hd. rewrite Hc, Hd in Hany. by destruct Hany. }
  destruct (reads_only_try_resolve E (Scraper.candidate_of work)
              (Scraper.doi work) email w) as [Hf1 Ht1].
  destruct (Scraper.try_resolve_pdf_url E _ _ email w) as [pdf_url w1].
  cbn [fst snd] in *.
  assert (H01 : only_touches filepath w w1) by by apply only_touches_same.
  destruct (Py.truthy_opt pdf_url) eqn:Hres.
  2:{ destruct (Hnone w1 Hf1) as (? & ? & ? & ? & ?).
      { by eapply at_most_mono; [|done]; lia. }
      split_and!; [done..|].
      intros Hc Hd. by destruct (Hno Hc Hd). }
  apply truthy_opt_str in Hres.
  unfold Scraper.download_file_with_validation.
  destruct (validate_effect E validation (Py.opt_str pdf_url) filepath w1)
    as (H12 & Ht2 & Hok).
  destruct (download_stream_and_validate E validation (Py.opt_str pdf_url)
              filepath w1) as [[ok err] w2].
  cbn [fst snd] in *.
  assert (H02 : only_touches filepath w w2) by by eapply only_touches_trans.
  assert (Hn2 : at_most 6 w w2).
  { apply (at_most_trans 5 1 w w1 w2); [done|by eapply at_most_one]. }
  assert (Hused : Py.opt_str pdf_url = "" → Scraper.named work = true).
  { intros H. by rewrite H in Hres. }
  destruct ok; cbn.
  - split_and!; [done|done| |done|by eexists|].
    + intros ? ? ? [= <- <- <-]. split_and!; [by right|done| |done].
      intros _. split_and!; [done|by apply Hok|done].
    + intros Hc Hd. by destruct (Hno Hc Hd).
  - split_and!; [done|done| |done|by eexists|].
    + intros ? ? ? [= <- <- <-]. split_and!; [by left| |done|done].
      destruct (Py.truthy_opt err) eqn:He; [|done].
      apply truthy_opt_str in He. by destruct (Py.opt_str err).
    + intros Hc Hd. by destruct (Hno Hc Hd).
Qed.

(** The loop over the rows. *)
Lemma process_rows_effect (out_dir : string) (email : option string)
    (rows : list Row) :
  ∀ w,
    let res := Run.process_rows E out_dir email rows w in
    (∀ p, (∀ row, row ∈ rows → p ≠ out_file_for out_dir row) →
          files res.2 !! p = files w !! p)
    ∧ (∀ p, is_Some (files w !! p) → is_Some (files res.2 !! p))
    ∧ at_most (20 * length rows) w res.2
    ∧ (∀ reports,
         res.1 = Some reports →
         length reports = length rows
         ∧ ∀ i used saved error,
             reports !! i = Some (used, saved, error) →
             ∃ row, rows !! i = Some row
                    ∧ (saved = "" ↔ error ≠ "")
                    ∧ (saved ≠ "" →
                       saved = out_file_for out_dir row
                       ∧ is_Some (files res.2 !! saved)))
    ∧ ((∀ row, row ∈ rows →
          (makedirs E (save_dir_for out_dir row) w).1 = false) →
       is_Some res.1).
Proof.
  induction rows as [|row rows IH]; intros w; cbv zeta.
  { cbn. split_and!; try done.
    - by apply at_most_refl.
    - by intros ? [= <-]. }
  cbn [Run.process_rows]. unfold mbind, M_bind, bind.
  destruct (process_row_effect out_dir email row w)
    as ([Ha Hb] & Hn & Hnone & _ & Hsome).
  destruct (process_row E out_dir email row w) as [[report|] w1].
  2:{ cbn [fst snd] in *. cbn [mret M_ret ret fst snd].
      split_and!.
      - intros p Hp. apply Ha, Hp, list_elem_of_here.
      - done.
      - apply (at_most_mono 20); [cbn [length]; lia|done].
      - done.
      - intros Hdirs. destruct Hnone as [Hnone _].
        destruct (Hnone eq_refl) as [_ Hmk].
        rewrite (Hdirs row) in Hmk; [done|apply list_elem_of_here]. }
  destruct report as [[used saved] error].
  cbn [fst snd] in *.
  destruct (Hsome used saved error eq_refl) as (Hsaved & Herr & Hfile).
  destruct (IH w1) as (Hother & Hkeep & Hn' & Hrep & Hdirs').
  destruct (Run.process_rows E out_dir email rows w1) as [rs w2].
  cbn [fst snd] in *. cbn [mret M_ret ret fst snd].
  split_and!.
  - intros p Hp. rewrite Hother, Ha; [done| |].
    + apply Hp. apply list_elem_of_here.
    + intros r Hr. apply Hp. by apply list_elem_of_further.
  - intros p Hp. by apply Hkeep, Hb.
  - apply (at_most_mono (20 + 20 * length rows)); [cbn [length]; lia|].
    by eapply at_most_trans.
  - intros reports (rs' & -> & ->)%fmap_Some.
    destruct (Hrep rs' eq_refl) as [Hlen Hrows].
    split; [by rewrite !length_cons, Hlen|].
    intros [|i] used' saved' error'; cbn.
    + intros [= <- <- <-]. exists row. split_and!; [done|done|].
      intros Hne. destruct Hsaved as [?|Heq]; [done|]. split; [done|].
      apply Hkeep. by apply Hfile.
    + apply Hrows.
  - intros Hdirs. apply fmap_is_Some, Hdirs'.
    intros row' Hrow'.
    rewrite <- (Hdirs row') by (by apply list_elem_of_further).
    apply makedirs_files, Ha, save_dir_not_out_file.
Qed.

Lemma selected_prefix (rows : list Row) (max_rows : option Z) :
  Run.selected rows max_rows `prefix_of` rows.
Proof.
  unfold Run.selected, PySeq.slice_to.
  destruct max_rows as [n|]; [|done].
  destruct (n =? 0)%Z; [done|].
  destruct (0 <=? n)%Z; apply prefix_take.
Qed.

End RowFacts.

Section RowTheorems.
Import Web Html Lib Effects Csv Scenarios.









End RowTheorems.

(* ===================================================================== *)
(** ** The open-access lookup and the fallback scan *)
(* ===================================================================== *)

Section LookupFacts.
Import Web Html Lib.

Lemma oa_first_sound (locs : list OALocation) (u : string) :
  oa_first locs = Some u →
  Py.truthy u = true
  ∧ ∃ loc, loc ∈ locs
           ∧ (url_for_pdf loc = Some u
              ∨ (oa_url loc = Some u
                 ∧ Py.endswith (Py.lower u) ".pdf" = true)).
Proof.
  induction locs as [|loc locs IH]; cbn; [done|].
  destruct (Py.truthy_opt (url_for_pdf loc)) eqn:Hp.
  { intros Hu. rewrite Hu in Hp. split; [done|].
    exists loc. split; [apply list_elem_of_here|by left]. }
  destruct (Py.truthy_opt (oa_url loc) && _) eqn:Hq.
  { intros Hu. rewrite Hu in Hq. cbn in Hq. apply andb_prop in Hq as [? ?].
    split; [done|]. exists loc. split; [apply list_elem_of_here|by right]. }
  intros (? & loc' & ? & ?)%IH. split; [done|].
  exists loc'. split; [by apply list_elem_of_further|done].
Qed.

Lemma oa_first_none (locs : list OALocation) :
  oa_first locs = None ↔
  Forall (λ loc, Py.truthy_opt (url_for_pdf loc) = false
                 ∧ Py.truthy_opt (oa_url loc)
                   && Py.endswith (Py.lower (Py.opt_str (oa_url loc))) ".pdf"
                   = false) locs.
Proof.
  induction locs as [|loc locs IH]; cbn; [done|].
  rewrite Forall_cons.
  destruct (Py.truthy_opt (url_for_pdf loc)) eqn:Hp.
  { split; [|by intros [[? _] _]].
    intros Hu. rewrite Hu in Hp. done. }
  destruct (Py.truthy_opt (oa_url loc) && _) eqn:Hq.
  { split; [|by intros [[_ ?] _]].
    intros Hu. rewrite Hu in Hq. done. }
  rewrite IH. split; [by intros ?|by intros [_ ?]].
Qed.

Lemma oa_pick_sound (j : OAJson) (u : string) :
  oa_pick j = Some u →
  Py.truthy u = true
  ∧ ((∃ bol, best_oa_location j = Some bol
             ∧ (url_for_pdf bol = Some u ∨ oa_url bol = Some u))
     ∨ ∃ loc, loc ∈ oa_locations j
              ∧ (url_for_pdf loc = Some u
                 ∨ (oa_url loc = Some u
                    ∧ Py.endswith (Py.lower u) ".pdf" = true))).
Proof.
  unfold oa_pick.
  destruct (best_oa_location j) as [bol|]; cbn.
  - unfold py_or.
    destruct (Py.truthy_opt (url_for_pdf bol)) eqn:Hp.
    { rewrite Hp. intros Hu. rewrite Hu in Hp. split; [done|].
      left. exists bol. split; [done|by left]. }
    destruct (Py.truthy_opt (oa_url bol)) eqn:Hq.
    { intros Hu. rewrite Hu in Hq. split; [done|].
      left. exists bol. split; [done|by right]. }
    intros (? & ?)%oa_first_sound. split; [done|by right].
  - intros (? & ?)%oa_first_sound. split; [done|by right].
Qed.

End LookupFacts.

Section LookupTheorems.
Import Web Html Lib Scenarios.

(** X12.  [unpaywall_pdf_for_doi] of [download_pdfs_from_csv.py].
    Without a DOI or without an e-mail address it asks nothing and
    finds nothing.  With both it issues exactly one request, to the
    API address followed by the quoted DOI, with the address as its
    only parameter.  A URL it returns is not empty; the request was
    then answered with status 200 and a JSON object, and the URL is
    held by the best location of the answer or by one of its
    locations, where a plain URL of a location (as against its PDF URL)
    counts only if it ends in .pdf, in any case of the letters.  The
    PDF URL of the best location, when not empty, is the one returned,
    and else the plain URL of the best location when not empty. *)
Theorem unpaywall_lookup (E : Env) (doi : string) (email : option string)
    (w : World) :
  let res := Csv.unpaywall_pdf_for_doi E doi email w in
  let rq := lookup_req ("https://api.unpaywall.org/v2/" +:+ quote_plus E doi)
              (Py.opt_str email) in
  (Py.truthy doi = false ∨ Py.truthy_opt email = false → res = (None, w))
  ∧ (Py.truthy doi = true → Py.truthy_opt email = true →
     trace res.2 = trace w ++ [(api_lookup, rq)] ∧ files res.2 = files w)
  ∧ (∀ u, res.1 = Some u →
       Py.truthy u = true
       ∧ ∃ r j,
           net E (snd <$> trace w) rq = Ok r
           ∧ status_code r = 200 ∧ json r = Some j
           ∧ ((∃ bol, best_oa_location j = Some bol
                      ∧ (url_for_pdf bol = Some u ∨ oa_url bol = Some u))
              ∨ ∃ loc, loc ∈ oa_locations j
                       ∧ (url_for_pdf loc = Some u
                          ∨ (oa_url loc = Some u
                             ∧ Py.endswith (Py.lower u) ".pdf" = true))))
  ∧ (∀ r j bol u,
       Py.truthy doi = true → Py.truthy_opt email = true →
       net E (snd <$> trace w) rq = Ok r →
       status_code r = 200 → json r = Some j →
       best_oa_location j = Some bol →
       Py.truthy u = true →
       (url_for_pdf bol = Some u
        ∨ (Py.truthy_opt (url_for_pdf bol) = false ∧ oa_url bol = Some u)) →
       res.1 = Some u).
Proof.
  cbv zeta. unfold Csv.unpaywall_pdf_for_doi, mbind, M_bind, bind, http.
  split_and!.
  - intros [-> | ->]; [done|]. by rewrite orb_true_r.
  - intros -> ->. cbn [negb orb].
    destruct (net E _ _) as [r|e]; [|done].
    destruct (status_code r =? 200); [|done]. by destruct (json r).
  - intros u.
    destruct (Py.truthy doi); [|done].
    destruct (Py.truthy_opt email); [|done]. cbn [negb orb].
    destruct (net E _ _) as [r|e] eqn:Hnet; [|done].
    destruct (Nat.eqb_spec (status_code r) 200) as [Hs|]; [|done].
    destruct (json r) as [j|] eqn:Hj; [|done]. cbn.
    intros (? & ?)%oa_pick_sound. split; [done|]. by exists r, j.
  - intros r j bol u -> -> Hnet Hs Hj Hb Hu Hor. cbn [negb orb].
    rewrite Hnet, Hs, Hj. cbn. unfold oa_pick, py_or. rewrite Hb.
    destruct Hor as [Hp|[Hp Hq]].
    + rewrite Hp. by destruct u.
    + rewrite Hp. cbv iota. rewrite Hq. by destruct u.
Qed.

Lemma unpaywall_lookup_witness :
  (Csv.unpaywall_pdf_for_doi repair_env "10.1000/xyz" (Some "me@example.org")
     PyLib.empty_world).1 = Some "https://x.example/y".
Proof.
  destruct (unpaywall_lookup repair_env "10.1000/xyz" (Some "me@example.org")
              PyLib.empty_world) as (_ & _ & _ & H).
  apply (H oa_answer
           {| best_oa_location :=
                Some {| url_for_pdf := Some "https://x.example/y";
                        oa_url := None |};
              oa_locations := [] |}
           {| url_for_pdf := Some "https://x.example/y"; oa_url := None |});
    try reflexivity.
  by left.
Defined.

End LookupTheorems.

Section ScanFacts.
Import Html.

Lemma lower_length_eq (a b : string) :
  Py.lower a = b → String.length a = String.length b.
Proof. intros <-. by rewrite length_lower. Qed.

Lemma lit_ci_app (p a s : string) :
  Py.lower a = p → lit_ci p (a +:+ s) = true.
Proof.
  intros H. unfold lit_ci.
  rewrite <- (lower_length_eq a p H), take_app_length, H.
  apply String.eqb_refl.
Qed.

Lemma rx_tail_complete (body ext post : string) :
  Py.all_chars url_char body = true →
  Py.lower ext = ".pdf" →
  is_Some (rx_tail (body +:+ ext +:+ post)).
Proof.
  intros Hall Hext. induction body as [|c body IH].
  - change ("" +:+ ext +:+ post) with (ext +:+ post).
    pose proof (lit_ci_app ".pdf" ext post Hext) as Hlit.
    destruct ext as [|e ext]; [done|]. rewrite append_cons in *.
    cbn [rx_tail]. rewrite Hlit.
    destruct (if url_char e then rx_tail (ext +:+ post) else None); eauto.
  - rewrite append_cons. cbn [rx_tail].
    cbn in Hall. apply andb_prop in Hall as [-> Hall].
    destruct (IH Hall) as [m ->]. eauto.
Qed.

Lemma rx_body_complete (body ext post : string) :
  Py.truthy body = true →
  Py.all_chars url_char body = true →
  Py.lower ext = ".pdf" →
  is_Some (rx_body (body +:+ ext +:+ post)).
Proof.
  intros Ht Hall Hext. destruct body as [|c body]; [done|].
  rewrite append_cons. cbn [rx_body].
  cbn in Hall. apply andb_prop in Hall as [-> Hall].
  destruct (rx_tail_complete body ext post Hall Hext) as [m ->]. by eexists.
Qed.

Lemma rx_at_complete (scheme body ext post : string) :
  Py.lower scheme = "http://" ∨ Py.lower scheme = "https://" →
  Py.truthy body = true →
  Py.all_chars url_char body = true →
  Py.lower ext = ".pdf" →
  is_Some (rx_at (scheme +:+ body +:+ ext +:+ post)).
Proof.
  intros Hs Ht Hall Hext.
  pose proof (rx_body_complete body ext post Ht Hall Hext) as [m Hm].
  unfold rx_at. destruct Hs as [Hs|Hs].
  - destruct (lit_ci "https://" _) eqn:Hlit.
    + (* the text goes on with an s after http *)
      apply lit_ci_take in Hlit.
      pose proof (lower_length_eq _ _ Hs) as Hlen.
      do 7 (destruct scheme as [|? scheme]; [done|]).
      destruct scheme; [|done]. cbn in Hs.
      rewrite !append_cons in Hlit. cbn in Hlit.
      congruence.
    + rewrite (lit_ci_app "http://" scheme _ Hs).
      rewrite <- (drop_app_length scheme (body +:+ ext +:+ post)) in Hm.
      rewrite (lower_length_eq _ _ Hs) in Hm. cbn [String.length] in Hm.
      rewrite Hm. by eexists.
  - rewrite (lit_ci_app "https://" scheme _ Hs).
    rewrite <- (drop_app_length scheme (body +:+ ext +:+ post)) in Hm.
    rewrite (lower_length_eq _ _ Hs) in Hm. cbn [String.length] in Hm.
    rewrite Hm. by eexists.
Qed.

(** The scan finds a match wherever the text holds one. *)
Lemma rx_search_finds (pre scheme body ext post : string) :
  Py.lower scheme = "http://" ∨ Py.lower scheme = "https://" →
  Py.truthy body = true →
  Py.all_chars url_char body = true →
  Py.lower ext = ".pdf" →
  is_Some (rx_search (pre +:+ scheme +:+ body +:+ ext +:+ post)).
Proof.
  intros Hs Ht Hall Hext. induction pre as [|c pre IH].
  - change ("" +:+ ?x) with x.
    destruct (rx_at_complete scheme body ext post Hs Ht Hall Hext) as [m Hm].
    destruct (scheme +:+ body +:+ ext +:+ post); cbn [rx_search];
      rewrite Hm; eauto.
  - rewrite append_cons. cbn [rx_search].
    destruct (rx_at _); [eauto|done].
Qed.

End ScanFacts.

Section FindFacts.
Import Web Html.

Lemma find_first {A} (p : A → bool) (l : list A) (x : A) :
  List.find p l = Some x
  ↔ ∃ pre post, l = pre ++ x :: post ∧ p x = true ∧ ∀ y, In y pre → p y = false.
Proof.
  induction l as [|a l IH]; cbn.
  { split; [done|]. intros (pre & post & H & _). by destruct pre. }
  destruct (p a) eqn:Ha.
  - split.
    + intros [= ->]. exists [], l. by split_and!.
    + intros (pre & post & H & Hx & Hpre). destruct pre as [|b pre].
      * by injection H as -> _.
      * injection H as -> _. rewrite (Hpre b) in Ha; [done|by left].
  - rewrite IH. split.
    + intros (pre & post & -> & Hx & Hpre). exists (a :: pre), post.
      split_and!; [done|done|]. intros y [<-|Hy]; auto.
    + intros (pre & post & H & Hx & Hpre). destruct pre as [|b pre].
      * injection H as -> _. congruence.
      * injection H as -> ->. exists pre, post. split_and!; [done|done|].
        intros y Hy. apply Hpre. by right.
Qed.

Lemma find_nothing {A} (p : A → bool) (l : list A) :
  List.find p l = None ↔ ∀ y, In y l → p y = false.
Proof.
  split; [apply find_none|].
  induction l as [|a l IH]; cbn; [done|]. intros H.
  rewrite (H a) by (by left). apply IH. intros y Hy. apply H. by right.
Qed.

Lemma find_filter {A} (p q : A → bool) (l : list A) :
  List.find p (List.filter q l) = List.find (λ x, q x && p x) l.
Proof.
  induction l as [|a l IH]; cbn; [done|].
  destruct (q a); cbn; [by destruct (p a)|done].
Qed.

Lemma find_map {A B} (p : B → bool) (f : A → B) (l : list A) :
  List.find p (List.map f l) = f <$> List.find (λ x, p (f x)) l.
Proof. induction l as [|a l IH]; cbn; [done|]. by destruct (p (f a)). Qed.

(** [find] with a test that decides [P] returns the first element
    with [P]. *)
Lemma find_first_of (p : Tag → bool) (P : Tag → Prop) (soup : list Tag) :
  (∀ t, p t = true ↔ P t) →
  (∀ t, List.find p soup = Some t ↔ first_of P soup t)
  ∧ (List.find p soup = None ↔ ∀ t, In t soup → ¬ P t).
Proof.
  intros Hp.
  assert (Hn : ∀ t, p t = false ↔ ¬ P t).
  { intros t. rewrite <- Hp. by destruct (p t). }
  split.
  - intros t. rewrite find_first. unfold first_of.
    split; intros (pre & post & ? & ? & Hpre); exists pre, post;
      (split_and!; [done|by apply Hp|]); intros y Hy; apply Hn; auto.
  - rewrite find_nothing. split; intros H t Ht; apply Hn; auto.
Qed.

Lemma first_of_unique (P : Tag → Prop) (soup : list Tag) (t t' : Tag) :
  first_of P soup t → first_of P soup t' → t = t'.
Proof.
  intros (pre & post & -> & Ht & Hpre) (pre' & post' & Heq & Ht' & Hpre').
  revert pre' Heq Hpre'. induction pre as [|a pre IH]; intros pre' Heq Hpre'.
  - destruct pre' as [|b pre']; [by injection Heq|].
    injection Heq as -> _. destruct (Hpre' b); [by left|done].
  - destruct pre' as [|b pre'].
    + injection Heq as <- _. destruct (Hpre a); [by left|done].
    + injection Heq as <- Heq. apply (IH (λ y Hy, Hpre y (or_intror Hy)) pre' Heq).
      intros y Hy. apply Hpre'. by right.
Qed.

Lemma first_of_in (P : Tag → Prop) (soup : list Tag) (t : Tag) :
  first_of P soup t → In t soup ∧ P t.
Proof.
  intros (pre & post & -> & Ht & _). split; [|done].
  apply in_or_app. right. by left.
Qed.

Lemma is_meta_test (key name : string) (t : Tag) :
  String.eqb (tag_name t) "meta"
  && match attr t key with
     | Some v => String.eqb v name
     | None => false
     end = true
  ↔ is_meta key name t.
Proof.
  unfold is_meta. rewrite andb_true_iff, String.eqb_eq.
  destruct (attr t key) as [v|]; [|by split; intros [? ?]].
  rewrite String.eqb_eq. split; intros [? ?]; split; congruence.
Qed.

(** [soup.find("meta", attrs={"name": name}) or
     soup.find("meta", attrs={"property": name})] *)
Lemma meta_tag_spec (soup : list Tag) (name : string) :
  (∀ t, meta_tag soup name = Some t ↔ meta_for soup name t)
  ∧ (meta_tag soup name = None → ∀ t, ¬ meta_for soup name t).
Proof.
  unfold meta_tag, find, meta_for.
  destruct (find_first_of _ _ soup (is_meta_test "name" name)) as [Hn Hn0].
  destruct (find_first_of _ _ soup (is_meta_test "property" name)) as [Hp Hp0].
  destruct (List.find _ soup) as [t0|] eqn:Hf.
  - pose proof (proj1 (Hn t0) eq_refl) as H0.
    split; [|done]. intros t. split.
    + intros [= <-]. by left.
    + intros [H|[Hno _]].
      * f_equal. by eapply first_of_unique.
      * apply first_of_in in H0 as [Hin Hm]. by destruct (Hno t0 Hin).
  - pose proof (proj1 Hn0 eq_refl) as Hno.
    split.
    + intros t. rewrite Hp. split; [by right|].
      intros [H|[_ H]]; [|done]. apply first_of_in in H as [Hin Hm].
      by destruct (Hno t Hin).
    + intros Hnone t [H|[_ H]].
      * apply first_of_in in H as [Hin Hm]. by destruct (Hno t Hin).
      * apply Hp in H. congruence.
Qed.

(** Step 1 returns the content of the element looked at for the first
    name for which that element has a content. *)
Lemma meta_step_spec (soup : list Tag) (names : list string) (c : string) :
  meta_step soup names = Some c
  ↔ ∃ pre name post t,
      names = pre ++ name :: post
      ∧ meta_for soup name t
      ∧ attr t "content" = Some c ∧ Py.truthy c = true
      ∧ ∀ name' t', In name' pre → meta_for soup name' t' →
                    Py.truthy_opt (attr t' "content") = false.
Proof.
  induction names as [|n names IH]; cbn [meta_step].
  { split; [done|]. intros (pre & ? & ? & ? & H & _). by destruct pre. }
  destruct (meta_tag_spec soup n) as [Hsome Hnone].
  assert (Hskip : (∀ t', meta_for soup n t' →
                         Py.truthy_opt (attr t' "content") = false) →
            meta_step soup names = Some c
            ↔ ∃ pre name post t,
                n :: names = pre ++ name :: post
                ∧ meta_for soup name t
                ∧ attr t "content" = Some c ∧ Py.truthy c = true
                ∧ ∀ name' t', In name' pre → meta_for soup name' t' →
                              Py.truthy_opt (attr t' "content") = false).
  { intros Hn. rewrite IH. split.
    - intros (pre & name & post & t & -> & Hm & Hc & Ht & Hpre).
      exists (n :: pre), name, post, t. split_and!; [done..|].
      intros name' t' [<-|Hin]; [apply Hn|by apply Hpre].
    - intros (pre & name & post & t & Heq & Hm & Hc & Ht & Hpre).
      destruct pre as [|n' pre].
      + injection Heq as <- _. apply Hn in Hm. rewrite Hc in Hm. cbn in Hm.
        congruence.
      + injection Heq as <- ->. exists pre, name, post, t.
        split_and!; [done..|]. intros name' t' Hin. apply Hpre. by right. }
  destruct (meta_tag soup n) as [tag|] eqn:Htag.
  - destruct (Py.truthy_opt (attr tag "content")) eqn:Hcontent.
    + split.
      * intros Hc. exists [], n, names, tag. rewrite Hc in Hcontent.
        split_and!; [done|by apply Hsome|done|done|done].
      * intros (pre & name & post & t & Heq & Hm & Hc & Ht & Hpre).
        destruct pre as [|n' pre].
        -- injection Heq as <- _. apply Hsome in Hm. congruence.
        -- injection Heq as <- _.
           rewrite (Hpre n tag) in Hcontent; [done|by left|by apply Hsome].
    + apply Hskip. intros t' Ht'%Hsome. congruence.
  - apply Hskip. intros t' Ht'. by destruct (Hnone eq_refl t').
Qed.

Lemma is_pdf_link_test (t : Tag) :
  (String.eqb (tag_name t) "link"
   && match attr t "href" with Some _ => true | None => false end)
  && Py.contains "pdf" (Py.lower (Py.opt_str (attr t "type"))) = true
  ↔ is_pdf_link t.
Proof.
  unfold is_pdf_link. rewrite !andb_true_iff, String.eqb_eq.
  destruct (attr t "href") as [h|].
  - split; [intros [[? _] ?]|intros (? & _ & ?)]; by eauto.
  - split; [by intros [[_ ?] _]|by intros (_ & [? ?] & _)].
Qed.

(** Step 2 returns the [href] of the first [link] of that kind. *)
Lemma link_step_spec (soup : list Tag) :
  (∀ h, link_step soup = Some h
        ↔ ∃ t, first_of is_pdf_link soup t ∧ attr t "href" = Some h)
  ∧ (link_step soup = None ↔ ∀ t, In t soup → ¬ is_pdf_link t).
Proof.
  unfold link_step, find_all_href. rewrite find_filter.
  destruct (find_first_of _ _ soup is_pdf_link_test) as [Hs Hn].
  destruct (List.find _ soup) as [link|] eqn:Hf; cbn beta iota.
  - pose proof (proj1 (Hs link) eq_refl) as Hlink.
    split.
    + intros h. split; [by exists link|].
      intros (t & Ht & Hh). by rewrite (first_of_unique _ _ _ _ Hlink Ht).
    + apply first_of_in in Hlink as [Hin Hl]. split.
      * intros Hnone. destruct Hl as (_ & [h Hh] & _).
        rewrite Hh in Hnone. discriminate.
      * intros Hno. by destruct (Hno link Hin).
  - split.
    + intros h. split; [done|]. intros (t & Ht%Hs & _). done.
    + split; [intros _; by apply Hn|done].
Qed.

Lemma is_pdf_anchor_test (t : Tag) :
  (String.eqb (tag_name t) "a"
   && match attr t "href" with Some _ => true | None => false end)
  && anchor_ok (Py.strip (Py.opt_str (attr t "href"))) = true
  ↔ is_pdf_anchor t.
Proof.
  unfold is_pdf_anchor. rewrite !andb_true_iff, String.eqb_eq.
  destruct (attr t "href") as [h|].
  - split; [intros [[? _] ?]; by eauto|].
    by intros (? & raw & [= <-] & ?).
  - split; [by intros [[_ ?] _]|by intros (_ & ? & ? & _)].
Qed.

(** Step 3 returns the stripped [href] of the first anchor of that
    kind. *)
Lemma anchor_step_spec (soup : list Tag) :
  (∀ h, anchor_step soup = Some h
        ↔ ∃ t raw, first_of is_pdf_anchor soup t
                   ∧ attr t "href" = Some raw ∧ h = Py.strip raw)
  ∧ (anchor_step soup = None ↔ ∀ t, In t soup → ¬ is_pdf_anchor t).
Proof.
  unfold anchor_step, find_all_href. rewrite find_map, find_filter.
  destruct (find_first_of _ _ soup is_pdf_anchor_test) as [Hs Hn].
  destruct (List.find _ soup) as [a|] eqn:Hf; cbn.
  - pose proof (proj1 (Hs a) eq_refl) as Ha.
    destruct (first_of_in _ _ _ Ha) as [Hin (_ & raw & Hraw & _)].
    split.
    + intros h. rewrite Hraw. cbn. split.
      * intros [= <-]. by exists a, raw.
      * intros (t & raw' & Ht & Hraw' & ->).
        rewrite <- (first_of_unique _ _ _ _ Ha Ht) in Hraw'.
        by assert (raw' = raw) as -> by congruence.
    + split; [done|]. intros Hno. destruct (Hno a Hin).
      by apply first_of_in in Ha as [_ ?].
  - split.
    + intros h. split; [done|]. intros (t & raw & Ht%Hs & _). done.
    + split; [intros _; by apply Hn|done].
Qed.

End FindFacts.

Section ScrapeOrder.
Import Web Html Lib Scenarios.

(** C5.  On a page that parses, the scrape returns what the first of
    four steps finds, in this order: the content of a meta element named
    or propertied citation_pdf_url or pdf_url; the href of a link
    element whose type, lower-cased, contains pdf; the stripped href of
    an anchor that, lower-cased, ends in .pdf or contains download
    together with pdf or fulltext; a match of the regular expression in
    the raw text, which is an http or https URL ending in .pdf (in any
    letter case) made of characters that are neither whitespace nor
    quotes nor angle brackets.  What the first three steps find is
    joined to the URL given with the page, the match of the fourth is
    returned as it is.  Each step finds what there is to find.  For
    each of the two names in turn, the first step looks at one meta
    element, the first with that name or else the first with that
    property, and returns its content unless that is missing or empty.
    The second step returns the href of the first link element that
    has one and whose type contains pdf, and finds nothing only when
    the page has no such element; the same holds of the third step and
    the anchors.  The scan finds a match whenever the text holds a URL
    of that form.  The scrape returns nothing exactly when all four
    steps find nothing, and on a page that does not parse.  The
    resolver gives the scrape the URL of the response, which is the URL
    after redirects.  The page of scenario C at
    https://pub.example/article/1 resolves to
    https://pub.example/f/paper.pdf. *)
Theorem landing_scrape_order :
  (∀ (parse : string → option (list Tag)) (urljoin : string → string → res string)
     (base html : string) (soup : list Tag),
     parse html = Some soup →
     let join h := match urljoin base h with
                   | Ok u => Ok (Some u)
                   | Raise e => Raise e
                   end in
     let result := extract_pdf_from_html parse urljoin base html in
     let names := ["citation_pdf_url"; "pdf_url"] in
     let meta := meta_step soup names in
     (∀ c, meta = Some c →
        result = join c
        ∧ ∃ tag name,
            In tag soup ∧ In name names
            ∧ tag_name tag = "meta"
            ∧ (attr tag "name" = Some name ∨ attr tag "property" = Some name)
            ∧ attr tag "content" = Some c ∧ Py.truthy c = true)
     ∧ (meta = None → ∀ h, link_step soup = Some h →
        result = join h
        ∧ ∃ link, In link soup ∧ tag_name link = "link"
                  ∧ attr link "href" = Some h
                  ∧ Py.contains "pdf" (Py.lower (Py.opt_str (attr link "type")))
                    = true)
     ∧ (meta = None → link_step soup = None → ∀ h, anchor_step soup = Some h →
        result = join h
        ∧ ∃ a raw, In a soup ∧ tag_name a = "a" ∧ attr a "href" = Some raw
                   ∧ h = Py.strip raw ∧ anchor_ok h = true)
     ∧ (meta = None → link_step soup = None → anchor_step soup = None →
        result = Ok (rx_search html)
        ∧ ∀ m, rx_search html = Some m →
               (∃ pre post, html = pre +:+ m +:+ post) ∧ pdf_url_shape m
               ∧ (Py.startswith (Py.lower m) "http://" = true
                  ∨ Py.startswith (Py.lower m) "https://" = true))
     ∧ (∀ c, meta = Some c
             ↔ ∃ pre name post t,
                 names = pre ++ name :: post
                 ∧ meta_for soup name t
                 ∧ attr t "content" = Some c ∧ Py.truthy c = true
                 ∧ ∀ name' t', In name' pre → meta_for soup name' t' →
                               Py.truthy_opt (attr t' "content") = false)
     ∧ (∀ h, link_step soup = Some h
             ↔ ∃ t, first_of is_pdf_link soup t ∧ attr t "href" = Some h)
     ∧ (link_step soup = None ↔ ∀ t, In t soup → ¬ is_pdf_link t)
     ∧ (∀ h, anchor_step soup = Some h
             ↔ ∃ t raw, first_of is_pdf_anchor soup t
                        ∧ attr t "href" = Some raw ∧ h = Py.strip raw)
     ∧ (anchor_step soup = None ↔ ∀ t, In t soup → ¬ is_pdf_anchor t)
     ∧ (∀ pre scheme body ext post,
          html = pre +:+ scheme +:+ body +:+ ext +:+ post →
          Py.lower scheme = "http://" ∨ Py.lower scheme = "https://" →
          Py.truthy body = true →
          Py.all_chars url_char body = true →
          Py.lower ext = ".pdf" →
          is_Some (rx_search html))
     ∧ (result = Ok None
        ↔ meta = None ∧ link_step soup = None ∧ anchor_step soup = None
          ∧ rx_search html = None))
  ∧ (∀ (parse : string → option (list Tag)) (urljoin : string → string → res string)
       (base html : string),
       parse html = None →
       extract_pdf_from_html parse urljoin base html = Ok None)
  ∧ (∀ (E : Env) (c : string) (w : World) (r : Response) (cand : string),
       net E (snd <$> trace w) (get_req c) = Ok r →
       Py.contains "pdf" (ctype_of r) = false →
       Py.endswith (Py.lower (url r)) ".pdf" = false →
       extract_pdf_from_html (BeautifulSoup E) (urljoin E) (url r) (text r)
       = Ok (Some cand) →
       Py.truthy cand = true →
       ∃ verified,
         (Csv.scrape_candidate E c w).1
         = Some (py_or verified (Some cand), "landing_parsed"))
  ∧ extract_pdf_from_html PyLib.html_parser PyLib.urljoin
      "https://pub.example/article/1" meta_html
    = Ok (Some "https://pub.example/f/paper.pdf")
  ∧ (Csv.resolve_pdf_url redirect_env redirect_row None PyLib.empty_world).1
    = (Some "https://pub.example/f/paper.pdf", "landing_parsed").
Proof.
  split_and!.
  - intros parse urljoin base html soup Hparse join result names meta.
    assert (Hjoin : ∀ h, join h ≠ Ok None).
    { intros h. unfold join. by destruct (urljoin base h). }
    unfold result, extract_pdf_from_html. rewrite Hparse. fold names meta.
    split_and!.
    + intros c Hc. rewrite Hc. split; [done|]. by apply meta_step_sound.
    + intros -> h Hh. rewrite Hh. split; [done|]. by apply link_step_sound.
    + intros -> -> h Hh. rewrite Hh. split; [done|]. by apply anchor_step_sound.
    + intros -> -> ->. split; [by destruct (rx_search html)|].
      apply rx_search_sound.
    + intros c. apply meta_step_spec.
    + apply link_step_spec.
    + apply link_step_spec.
    + apply anchor_step_spec.
    + apply anchor_step_spec.
    + intros pre scheme body ext post ->. apply rx_search_finds.
    + destruct meta as [c|]; [split; [by intros ?%Hjoin|by intros [? _]]|].
      destruct (link_step soup) as [h|];
        [split; [by intros ?%Hjoin|by intros (_ & ? & _)]|].
      destruct (anchor_step soup) as [h|];
        [split; [by intros ?%Hjoin|by intros (_ & _ & ? & _)]|].
      destruct (rx_search html); [split; [done|by intros (_ & _ & _ & ?)]|done].
  - intros parse urljoin base html Hparse.
    unfold extract_pdf_from_html. by rewrite Hparse.
  - intros E c w r cand Hnet Hct Hurl Hex Hcand.
    unfold Csv.scrape_candidate, mbind, M_bind, bind, http.
    rewrite Hnet, Hct, Hurl, Hex. cbn. rewrite Hcand.
    destruct (head_is_pdf E landing_scrape cand _) as [verified w'].
    by exists verified.
  - by vm_compute.
  - by vm_compute.
Qed.

(** Scenario C, through the first step of the order. *)
Lemma landing_scrape_order_witness :
  extract_pdf_from_html PyLib.html_parser PyLib.urljoin
    "https://pub.example/article/1" meta_html
  = match PyLib.urljoin "https://pub.example/article/1" "/f/paper.pdf" with
    | Ok u => Ok (Some u)
    | Raise e => Raise e
    end.
Proof.
  exact (proj1 (proj1 (proj1 landing_scrape_order
           PyLib.html_parser PyLib.urljoin "https://pub.example/article/1"
           meta_html
           [ {| tag_name := "meta";
                attrs := [("name", "citation_pdf_url");
                          ("content", "/f/paper.pdf")] |} ]
           eq_refl)
         "/f/paper.pdf" eq_refl)).
Defined.

End ScrapeOrder.


Section ScanTheorems.
Import Html.

(** X13.  The fallback scan of [extract_pdf_from_html] misses nothing:
    whenever the text holds, anywhere, the letters http or https in
    any case, then ://, then one character or more of the URL class and
    .pdf in any case, the scan returns a match; and what it returns is
    a piece of the text of that form. *)
Theorem rx_search_complete (pre scheme body ext post : string) :
  Py.lower scheme = "http://" ∨ Py.lower scheme = "https://" →
  Py.truthy body = true →
  Py.all_chars url_char body = true →
  Py.lower ext = ".pdf" →
  ∃ m, rx_search (pre +:+ scheme +:+ body +:+ ext +:+ post) = Some m
       ∧ (∃ pre' post', pre +:+ scheme +:+ body +:+ ext +:+ post
                        = pre' +:+ m +:+ post')
       ∧ pdf_url_shape m
       ∧ (Py.startswith (Py.lower m) "http://" = true
          ∨ Py.startswith (Py.lower m) "https://" = true).
Proof.
  intros Hs Ht Hall Hext.
  destruct (rx_search_finds pre scheme body ext post Hs Ht Hall Hext) as [m Hm].
  exists m. split; [done|].
  by apply rx_search_sound.
Qed.

Lemma rx_search_complete_witness :
  ∃ m, rx_search ("see <b>HTTPS://Host.example/a/Paper.PDF</b> here") = Some m
       ∧ (∃ pre' post', "see <b>HTTPS://Host.example/a/Paper.PDF</b> here"
                        = pre' +:+ m +:+ post')
       ∧ pdf_url_shape m
       ∧ (Py.startswith (Py.lower m) "http://" = true
          ∨ Py.startswith (Py.lower m) "https://" = true).
Proof.
  apply (rx_search_complete "see <b>" "HTTPS://" "Host.example/a/Paper" ".PDF"
           "</b> here"); try reflexivity.
  by right.
Defined.

End ScanTheorems.

(* ===================================================================== *)
(** ** What a harvest adds up to *)
(* ===================================================================== *)

Section HarvestFacts.
Import Harvest Fetch.

Lemma canonical_key_query_sector (sector : string) (item : Item) :
  canonical_key (<["query_sector" := sector]> item) = canonical_key item.
Proof. unfold canonical_key. by rewrite !lookup_insert_ne. Qed.

Lemma canonical_key_final_row (r : Rec) :
  canonical_key (final_row r) = canonical_key (fields r).
Proof.
  unfold canonical_key, final_row.
  cbn [list_to_map foldr uncurry fst snd].
  rewrite !(lookup_insert_ne _ "source") by done.
  rewrite !(lookup_insert_ne _ "id") by done.
  rewrite (lookup_insert_eq _ "doi").
  rewrite (lookup_insert_ne _ "doi" "title") by done.
  rewrite (lookup_insert_eq _ "title").
  cbn [Py.opt_str default].
  by destruct (fields r !! "doi"), (fields r !! "title").
Qed.

Lemma fold_left_tagged (tag sector : string) (items : list Item) (st : State) :
  ingest_all tag sector items st
  = fold_left ingest_event ((λ item, (tag, sector, item)) <$> items) st.
Proof.
  unfold ingest_all. revert st.
  induction items as [|item items IH]; intros st; cbn; [done|]. apply IH.
Qed.

Lemma harvest_sector_events (f : Fetched) (st : State) :
  harvest_sector f.1.1.1 f.1.1.2 f.1.2 f.2 st
  = fold_left ingest_event (events_of f) st.
Proof.
  destruct f as [[[sector o] a] c]. unfold harvest_sector, events_of. cbn.
  rewrite !fold_left_app, <- !fold_left_tagged.
  by destruct c as [items|].
Qed.

Lemma harvest_rows_events (fetched : list Fetched) :
  harvest_rows fetched = fold_left ingest_event (events fetched) empty_state.
Proof.
  unfold harvest_rows, events. generalize empty_state.
  induction fetched as [|f fetched IH]; intros st; cbn; [done|].
  rewrite fold_left_app, <- harvest_sector_events, <- IH.
  by destruct f as [[[sector o] a] c].
Qed.

Lemma accounts_for_empty : accounts_for [] empty_state.
Proof.
  split_and!.
  - split; [|done]. intros k i. cbn. rewrite lookup_empty.
    split; [done|]. by intros (r & ? & _).
  - intros k. cbn. rewrite lookup_empty. split; [by intros []|].
    intros (_ & e & He & _). by apply elem_of_nil in He.
  - done.
Qed.

Lemma elem_of_snoc {A} (l : list A) (x y : A) : y ∈ l ++ [x] ↔ y ∈ l ∨ y = x.
Proof. by rewrite elem_of_app, list_elem_of_singleton. Qed.

(** An event with another key does not count for a record. *)
Lemma other_key_event (evs : list (string * string * Item))
    (e : string * string * Item) (k : string)
    (P : string * string * Item → Prop) :
  key_of e ≠ k →
  (∃ e', e' ∈ evs ++ [e] ∧ key_of e' = k ∧ P e')
  ↔ (∃ e', e' ∈ evs ∧ key_of e' = k ∧ P e').
Proof.
  intros Hne. split; intros (e' & He' & Hk & HP); exists e'.
  - apply elem_of_snoc in He' as [?| ->]; done.
  - split; [apply elem_of_app; by left|done].
Qed.

Lemma same_key_event (evs : list (string * string * Item))
    (e : string * string * Item) (f : string * string * Item → string)
    (x : string) :
  (∃ e', e' ∈ evs ++ [e] ∧ key_of e' = key_of e ∧ f e' = x)
  ↔ (∃ e', e' ∈ evs ∧ key_of e' = key_of e ∧ f e' = x) ∨ x = f e.
Proof.
  split.
  - intros (e' & He' & Hk & HP).
    apply elem_of_snoc in He' as [?| ->]; [|by right].
    left. by exists e'.
  - intros [(e' & He' & Hk & HP)| ->].
    + exists e'. split; [apply elem_of_app; by left|done].
    + exists e. split; [|done]. apply elem_of_app; right.
      by apply list_elem_of_singleton.
Qed.

Lemma first_event_snoc (evs : list (string * string * Item))
    (e : string * string * Item) (k : string) (fs : gmap string string) :
  (∃ pre e0 post, evs = pre ++ e0 :: post ∧ key_of e0 = k
                  ∧ (∀ e', e' ∈ pre → key_of e' ≠ k)
                  ∧ fs = <["query_sector" := e0.1.2]> e0.2) →
  ∃ pre e0 post, evs ++ [e] = pre ++ e0 :: post ∧ key_of e0 = k
                 ∧ (∀ e', e' ∈ pre → key_of e' ≠ k)
                 ∧ fs = <["query_sector" := e0.1.2]> e0.2.
Proof.
  intros (pre & e0 & post & -> & ? & ? & ?).
  exists pre, e0, (post ++ [e]). by rewrite <- app_assoc.
Qed.

(** One more event. *)
Lemma accounts_for_step (evs : list (string * string * Item)) (st : State)
    (e : string * string * Item) :
  accounts_for evs st → accounts_for (evs ++ [e]) (ingest_event st e).
Proof.
  intros ([Hc1 Hc2] & Hdom & Hrows).
  assert (Hrow_seen : ∀ i r, rows st !! i = Some r →
            seen st !! canonical_key (fields r) = Some i).
  { intros i r Hr. apply Hc1. by exists r. }
  unfold ingest_event, ingest. fold (key_of e).
  destruct (Py.truthy (key_of e)) eqn:Hk; cbn [negb].
  2:{ (* an event without key changes nothing *)
      split_and!; [done| |].
      - intros k. rewrite Hdom. split; intros (Ht & e' & He' & Hk').
        + split; [done|]. exists e'. split; [apply elem_of_app; by left|done].
        + split; [done|]. exists e'. split; [|done].
          apply elem_of_snoc in He' as [?| ->]; [done|].
          congruence.
      - intros i r Hr. cbv zeta.
        assert (Hne : key_of e ≠ canonical_key (fields r)).
        { intros Heq. apply Hrow_seen, Hc2 in Hr. congruence. }
        destruct (Hrows i r Hr) as (Hs & Ht & Hfirst). split_and!.
        + intros s. rewrite Hs.
          symmetry. apply (other_key_event evs e _ (λ e', e'.1.2 = s) Hne).
        + intros t. rewrite Ht.
          symmetry. apply (other_key_event evs e _ (λ e', e'.1.1 = t) Hne).
        + by apply first_event_snoc. }
  destruct (seen st !! key_of e) as [i0|] eqn:Hseen.
  - (* a key seen before: the provenance of its record grows *)
    destruct (proj1 (Hc1 _ _) Hseen) as (r0 & Hr0 & Hk0).
    assert (Halter : ∀ i r',
              alter (add_provenance e.1.2 e.1.1) i0 (rows st) !! i = Some r' →
              (i = i0 ∧ r' = add_provenance e.1.2 e.1.1 r0)
              ∨ (i ≠ i0 ∧ rows st !! i = Some r')).
    { intros i r'. rewrite list_lookup_alter. case_decide as Hi.
      - subst i. rewrite Hr0. cbn. intros [= <-]. by left.
      - intros ?. right. split; [congruence|done]. }
    split_and!.
    + split; [|done]. intros k i. cbn [seen rows]. rewrite Hc1. split.
      * intros (r & Hr & Hkr). destruct (decide (i = i0)) as [->|Hne].
        -- exists (add_provenance e.1.2 e.1.1 r0).
           rewrite list_lookup_alter_eq, Hr0. split; [done|]. cbn. congruence.
        -- exists r. by rewrite list_lookup_alter_ne.
      * intros (r' & [[-> ->]|[Hne Hr]]%Halter & Hkr); [by exists r0|by exists r'].
    + intros k. cbn [seen]. rewrite Hdom.
      split; intros (Ht & e' & He' & Hk').
      * split; [done|]. exists e'. split; [apply elem_of_app; by left|done].
      * apply elem_of_snoc in He' as [?| ->].
        -- split; [done|]. by exists e'.
        -- apply Hdom. rewrite <- Hk', Hseen. by eexists.
    + intros i r' [[-> ->]|[Hne Hr]]%Halter; cbv zeta.
      * cbn [add_provenance fields assigned_sectors sources]. rewrite Hk0.
        destruct (Hrows i0 r0 Hr0) as (Hs & Ht & Hfirst). cbv zeta in *.
        rewrite Hk0 in Hs, Ht, Hfirst. split_and!.
        -- intros s. rewrite elem_of_union, elem_of_singleton, Hs.
           symmetry. apply (same_key_event evs e (λ e', e'.1.2)).
        -- intros t. rewrite elem_of_union, elem_of_singleton, Ht.
           symmetry. apply (same_key_event evs e (λ e', e'.1.1)).
        -- by apply first_event_snoc.
      * assert (Hkne : key_of e ≠ canonical_key (fields r')).
        { intros Heq. apply Hrow_seen in Hr. congruence. }
        destruct (Hrows i r' Hr) as (Hs & Ht & Hfirst). split_and!.
        -- intros s. rewrite Hs.
           symmetry. apply (other_key_event evs e _ (λ e', e'.1.2 = s) Hkne).
        -- intros t. rewrite Ht.
           symmetry. apply (other_key_event evs e _ (λ e', e'.1.1 = t) Hkne).
        -- by apply first_event_snoc.
  - (* a new key: a new record at the end *)
    assert (Hnew : canonical_key (fields (new_rec e.1.2 e.1.1 e.2)) = key_of e).
    { apply canonical_key_query_sector. }
    assert (Hfresh : ∀ e', e' ∈ evs → key_of e' ≠ key_of e).
    { intros e' He' Heq.
      assert (is_Some (seen st !! key_of e)) as [? ?]; [|congruence].
      apply Hdom. split; [done|]. by exists e'. }
    split_and!.
    + split.
      * intros k i. cbn [seen rows]. rewrite lookup_insert_Some.
        split.
        -- intros [[<- <-]|[Hne Hki]].
           ++ exists (new_rec e.1.2 e.1.1 e.2).
              split; [apply lookup_snoc_Some; by right|done].
           ++ apply Hc1 in Hki as (r & Hr & Hkr). exists r. split; [|done].
              apply lookup_snoc_Some.
              left. split; [by eapply lookup_lt_Some|done].
        -- intros (r & [[Hlt Hr]|[-> <-]]%lookup_snoc_Some & Hkr).
           ++ right. assert (seen st !! k = Some i) as Hki.
              { apply Hc1. by exists r. }
              split; [congruence|done].
           ++ left. by rewrite <- Hkr, Hnew.
      * intros k i. cbn [seen]. rewrite lookup_insert_Some.
        intros [[<- _]|[_ Hki]]; [done|by eapply Hc2].
    + intros k. cbn [seen]. rewrite lookup_insert_is_Some, Hdom. split.
      * intros [<-|[Hne (Ht & e' & He' & Hk')]].
        -- split; [done|]. exists e. split; [|done]. apply elem_of_app; right.
           by apply list_elem_of_singleton.
        -- split; [done|]. exists e'. split; [apply elem_of_app; by left|done].
      * intros (Ht & e' & He' & Hk').
        apply elem_of_snoc in He' as [?| ->].
        -- destruct (decide (key_of e = k)); [by left|].
           right. split; [done|]. split; [done|]. by exists e'.
        -- by left.
    + intros i r'. cbn [rows]. rewrite lookup_snoc_Some.
      intros [[Hlt Hr]|[-> <-]]; cbv zeta.
      * assert (Hkne : key_of e ≠ canonical_key (fields r')).
        { intros Heq. apply Hrow_seen in Hr. congruence. }
        destruct (Hrows i r' Hr) as (Hs & Ht & Hfirst). split_and!.
        -- intros s. rewrite Hs.
           symmetry. apply (other_key_event evs e _ (λ e', e'.1.2 = s) Hkne).
        -- intros t. rewrite Ht.
           symmetry. apply (other_key_event evs e _ (λ e', e'.1.1 = t) Hkne).
        -- by apply first_event_snoc.
      * rewrite Hnew. cbn [new_rec fields assigned_sectors sources]. split_and!.
        -- intros s. rewrite elem_of_singleton.
           rewrite (same_key_event evs e (λ e', e'.1.2)). split; [by right|].
           intros [(e' & He' & Hk' & _)|?]; [|done]. by destruct (Hfresh e' He').
        -- intros t. rewrite elem_of_singleton.
           rewrite (same_key_event evs e (λ e', e'.1.1)). split; [by right|].
           intros [(e' & He' & Hk' & _)|?]; [|done]. by destruct (Hfresh e' He').
        -- exists evs, e, []. done.
Qed.

Lemma accounts_for_fold (evs : list (string * string * Item)) :
  accounts_for evs (fold_left ingest_event evs empty_state).
Proof.
  induction evs as [|e evs IH] using rev_ind; [apply accounts_for_empty|].
  rewrite fold_left_app. by apply accounts_for_step.
Qed.

Lemma harvest_accounts (fetched : list Fetched) :
  accounts_for (events fetched) (harvest_rows fetched).
Proof. rewrite harvest_rows_events. apply accounts_for_fold. Qed.

End HarvestFacts.

Section HarvestTheorems.
Import Harvest Fetch.

Lemma harvest_row_seen (fetched : list Fetched) (r : Rec) :
  r ∈ rows (harvest_rows fetched) →
  merged (harvest_rows fetched) (canonical_key (fields r)) = Some r.
Proof.
  destruct (harvest_accounts fetched) as ([Hc1 _] & _ & _).
  intros [i Hi]%list_elem_of_lookup_1. unfold merged.
  assert (seen (harvest_rows fetched) !! canonical_key (fields r) = Some i) as ->.
  { apply Hc1. by exists r. }
  done.
Qed.

(** X14.  The harvest holds one record for each work: no two rows of
    the output have the same canonical key, and the keys of the rows
    are exactly the non-empty keys of the items the fetchers returned.
    This holds for the output of [harvest_all] in particular, which is
    made in this way from what the fetchers returned for the sectors
    of the seed map, unless a limit handed to a fetcher cannot be
    computed. *)
Theorem harvest_keys_distinct (fetched : list Fetched) :
  let out := final_row <$> rows (harvest_rows fetched) in
  NoDup (canonical_key <$> out)
  ∧ (∀ k, k ∈ canonical_key <$> out
          ↔ Py.truthy k = true ∧ ∃ e, e ∈ events fetched ∧ key_of e = k)
  ∧ ∀ quote_plus parse query_openalex query_core per_sector core_key,
      harvest_all quote_plus parse query_openalex query_core per_sector core_key
      = match fetch_all quote_plus parse query_openalex query_core
                per_sector core_key VISION2030_MAP with
        | Web.Ok fetched' =>
            Web.Ok (final_row <$> rows (harvest_rows fetched'))
        | Web.Raise e => Web.Raise e
        end.
Proof.
  cbv zeta. destruct (harvest_accounts fetched) as ([Hc1 Hc2] & Hdom & _).
  split_and!; [| |done].
  - apply NoDup_alt. intros i j k.
    rewrite !list_lookup_fmap.
    destruct (rows (harvest_rows fetched) !! i) as [ri|] eqn:Hi; [|done].
    destruct (rows (harvest_rows fetched) !! j) as [rj|] eqn:Hj; [|done].
    cbn [fmap option_fmap option_map].
    rewrite !canonical_key_final_row. intros [= Hki] [= Hkj].
    assert (seen (harvest_rows fetched) !! k = Some i) by (apply Hc1; eauto).
    assert (seen (harvest_rows fetched) !! k = Some j) by (apply Hc1; eauto).
    congruence.
  - intros k. rewrite <- Hdom, list_elem_of_fmap. split.
    + intros (rr & -> & (r & -> & [i Hi]%list_elem_of_lookup_1)%list_elem_of_fmap).
      exists i. apply Hc1. exists r. by rewrite canonical_key_final_row.
    + intros [i (r & Hr & Hk)%Hc1]. exists (final_row r).
      rewrite canonical_key_final_row. split; [done|].
      apply list_elem_of_fmap_2. by eapply list_elem_of_lookup_2.
Qed.

Lemma harvest_keys_distinct_witness :
  "10.1/abc" ∈ canonical_key <$> (final_row <$> rows (harvest_rows sample_fetched)).
Proof.
  apply (harvest_keys_distinct sample_fetched). split; [reflexivity|].
  exists ("core", "Energy", {[ "doi" := "10.1/abc" ]}). split; [|reflexivity].
  vm_compute. apply list_elem_of_further, list_elem_of_further, list_elem_of_here.
Defined.

(** X15.  The provenance of a record is exact.  Its set of sectors
    holds the sectors under which an item with its key was fetched, and
    no other; its set of sources holds the tags of the fetchers that
    returned such an item, and no other.  The record is the one its
    key denotes. *)
Theorem harvest_provenance_exact (fetched : list Fetched) (r : Rec) :
  r ∈ rows (harvest_rows fetched) →
  let k := canonical_key (fields r) in
  merged (harvest_rows fetched) k = Some r
  ∧ (∀ s, s ∈ assigned_sectors r
          ↔ ∃ e, e ∈ events fetched ∧ key_of e = k ∧ e.1.2 = s)
  ∧ (∀ t, t ∈ sources r
          ↔ ∃ e, e ∈ events fetched ∧ key_of e = k ∧ e.1.1 = t).
Proof.
  intros Hr. cbv zeta. split; [by apply harvest_row_seen|].
  destruct (harvest_accounts fetched) as (_ & _ & Hrows).
  apply list_elem_of_lookup_1 in Hr as [i Hi].
  destruct (Hrows i r Hi) as (? & ? & _). done.
Qed.

Lemma harvest_provenance_exact_witness :
  let k := canonical_key (fields sample_record) in
  merged (harvest_rows sample_fetched) k = Some sample_record
  ∧ (∀ s, s ∈ assigned_sectors sample_record
          ↔ ∃ e, e ∈ events sample_fetched ∧ key_of e = k ∧ e.1.2 = s)
  ∧ (∀ t, t ∈ sources sample_record
          ↔ ∃ e, e ∈ events sample_fetched ∧ key_of e = k ∧ e.1.1 = t).
Proof.
  apply (harvest_provenance_exact sample_fetched sample_record).
  apply (list_elem_of_lookup_2 _ 0). vm_compute. reflexivity.
Defined.

(** X16.  The fields of a record are those of the first item fetched
    with its key, and its [query_sector] is the sector of that item:
    later items with the key leave the fields alone. *)
Theorem harvest_keeps_first_fields (fetched : list Fetched) (r : Rec) :
  r ∈ rows (harvest_rows fetched) →
  ∃ pre e post,
    events fetched = pre ++ e :: post
    ∧ key_of e = canonical_key (fields r)
    ∧ (∀ e', e' ∈ pre → key_of e' ≠ canonical_key (fields r))
    ∧ fields r = <["query_sector" := e.1.2]> e.2.
Proof.
  intros [i Hi]%list_elem_of_lookup_1.
  destruct (harvest_accounts fetched) as (_ & _ & Hrows).
  destruct (Hrows i r Hi) as (_ & _ & ?). done.
Qed.

Lemma harvest_keeps_first_fields_witness :
  ∃ pre e post,
    events sample_fetched = pre ++ e :: post
    ∧ key_of e = canonical_key (fields sample_record)
    ∧ (∀ e', e' ∈ pre → key_of e' ≠ canonical_key (fields sample_record))
    ∧ fields sample_record = <["query_sector" := e.1.2]> e.2.
Proof.
  apply (harvest_keeps_first_fields sample_fetched sample_record).
  apply (list_elem_of_lookup_2 _ 0). vm_compute. reflexivity.
Defined.

End HarvestTheorems.

Section FolderFacts.
Import Harvest Fetch.

Lemma contains_char_cons (c d : ascii) (s : string) :
  Py.contains (String c "") (String d s) = false →
  d ≠ c ∧ Py.contains (String c "") s = false.
Proof.
  cbn [Py.contains]. intros [Hp Hs]%orb_false_elim. split; [|done].
  intros ->.
  change (String.prefix (String c "") (String c s))
    with (if ascii_dec c c then String.prefix "" s else false) in Hp.
  destruct (ascii_dec c c); [|done]. by destruct s.
Qed.

Lemma before_first_none (c : ascii) (x : string) :
  Py.contains (String c "") x = false → Py.before_first c x = x.
Proof.
  induction x as [|d x IH]; [done|].
  intros [Hd Hx]%contains_char_cons. cbn [Py.before_first].
  destruct (Ascii.eqb_spec d c); [done|]. by rewrite IH.
Qed.

Lemma before_first_sep (c : ascii) (x rest : string) :
  Py.contains (String c "") x = false →
  Py.before_first c (x +:+ String c rest) = x.
Proof.
  induction x as [|d x IH].
  - intros _. change ("" +:+ String c rest) with (String c rest).
    cbn [Py.before_first]. by rewrite Ascii.eqb_refl.
  - intros [Hd Hx]%contains_char_cons. rewrite append_cons.
    cbn [Py.before_first].
    destruct (Ascii.eqb_spec d c); [done|]. by rewrite IH.
Qed.

Lemma before_first_join (c : ascii) (m : string) (rest : list string) :
  Py.contains (String c "") m = false →
  Py.before_first c (PySeq.join (String c "") (m :: rest)) = m.
Proof.
  intros Hm. cbn [PySeq.join]. destruct rest as [|x rest].
  - by apply before_first_none.
  - by apply before_first_sep.
Qed.

Lemma join_truthy (sep m : string) (rest : list string) :
  Py.truthy m = true → Py.truthy (PySeq.join sep (m :: rest)) = true.
Proof.
  intros Hm. cbn [PySeq.join]. destruct rest; [done|]. by destruct m.
Qed.

Lemma or_else_truthy (a b : string) :
  Py.truthy a = true → Py.or_else a b = a.
Proof. unfold Py.or_else. by intros ->. Qed.

(** The head of a sorted list is its least element. *)
Lemma sorted_head (l : list string) :
  l ≠ [] →
  ∃ m rest, PySeq.sorted l = m :: rest
            ∧ m ∈ l ∧ ∀ x, x ∈ l → String.le m x.
Proof.
  intros Hl. unfold PySeq.sorted.
  pose proof (merge_sort_Permutation String.le l) as Hperm.
  pose proof (StronglySorted_merge_sort String.le l) as Hsorted.
  destruct (merge_sort String.le l) as [|m rest].
  { apply Permutation_nil_l in Hperm. by destruct Hl. }
  exists m, rest. split; [done|]. split.
  - rewrite <- Hperm. apply list_elem_of_here.
  - intros x Hx. rewrite <- Hperm in Hx.
    apply StronglySorted_inv in Hsorted as [_ Hall].
    apply elem_of_cons in Hx as [->|Hx]; [done|].
    by eapply Forall_forall in Hall.
Qed.

(** The folder of a row whose sectors come from a set of labels. *)
Lemma folder_of_flatten (out_dir : string) (row : Csv.Row) (s : gset string) :
  row !! "assigned_sectors" = Some (flatten s) →
  s ≠ ∅ →
  (∀ x, x ∈ s → Py.truthy x = true ∧ Py.contains ";" x = false) →
  ∃ m name,
    m ∈ s ∧ (∀ x, x ∈ s → String.le m x)
    ∧ Py.before_first ";" (flatten s) = m
    ∧ Csv.save_dir_for out_dir row
      = Py.path_join out_dir (Csv.safe_filename m 200)
    ∧ Csv.out_file_for out_dir row
      = Py.path_join (Py.path_join out_dir (Csv.safe_filename m 200))
          (name +:+ ".pdf").
Proof.
  intros Hrow Hne Hlabels.
  destruct (sorted_head (elements s)) as (m & rest & Hsorted & Hm & Hleast).
  { intros Hnil. by apply elements_empty_iff, leibniz_equiv in Hnil. }
  apply elem_of_elements in Hm.
  destruct (Hlabels m Hm) as [Htruthy Hsep].
  assert (Hhead : Py.before_first ";" (flatten s) = m).
  { unfold flatten. rewrite Hsorted. by apply before_first_join. }
  assert (Hflat : Py.truthy (flatten s) = true).
  { unfold flatten. rewrite Hsorted. by apply join_truthy. }
  assert (Hdir : Csv.save_dir_for out_dir row
                 = Py.path_join out_dir (Csv.safe_filename m 200)).
  { unfold Csv.save_dir_for. cbv zeta. rewrite Hrow.
    change (Py.opt_str (Some (flatten s))) with (flatten s).
    rewrite !(or_else_truthy (flatten s)) by done.
    by rewrite Hflat, Hhead. }
  exists m. eexists. split_and!; [done| |done|done|].
  - intros x Hx. by apply Hleast, elem_of_elements.
  - unfold Csv.out_file_for. cbv zeta. rewrite Hdir. reflexivity.
Qed.

Lemma final_row_sectors (r : Rec) :
  final_row r !! "assigned_sectors" = Some (flatten (assigned_sectors r)).
Proof.
  unfold final_row. cbn [list_to_map foldr uncurry fst snd].
  rewrite !(lookup_insert_ne _ _ "assigned_sectors") by done.
  apply lookup_insert_eq.
Qed.

Lemma events_sector (fetched : list Fetched) (e : string * string * Item) :
  e ∈ events fetched → e.1.2 ∈ (λ f : Fetched, f.1.1.1) <$> fetched.
Proof.
  unfold events. intros (f & He & Hf)%list_elem_of_bind.
  apply list_elem_of_fmap. exists f. split; [|done].
  destruct f as [[[sector o] a] c]. unfold events_of in He.
  rewrite !elem_of_app, !list_elem_of_fmap in He.
  by destruct He as [(? & -> & _)|[(? & -> & _)|(? & -> & _)]].
Qed.

Lemma sector_labels :
  Forall (λ x, Py.truthy x = true ∧ Py.contains ";" x = false)
         VISION2030_MAP.*1.
Proof. repeat constructor. Qed.

(** What is fetched for an entry of the seed map carries its label. *)
Lemma fetch_sector_label quote_plus parse query_openalex query_core
    (per_sector : Z) (core_key : option string)
    (entry : string * list string) (f : Fetched) :
  fetch_sector quote_plus parse query_openalex query_core per_sector core_key
    entry = Web.Ok f →
  f.1.1.1 = entry.1.
Proof.
  unfold fetch_sector. cbv zeta.
  repeat case_match; try done; by intros [= <-].
Qed.

Lemma fetch_all_labels quote_plus parse query_openalex query_core
    (per_sector : Z) (core_key : option string)
    (entries : list (string * list string)) :
  ∀ fetched,
    fetch_all quote_plus parse query_openalex query_core per_sector core_key
      entries = Web.Ok fetched →
    (λ f : Fetched, f.1.1.1) <$> fetched = entries.*1.
Proof.
  induction entries as [|entry entries IH]; intros fetched; cbn [fetch_all].
  { by intros [= <-]. }
  destruct (fetch_sector _ _ _ _ _ _ entry) as [f|e] eqn:Hf; [|done].
  destruct (fetch_all _ _ _ _ _ _ entries) as [fs|e]; [|done].
  intros [= <-]. cbn. f_equal; [by eapply fetch_sector_label|by apply IH].
Qed.

End FolderFacts.

Section FolderTheorems.
Import Harvest Fetch.

(** X17.  From the harvest to the downloader.  In a row that
    [harvest_all] writes, the column of the sectors is the sorted list
    of the sectors of the record, joined by semicolons; the record has
    a sector, and each of its sectors is one of the labels of the seed
    map.  [process_csv] takes the text before the first semicolon, so
    the directory it makes for the row, and saves the row under, is
    named after the least of the record's sectors, in the order of the
    code points. *)
Theorem harvested_row_folder
    (quote_plus : string → string) (parse : string → list Entry)
    (query_openalex : string → Z → list Item)
    (query_core : string → string → Z → list Item)
    (per_sector : Z) (core_key : option string)
    (out_dir : string) (out : list (gmap string string))
    (rr : gmap string string) :
  harvest_all quote_plus parse query_openalex query_core per_sector core_key
  = Web.Ok out →
  rr ∈ out →
  ∃ r m name,
    rr = final_row r
    ∧ rr !! "assigned_sectors" = Some (flatten (assigned_sectors r))
    ∧ (∀ s, s ∈ assigned_sectors r → s ∈ VISION2030_MAP.*1)
    ∧ m ∈ assigned_sectors r
    ∧ (∀ s, s ∈ assigned_sectors r → String.le m s)
    ∧ Py.before_first ";" (flatten (assigned_sectors r)) = m
    ∧ Csv.save_dir_for out_dir rr
      = Py.path_join out_dir (Csv.safe_filename m 200)
    ∧ Csv.out_file_for out_dir rr
      = Py.path_join (Py.path_join out_dir (Csv.safe_filename m 200))
          (name +:+ ".pdf").
Proof.
  unfold harvest_all.
  destruct (fetch_all _ _ _ _ _ _ VISION2030_MAP) as [fetched|e] eqn:Hfetch;
    [|done].
  apply fetch_all_labels in Hfetch.
  intros [= <-] (r & -> & [i Hi]%list_elem_of_lookup_1)%list_elem_of_fmap.
  destruct (harvest_accounts fetched) as (_ & _ & Hrows).
  destruct (Hrows i r Hi) as (Hsec & _ & (pre & e & post & Hev & Hk & _ & _)).
  cbv zeta in Hsec.
  assert (Hlabel : ∀ s, s ∈ assigned_sectors r → s ∈ VISION2030_MAP.*1).
  { intros s (e' & He' & _ & <-)%Hsec. apply events_sector in He'.
    by rewrite Hfetch in He'. }
  destruct (folder_of_flatten out_dir (final_row r) (assigned_sectors r))
    as (m & name & Hm & Hleast & Hhead & Hdir & Hout).
  - apply final_row_sectors.
  - assert (e.1.2 ∈ assigned_sectors r) as Hin.
    { apply Hsec. exists e. split_and!; [|done..].
      rewrite Hev. apply elem_of_app. right. apply list_elem_of_here. }
    intros Hempty. rewrite Hempty in Hin. by apply elem_of_empty in Hin.
  - intros s Hs%Hlabel.
    by apply (proj1 (Forall_forall _ _) sector_labels).
  - exists r, m, name.
    split_and!; [done|apply final_row_sectors|done..].
Qed.

Lemma harvested_row_folder_witness :
  ∃ r m name,
    final_row sample_openalex_record = final_row r
    ∧ final_row sample_openalex_record !! "assigned_sectors"
      = Some (flatten (assigned_sectors r))
    ∧ (∀ s, s ∈ assigned_sectors r → s ∈ VISION2030_MAP.*1)
    ∧ m ∈ assigned_sectors r
    ∧ (∀ s, s ∈ assigned_sectors r → String.le m s)
    ∧ Py.before_first ";" (flatten (assigned_sectors r)) = m
    ∧ Csv.save_dir_for "pdfs" (final_row sample_openalex_record)
      = Py.path_join "pdfs" (Csv.safe_filename m 200)
    ∧ Csv.out_file_for "pdfs" (final_row sample_openalex_record)
      = Py.path_join (Py.path_join "pdfs" (Csv.safe_filename m 200))
          (name +:+ ".pdf").
Proof.
  apply (harvested_row_folder PyLib.quote_plus (λ _, []) sample_openalex
           (λ _ _ _, []) 0 None "pdfs" [final_row sample_openalex_record]
           (final_row sample_openalex_record)).
  - vm_compute. reflexivity.
  - apply list_elem_of_here.
Defined.

End FolderTheorems.

(* ===================================================================== *)
(** ** The arXiv fetcher and the abstracts of OpenAlex *)
(* ===================================================================== *)

Section ArxivFacts.
Import Harvest Fetch.
Variable quote_plus : string → string.
Variable parse : string → list Entry.

(** The loop of [query_arxiv] ends, and the windows it asks for follow
    each other. *)
Lemma arxiv_loop_spec (query : string) (batch max_results : Z) (fuel : nat) :
  ∀ start out asked,
    (0 <= start)%Z →
    ((start < max_results)%Z → (1 <= batch <= 100)%Z) →
    Z.to_nat (max_results - start) < fuel →
    ∃ out' new,
      arxiv_loop quote_plus parse fuel query batch max_results start out asked
      = Some (out', asked ++ new)
      ∧ contiguous start new
      ∧ Forall (λ w, (0 <= w.1 ∧ 1 <= w.2 <= 100
                      ∧ w.1 + w.2 <= max_results)%Z) new.
Proof.
  induction fuel as [|fuel IH]; intros start out asked Hstart Hbatch Hfuel; [lia|].
  cbn [arxiv_loop].
  destruct (Z.ltb_spec start max_results) as [Hlt|Hge].
  2:{ exists out, []. rewrite app_nil_r. by split_and!. }
  specialize (Hbatch Hlt).
  set (n := Z.min batch (max_results - start)).
  assert (Hn : (1 <= n <= 100 ∧ start + n <= max_results)%Z) by lia.
  destruct (parse _) as [|entry entries] eqn:Hparse; cbn [Lib.is_empty].
  - exists out, [(start, n)]. split_and!; [done|done|].
    constructor; [cbn; lia|constructor].
  - destruct (IH (start + n)%Z (out ++ (arxiv_item <$> entry :: entries))
                (asked ++ [(start, n)])) as (out' & new & Heq & Hc & Hall);
      [lia|lia|lia|].
    exists out', ((start, n) :: new). rewrite Heq, <- app_assoc.
    split_and!; [done|done|]. constructor; [cbn; lia|done].
Qed.

Lemma arxiv_run_spec (query : string) (max_results : Z) (fuel : nat) :
  Z.to_nat max_results < fuel →
  ∃ out asked,
    arxiv_run quote_plus parse fuel query max_results = Some (out, asked)
    ∧ contiguous 0 asked
    ∧ Forall (λ w, (0 <= w.1 ∧ 1 <= w.2 <= 100
                    ∧ w.1 + w.2 <= max_results)%Z) asked.
Proof.
  intros Hfuel. unfold arxiv_run.
  destruct (arxiv_loop_spec query
              (if (100 <? max_results)%Z then 100%Z else max_results)
              max_results fuel 0%Z [] []) as (out & new & Heq & ? & ?);
    [lia| |lia|].
  - intros ?. destruct (Z.ltb_spec 100 max_results); lia.
  - exists out, new. by rewrite Heq.
Qed.

(** More fuel than needed changes nothing. *)
Lemma arxiv_loop_fuel (query : string) (batch max_results : Z) (fuel : nat) :
  ∀ fuel' start out asked,
    (0 <= start)%Z →
    ((start < max_results)%Z → (1 <= batch)%Z) →
    Z.to_nat (max_results - start) < fuel →
    Z.to_nat (max_results - start) < fuel' →
    arxiv_loop quote_plus parse fuel query batch max_results start out asked
    = arxiv_loop quote_plus parse fuel' query batch max_results start out asked.
Proof.
  induction fuel as [|fuel IH]; intros fuel' start out asked Hs Hb Hf Hf'; [lia|].
  destruct fuel' as [|fuel']; [lia|]. cbn [arxiv_loop].
  destruct (Z.ltb_spec start max_results) as [Hlt|Hge]; [|done].
  specialize (Hb Hlt).
  destruct (Lib.is_empty _); [done|]. apply IH; lia.
Qed.

End ArxivFacts.

Section ArxivTheorems.
Import Harvest Fetch.

(** X18.  [query_arxiv] always returns.  The windows it requests start
    at 0 and follow each other without gap or overlap; each asks for
    at least one and at most a hundred entries and none reaches beyond
    [max_results].  For a [max_results] of zero or less nothing is
    requested and nothing returned.  The bound on the number of rounds
    in the definition is no restriction: any larger bound gives the
    same result. *)
Theorem query_arxiv_windows (quote_plus : string → string)
    (parse : string → list Entry) (query : string) (max_results : Z) :
  ∃ out asked,
    arxiv_run quote_plus parse (S (Z.to_nat max_results)) query max_results
    = Some (out, asked)
    ∧ query_arxiv quote_plus parse query max_results = out
    ∧ contiguous 0 asked
    ∧ Forall (λ w, (0 <= w.1 ∧ 1 <= w.2 <= 100
                    ∧ w.1 + w.2 <= max_results)%Z) asked
    ∧ (∀ fuel, Z.to_nat max_results < fuel →
               arxiv_run quote_plus parse fuel query max_results
               = Some (out, asked))
    ∧ ((max_results <= 0)%Z → out = [] ∧ asked = []).
Proof.
  destruct (arxiv_run_spec quote_plus parse query max_results
              (S (Z.to_nat max_results))) as (out & asked & Heq & Hc & Hall);
    [lia|].
  exists out, asked. unfold query_arxiv. rewrite Heq.
  split_and!; [done..| |].
  - intros fuel Hfuel. rewrite <- Heq. unfold arxiv_run.
    apply arxiv_loop_fuel; [lia| |lia|lia].
    intros ?. destruct (Z.ltb_spec 100 max_results); lia.
  - intros Hle. unfold arxiv_run in Heq. cbn [arxiv_loop] in Heq.
    destruct (Z.ltb_spec 0 max_results); [lia|]. by injection Heq as <- <-.
Qed.

Lemma query_arxiv_windows_witness :
  ∃ out asked,
    arxiv_run PyLib.quote_plus sample_feed 200 "water supply" 150
    = Some (out, asked)
    ∧ contiguous 0 asked.
Proof.
  destruct (query_arxiv_windows PyLib.quote_plus sample_feed "water supply" 150)
    as (out & asked & _ & _ & Hc & _ & Hfuel & _).
  exists out, asked. split; [|done]. apply Hfuel. cbn. lia.
Defined.

Lemma pdf_link_truthy (e : Entry) :
  Py.truthy (Py.opt_str (e_id e)) = true →
  ∃ link, pdf_link_of e = Some link ∧ Py.truthy link = true.
Proof.
  intros Hid. unfold pdf_link_of. cbv zeta. rewrite Hid, andb_true_r.
  destruct (Py.truthy_opt (match find _ (e_links e) with
                           | Some l => href l | None => None end)) eqn:Hl;
    cbn [negb].
  - by apply truthy_opt_Some in Hl as (s & -> & ?); exists s.
  - eexists. split; [done|].
    set (l := Py.replace _ _ _).
    destruct (Py.endswith l ".pdf") eqn:He; cbn [negb].
    + by destruct l.
    + by apply truthy_app_r.
Qed.

(** X19.  From the arXiv fetcher to the resolver.  An entry with an id
    always gets a PDF link that is not empty: the link of type
    application/pdf of the entry when it has one with an address, and
    else the address built from the id.  A record made from such an
    item carries the link in its [pdf_url] column, so the resolver of
    [download_pdfs_from_csv.py] answers with that link from the first
    strategy, without any request. *)
Theorem arxiv_row_resolves_directly (E : Lib.Env) (e : Entry) (r : Rec)
    (sector : string) (email : option string) (w : Web.World) :
  Py.truthy (Py.opt_str (e_id e)) = true →
  fields r = <["query_sector" := sector]> (arxiv_item e) →
  ∃ link,
    pdf_link_of e = Some link
    ∧ Py.truthy link = true
    ∧ final_row r !! "pdf_url" = Some link
    ∧ Csv.resolve_pdf_url E (Csv.normalize_row (final_row r)) email w
      = ((Some link, "csv_pdf_url"), w).
Proof.
  intros Hid Hfields.
  destruct (pdf_link_truthy e Hid) as (link & Hlink & Htruthy).
  exists link. split; [done|]. split; [done|].
  assert (Hpdf : final_row r !! "pdf_url" = Some link).
  { unfold final_row. cbn [list_to_map foldr uncurry fst snd].
    rewrite !(lookup_insert_ne _ _ "pdf_url") by done.
    rewrite lookup_insert_eq, Hfields.
    rewrite lookup_insert_ne by done.
    unfold arxiv_item. cbv zeta. rewrite Hlink.
    by rewrite lookup_insert_eq. }
  assert (Hnone : final_row r !! "pdf" = None).
  { unfold final_row. cbn [list_to_map foldr uncurry fst snd].
    rewrite !(lookup_insert_ne _ _ "pdf") by done. apply lookup_empty. }
  split; [done|].
  unfold Csv.resolve_pdf_url. cbv zeta.
  assert (Csv.normalize_row (final_row r) !! "pdf_url" = Some link) as ->.
  { unfold Csv.normalize_row. cbv zeta.
    cbn [list_to_map foldr uncurry fst snd].
    rewrite lookup_insert_eq, Hpdf, Hnone. cbn [Py.opt_str default].
    by rewrite or_else_truthy. }
  assert (Csv.normalize_row (final_row r) !! "pdf" = None) as ->.
  { unfold Csv.normalize_row. cbv zeta.
    cbn [list_to_map foldr uncurry fst snd].
    rewrite !(lookup_insert_ne _ _ "pdf") by done. apply lookup_empty. }
  by destruct link.
Qed.

Lemma arxiv_row_resolves_directly_witness :
  ∃ link,
    pdf_link_of (sample_entry "2401.00001") = Some link
    ∧ Py.truthy link = true
    ∧ final_row (new_rec "Energy" "arxiv" (arxiv_item (sample_entry "2401.00001")))
      !! "pdf_url" = Some link
    ∧ Csv.resolve_pdf_url Scenarios.offline_env
        (Csv.normalize_row
           (final_row (new_rec "Energy" "arxiv"
                         (arxiv_item (sample_entry "2401.00001")))))
        None PyLib.empty_world
      = ((Some link, "csv_pdf_url"), PyLib.empty_world).
Proof.
  apply (arxiv_row_resolves_directly Scenarios.offline_env
           (sample_entry "2401.00001")
           (new_rec "Energy" "arxiv" (arxiv_item (sample_entry "2401.00001")))
           "Energy" None PyLib.empty_world); reflexivity.
Defined.

End ArxivTheorems.

Section AbstractFacts.
Import Fetch.

Lemma positions_inner (token : string) (poslist : list Z) :
  ∀ (m : gmap Z string) (q : Z),
    fold_left (λ positions p, <[p := token]> positions) poslist m !! q
    = if decide (q ∈ poslist) then Some token else m !! q.
Proof.
  induction poslist as [|p ps IH]; intros m q; cbn [fold_left].
  - rewrite decide_False; [done|apply not_elem_of_nil].
  - rewrite IH. destruct (decide (q ∈ ps)) as [Hin|Hnot].
    + rewrite decide_True; [done|]. by apply list_elem_of_further.
    + destruct (decide (q = p)) as [->|Hne].
      * rewrite lookup_insert_eq, decide_True; [done|]. apply list_elem_of_here.
      * rewrite lookup_insert_ne by done. rewrite decide_False; [done|].
        by apply not_elem_of_cons.
Qed.

(** A position is bound to a word only if the index lists it under
    that word, and every position the index lists is bound. *)
Lemma positions_sound (ai : list (string * list Z)) :
  ∀ (m : gmap Z string) (q : Z) (token : string),
    fold_left
      (λ positions '(token, poslist),
         fold_left (λ positions p, <[p := token]> positions) poslist positions)
      ai m !! q = Some token →
    m !! q = Some token ∨ ∃ poslist, (token, poslist) ∈ ai ∧ q ∈ poslist.
Proof.
  induction ai as [|[tok ps] ai IH]; intros m q token; cbn [fold_left]; [by left|].
  intros [H|(poslist & Hin & Hq)]%IH.
  - rewrite positions_inner in H. case_decide as Hd.
    + injection H as <-. right. exists ps. split; [apply list_elem_of_here|done].
    + by left.
  - right. exists poslist. split; [by apply list_elem_of_further|done].
Qed.

Lemma positions_complete (ai : list (string * list Z)) :
  ∀ (m : gmap Z string) (q : Z),
    is_Some (m !! q) ∨ (∃ token poslist, (token, poslist) ∈ ai ∧ q ∈ poslist) →
    is_Some (fold_left
               (λ positions '(token, poslist),
                  fold_left (λ positions p, <[p := token]> positions)
                    poslist positions)
               ai m !! q).
Proof.
  induction ai as [|[tok ps] ai IH]; intros m q; cbn [fold_left].
  - intros [?|(? & ? & Hin & _)]; [done|]. by apply elem_of_nil in Hin.
  - intros H. apply IH. rewrite positions_inner.
    destruct (decide (q ∈ ps)) as [Hd|Hd]; [left; by eexists|].
    destruct H as [?|(token & poslist & Hin & Hq)]; [by left|].
    apply elem_of_cons in Hin as [[= -> ->]|Hin]; [done|].
    right. by exists token, poslist.
Qed.

Lemma max_of_spec (l : list Z) (m : Z) :
  max_of l = Some m → m ∈ l ∧ ∀ x, x ∈ l → (x <= m)%Z.
Proof.
  revert m. induction l as [|p l IH]; intros m; [done|].
  change (max_of (p :: l))
    with (Some (match max_of l with Some q => Z.max p q | None => p end)).
  destruct (max_of l) as [q|] eqn:Hq.
  - destruct (IH q eq_refl) as [Hin Hmax]. intros [= <-]. split.
    + destruct (Z.max_spec p q) as [[_ ->]|[_ ->]];
        [by apply list_elem_of_further|apply list_elem_of_here].
    + intros x [->|Hx]%elem_of_cons; [lia|]. specialize (Hmax x Hx). lia.
  - intros [= <-]. destruct l; [|done]. split; [apply list_elem_of_here|].
    intros x [->|Hx]%elem_of_cons; [lia|]. by apply elem_of_nil in Hx.
Qed.

Lemma max_of_some (l : list Z) (x : Z) : x ∈ l → is_Some (max_of l).
Proof. destruct l; [by intros ?%elem_of_nil|]. cbn. eauto. Qed.

Lemma position_keys (m : gmap Z string) (q : Z) :
  q ∈ (map_to_list m).*1 ↔ is_Some (m !! q).
Proof.
  rewrite list_elem_of_fmap. split.
  - intros ([k v] & -> & Hin). apply elem_of_map_to_list in Hin. by eexists.
  - intros [v Hv]. exists (q, v). split; [done|]. by apply elem_of_map_to_list.
Qed.

(** The positions of the index of a text are those of its words. *)
Lemma positions_of_index (tokens : list string) (ai : list (string * list Z)) :
  index_of tokens ai →
  (∀ q token, positions_of ai !! q = Some token →
              (0 <= q)%Z ∧ tokens !! Z.to_nat q = Some token)
  ∧ (∀ i token, tokens !! i = Some token →
                positions_of ai !! Z.of_nat i = Some token).
Proof.
  intros [Hsound Hcover].
  assert (H1 : ∀ q token, positions_of ai !! q = Some token →
                 (0 <= q)%Z ∧ tokens !! Z.to_nat q = Some token).
  { intros q token [H|(poslist & Hin & Hq)]%positions_sound.
    - by rewrite lookup_empty in H.
    - by eapply Hsound. }
  split; [done|]. intros i token Hi.
  destruct (Hcover i token Hi) as (poslist & Hin & Hq).
  destruct (positions_complete ai ∅ (Z.of_nat i)) as [token' Ht'].
  { right. by exists token, poslist. }
  unfold positions_of. rewrite Ht'.
  apply H1 in Ht' as [_ Ht']. rewrite Nat2Z.id in Ht'. congruence.
Qed.

End AbstractFacts.

Section AbstractTheorems.
Import Fetch.

(** X20.  The abstract of a work is rebuilt from its inverted index
    without loss: for the index of a text, that is, an index that
    lists every word of the text under each of its positions and
    nothing else, [query_openalex] gets back the words of the text in
    their order, separated by single spaces.  A work without index, or
    with an empty one, has the empty abstract. *)
Theorem abstract_round_trip (tokens : list string) (ai : list (string * list Z)) :
  tokens ≠ [] →
  index_of tokens ai →
  abstract_of (Some ai) = PySeq.join " " tokens
  ∧ abstract_of None = ""
  ∧ abstract_of (Some []) = "".
Proof.
  intros Hne Hindex. split; [|done].
  destruct (positions_of_index tokens ai Hindex) as [Hsound Hcover].
  assert (Hlen : 0 < length tokens) by (destruct tokens; [done|cbn; lia]).
  unfold abstract_of.
  destruct ai as [|entry ai'] eqn:Hai.
  { destruct Hindex as [_ Hc]. destruct tokens as [|t ts]; [done|].
    destruct (Hc 0 t eq_refl) as (? & Hin & _). by apply elem_of_nil in Hin. }
  rewrite <- Hai in *. clear Hai entry ai'. cbv zeta.
  (* the largest position is the last one of the text *)
  destruct (lookup_lt_is_Some_2 tokens (length tokens - 1)) as [last Hlast]; [lia|].
  pose proof (Hcover _ _ Hlast) as Hlast'.
  destruct (max_of_some (map_to_list (positions_of ai)).*1
              (Z.of_nat (length tokens - 1))) as [m Hm].
  { apply position_keys. by eexists. }
  rewrite Hm. apply max_of_spec in Hm as [Hin Hmax].
  apply position_keys in Hin as [tok Htok].
  apply Hsound in Htok as [Hpos Htok]. apply lookup_lt_Some in Htok.
  assert (Z.of_nat (length tokens - 1) <= m)%Z.
  { apply Hmax, position_keys. by eexists. }
  assert (m + 1 = Z.of_nat (length tokens))%Z as -> by lia.
  assert (mapM (λ i, positions_of ai !! i) (seqZ 0 (Z.of_nat (length tokens)))
          = Some tokens) as ->; [|done].
  apply mapM_Some_2, Forall2_same_length_lookup_2.
  { rewrite length_seqZ. lia. }
  intros i x y [-> _]%lookup_seqZ Hy. rewrite Z.add_0_l. by apply Hcover.
Qed.

Lemma abstract_round_trip_witness :
  abstract_of (Some [("solar", [0; 3]%Z); ("pumps", [1]%Z); ("for", [2]%Z);
                     ("farms", [4]%Z)])
  = PySeq.join " " ["solar"; "pumps"; "for"; "solar"; "farms"].
Proof.
  apply (abstract_round_trip ["solar"; "pumps"; "for"; "solar"; "farms"]
           [("solar", [0; 3]%Z); ("pumps", [1]%Z); ("for", [2]%Z);
            ("farms", [4]%Z)]); [done|].
  split.
  - intros token poslist p Hin Hp.
    repeat (apply elem_of_cons in Hin as [[= -> ->]|Hin];
            [repeat (apply elem_of_cons in Hp as [->|Hp]; [by split|]);
             by apply elem_of_nil in Hp|]).
    by apply elem_of_nil in Hin.
  - intros i token Hi.
    do 5 (destruct i as [|i];
          [injection Hi as <-; eexists; split; by repeat constructor|]).
    done.
Defined.

End AbstractTheorems.

(* ===================================================================== *)
(** ** The choice of topics *)
(* ===================================================================== *)

Section TopicFacts.
Import Web Topics.
Context {A : Type} (key : A → Z).

Lemma insert_desc_perm (x : A) (l : list A) :
  PySeq.insert_desc key x l ≡ₚ x :: l.
Proof.
  induction l as [|y l IH]; cbn; [done|].
  destruct (key y <=? key x)%Z; [done|].
  rewrite IH. apply Permutation_swap.
Qed.

Lemma insert_desc_sorted (x : A) (l : list A) :
  StronglySorted (λ a b, (key b <= key a)%Z) l →
  StronglySorted (λ a b, (key b <= key a)%Z) (PySeq.insert_desc key x l).
Proof.
  induction l as [|y l IH]; cbn; intros Hs.
  { constructor; [constructor|constructor]. }
  apply StronglySorted_inv in Hs as [Hs Hall].
  destruct (Z.leb_spec (key y) (key x)) as [Hle|Hlt].
  - constructor; [by constructor|].
    constructor; [done|]. eapply Forall_impl; [done|]. cbn. lia.
  - constructor; [by apply IH|].
    apply Forall_forall. intros z Hz. rewrite insert_desc_perm in Hz.
    apply elem_of_cons in Hz as [->|Hz]; [lia|].
    by eapply Forall_forall in Hall.
Qed.

Lemma sorted_desc_perm (l : list A) : PySeq.sorted_desc key l ≡ₚ l.
Proof.
  induction l as [|x l IH]; cbn; [done|].
  by rewrite insert_desc_perm, IH.
Qed.

Lemma sorted_desc_sorted (l : list A) :
  StronglySorted (λ a b, (key b <= key a)%Z) (PySeq.sorted_desc key l).
Proof.
  induction l as [|x l IH]; cbn; [constructor|]. by apply insert_desc_sorted.
Qed.

(** A slice from the start is a prefix. *)
Lemma slice_to_prefix (n : Z) (l : list A) :
  ∃ rest, l = PySeq.slice_to n l ++ rest
          ∧ ((0 <= n)%Z → length (PySeq.slice_to n l) = Z.to_nat n `min` length l)
          ∧ ((n < 0)%Z →
             length (PySeq.slice_to n l) = length l - Z.to_nat (- n)).
Proof.
  unfold PySeq.slice_to. destruct (Z.leb_spec 0 n).
  - exists (drop (Z.to_nat n) l). split_and!.
    + by rewrite firstn_skipn.
    + intros _. apply list.length_take.
    + lia.
  - exists (drop (length l - Z.to_nat (- n)) l). split_and!.
    + by rewrite firstn_skipn.
    + lia.
    + intros _. rewrite list.length_take. lia.
Qed.

End TopicFacts.


Section TopicTheorems.
Import Web Topics.

(** X21.  [fetch_candidate_topics] returns the topics with the most
    works: what it returns is in the order of falling numbers of
    works, a topic without a number counting as zero; it is taken from
    the topics of the answer, and no topic left out has more works
    than one returned.  For a limit of zero or more it returns that
    many topics, or all if there are fewer; a negative limit leaves
    out that many from the end.  When the request fails, it returns
    no topic. *)
Theorem fetch_candidate_topics_top (topics : list Topic) (max_topics : Z) :
  let out := fetch_candidate_topics (Ok topics) max_topics in
  StronglySorted by_count out
  ∧ (∃ rest, topics ≡ₚ out ++ rest
             ∧ ∀ t t', t ∈ out → t' ∈ rest → by_count t t')
  ∧ ((0 <= max_topics)%Z → length out = Z.to_nat max_topics `min` length topics)
  ∧ ((max_topics < 0)%Z → length out = length topics - Z.to_nat (- max_topics))
  ∧ ∀ e, fetch_candidate_topics (Raise e) max_topics = [].
Proof.
  cbv zeta. unfold fetch_candidate_topics.
  pose proof (sorted_desc_sorted count topics) as Hsorted.
  pose proof (sorted_desc_perm count topics) as Hperm.
  destruct (slice_to_prefix max_topics (PySeq.sorted_desc count topics))
    as (rest & Heq & Hpos & Hneg).
  rewrite Heq in Hsorted.
  rewrite <- (Permutation_length Hperm).
  split_and!; [|exists rest; split|done|done|done].
  - by apply StronglySorted_app_1_l in Hsorted.
  - by rewrite <- Heq.
  - intros t t' Ht Ht'.
    by apply (StronglySorted_app_1_elem_of _ _ _ _ _ Hsorted).
Qed.

Lemma fetch_candidate_topics_top_witness :
  length (fetch_candidate_topics (Ok sample_topics) 3) = 3
  ∧ (topic_name <$> fetch_candidate_topics (Ok sample_topics) 3)
    = [Some "Software"; Some "Sensors"; Some "Hardware"].
Proof.
  split; [|reflexivity].
  destruct (fetch_candidate_topics_top sample_topics 3) as (_ & _ & H & _).
  rewrite H; [reflexivity|lia].
Defined.

(** X22.  The topic id [main] hands to [download_for_topic].  For an
    id that starts with the address of OpenAlex it is the text after
    the last slash of the id: the id ends with a slash followed by it,
    and it holds no slash.  So for the address of a topic it is the
    bare identifier.  Any other id is handed on as it is, a missing
    one as the empty text. *)
Theorem tid_of_openalex_address (t : Topic) :
  (∀ name,
     topic_id t = Some ("https://openalex.org/" +:+ name) →
     Py.contains "/" (tid_of t) = false
     ∧ (∃ pre, "https://openalex.org/" +:+ name
               = pre +:+ String "/" (tid_of t))
     ∧ (Py.contains "/" name = false → tid_of t = name))
  ∧ (Py.startswith (Py.opt_str (topic_id t)) "https://openalex.org/" = false →
     tid_of t = Py.opt_str (topic_id t)).
Proof.
  split.
  - intros name Hid. unfold tid_of. rewrite Hid.
    change (Py.opt_str (Some ("https://openalex.org/" +:+ name)))
      with ("https://openalex.org/" +:+ name).
    unfold Py.startswith. rewrite prefix_app_self. split_and!.
    + apply last_segment_no_slash.
    + apply last_segment_spec.
      change ("https://openalex.org/" +:+ name)
        with ("https://openalex.org" +:+ String "/" name).
      apply contains_slash_app.
    + intros Hname.
      change ("https://openalex.org/" +:+ name)
        with ("https://openalex.org" +:+ String "/" name).
      by apply last_segment_app.
  - intros Hstart. unfold tid_of. by rewrite Hstart.
Qed.

Lemma tid_of_openalex_address_witness :
  tid_of {| topic_id := Some "https://openalex.org/T10973";
            topic_name := None; works_count := None |} = "T10973"
  ∧ tid_of {| topic_id := Some "T10973";
              topic_name := None; works_count := None |} = "T10973".
Proof.
  split.
  - apply (proj1 (tid_of_openalex_address _) "T10973"); reflexivity.
  - apply (proj2 (tid_of_openalex_address
                    {| topic_id := Some "T10973";
                       topic_name := None; works_count := None |})).
    reflexivity.
Defined.

End TopicTheorems.
